(** * pymatgen: phonon density of states and energy models

    A shallow embedding of [pymatgen/phonon/dos.py] and
    [pymatgen/analysis/energy_models.py].

    - Numbers are IEEE-754 binary64 values ([PrimFloat.float]), which is what
      Python's [float] and numpy's [float64] are.  Integer literals of the
      source that meet a float ([0], [1], [2]) are written as the floats they
      are converted to.
    - A one-dimensional numpy array is a [list float]; elementwise operators
      follow numpy's broadcasting rule for one-dimensional operands.
    - A raised exception is the [Raise] branch of [result].
    - The numerical primitives of numpy and scipy whose floating-point result
      is fixed by those libraries and not by this repository ([np.trapz],
      [np.sinh], [np.tanh], [np.log], [gaussian_filter1d]) and the values of
      [scipy.constants] are the fields of the class [Externals]. *)

From Stdlib Require Import Floats ZArith List Bool String Arith Lia.
From Stdlib Require DecimalString Ascii Permutation.
Import ListNotations.

Set Implicit Arguments.
Set Warnings "-inexact-float".

(** ** Python: exceptions, truthiness, dictionaries *)

Module Py.

Inductive exn : Type :=
  | ValueError (msg : string)
  | KeyError
  | IndexError
  | TypeError
  | ZeroDivisionError
  | OverflowError.

Inductive result (A : Type) : Type :=
  | Ok (a : A)
  | Raise (e : exn).

Arguments Ok {A} a.
Arguments Raise {A} e.

Definition bind {A B : Type} (m : result A) (k : A -> result B) : result B :=
    match m with
    | Ok a => k a
    | Raise e => Raise e
    end.

Definition fmap {A B : Type} (f : A -> B) (m : result A) : result B :=
    bind m (fun a => Ok (f a)).

  (** Python's [x / y] on two floats: a zero divisor raises. *)
Definition truediv (x y : float) : result float :=
    if PrimFloat.eqb y 0 then Raise ZeroDivisionError else Ok (PrimFloat.div x y).

  (** [len(xs)] as a float, for [sum(diff) / len(diff)]. *)
Definition float_of_len (n : nat) : float :=
    PrimFloat.of_uint63 (Uint63.of_Z (Z.of_nat n)).

  (** The builtin [sum]: a left fold that starts from [0]. *)
Definition sum (xs : list float) : float :=
    fold_left PrimFloat.add xs 0%float.

  (** The builtin [all]. *)
Definition all (bs : list bool) : bool := forallb (fun b => b) bs.

  (** [enumerate(xs)]. *)
Definition enumerate {A : Type} (xs : list A) : list (nat * A) :=
    combine (seq 0 (List.length xs)) xs.

  (** A [dict]: insertion-ordered, one entry per key, keys compared by
      the boolean equality [K_eqb]. *)
Definition dict (K V : Type) : Type := list (K * V).

Section Dict.
Context {K V : Type} (K_eqb : K -> K -> bool).

Fixpoint dict_get (d : dict K V) (k : K) : option V :=
      match d with
      | [] => None
      | (k', v) :: r => if K_eqb k' k then Some v else dict_get r k
      end.

    (** [d[k]]. *)
Definition dict_getitem (d : dict K V) (k : K) : result V :=
      match dict_get d k with
      | Some v => Ok v
      | None => Raise KeyError
      end.

    (** [d[k] = v]: an existing key keeps its place. *)
Fixpoint dict_set (d : dict K V) (k : K) (v : V) : dict K V :=
      match d with
      | [] => [(k, v)]
      | (k', v') :: r =>
          if K_eqb k' k then (k', v) :: r else (k', v') :: dict_set r k v
      end.

    (** [dict(pairs)]. *)
Definition dict_of_pairs (pairs : list (K * V)) : dict K V :=
      fold_left (fun d kv => dict_set d (fst kv) (snd kv)) pairs [].

Definition dict_keys (d : dict K V) : list K := map fst d.

End Dict.

End Py.

Import Py.

Declare Scope py_scope.
Delimit Scope py_scope with py.
Notation "x <- m ;; k" := (Py.bind m (fun x => k))
  (at level 61, m at next level, right associativity) : py_scope.
Open Scope py_scope.

(** ** numpy: one-dimensional float64 arrays *)

Module Np.

Definition ndarray : Type := list float.

  (** The order numpy sorts and searches floats by: [a < b], with every
      NaN after every number. *)
Definition less (a b : float) : bool :=
    PrimFloat.ltb a b || (negb (PrimFloat.eqb b b) && PrimFloat.eqb a a).

  (** The loop of numpy's left binary search: [min_idx] and [max_idx] close
      in on the insertion point.  [fuel] bounds the number of iterations;
      [max_idx - min_idx] iterations are all the loop can make. *)
Fixpoint binsearch_left (fuel : nat) (arr : ndarray) (key : float)
      (min_idx max_idx : nat) : nat :=
    match fuel with
    | O => min_idx
    | S fuel' =>
        if min_idx <? max_idx then
          let mid_idx := min_idx + (max_idx - min_idx) / 2 in
          let mid_val := nth mid_idx arr nan in
          if less mid_val key
          then binsearch_left fuel' arr key (mid_idx + 1) max_idx
          else binsearch_left fuel' arr key min_idx mid_idx
        else min_idx
    end.

  (** [np.searchsorted(arr, key)] with the default [side='left']. *)
Definition searchsorted (arr : ndarray) (key : float) : nat :=
    binsearch_left (List.length arr) arr key 0 (List.length arr).

  (** [map2 f a b]: [f] on the paired elements of two lists. *)
Definition map2 {A B C : Type} (f : A -> B -> C) (a : list A) (b : list B) : list C :=
    map (fun p => f (fst p) (snd p)) (combine a b).

  (** A binary ufunc on two one-dimensional arrays: equal lengths pair up, a
      length-one operand is stretched, anything else does not broadcast. *)
Definition broadcast {C : Type} (f : float -> float -> C) (a b : ndarray)
      : result (list C) :=
    if List.length a =? List.length b then Ok (map2 f a b)
    else match a, b with
         | [x], _ => Ok (map (f x) b)
         | _, [y] => Ok (map (fun x => f x y) a)
         | _, _ => Raise (ValueError "operands could not be broadcast together")
         end.

Definition equal : ndarray -> ndarray -> result (list bool) := broadcast PrimFloat.eqb.
Definition add : ndarray -> ndarray -> result ndarray := broadcast PrimFloat.add.
Definition multiply : ndarray -> ndarray -> result ndarray := broadcast PrimFloat.mul.

  (** [x ** 2] on float64 is the square [x * x]. *)
Definition square (x : float) : float := (x * x)%float.

End Np.

(** The numerical primitives and constants the modules import. *)
Class Externals : Type := {
  (** [np.trapz(y, x=x)] *)
  np_trapz : Np.ndarray -> Np.ndarray -> result float;
  np_sinh : float -> float;
  np_tanh : float -> float;
  np_log : float -> float;
  (** [scipy.ndimage.filters.gaussian_filter1d(input, sigma)] *)
  gaussian_filter1d : Np.ndarray -> float -> result Np.ndarray;
  (** [const.value("Boltzmann constant in Hz/K")] *)
  const_value_Boltzmann_in_Hz_per_K : float;
  (** [const.value("hertz-joule relationship")] *)
  const_value_hertz_joule : float;
  const_tera : float;
  const_Boltzmann : float;
  const_Avogadro : float
}.

(** ** The crystal structure (pymatgen.core)

    Modelled from the spec: [pymatgen.core.structure.Structure] and its
    sites, species and composition are not part of the modelled sources.  The
    spec describes the structure as a provider of its site count, the
    per-site species with an optional scalar spin attribute, a neighbour
    query by cutoff radius and the composition totals; that is what these
    records carry. *)

Record Species : Type := {
  symbol : string;
  spin : option float   (* [None]: the species has no attribute [spin] *)
}.

Record Site : Type := {
  specie : Species;
  frac_coords : float * float * float
}.

(** An entry of a neighbour list: a site and its distance to the origin site
    of the list. *)
Record PeriodicNeighbor : Type := {
  nn_site : Site;
  nn_distance : float
}.

Record Composition : Type := {
  num_atoms : float;
  reduced_composition_num_atoms : float
}.

Record Structure : Type := {
  sites : list Site;
  composition : Composition
}.

Definition option_eqb {A : Type} (eqb : A -> A -> bool) (x y : option A) : bool :=
  match x, y with
  | Some a, Some b => eqb a b
  | None, None => true
  | _, _ => false
  end.

Definition Species_eqb (a b : Species) : bool :=
  String.eqb (symbol a) (symbol b) && option_eqb PrimFloat.Leibniz.eqb (spin a) (spin b).

Definition coords_eqb (a b : float * float * float) : bool :=
  let '(a1, a2, a3) := a in
  let '(b1, b2, b3) := b in
  PrimFloat.Leibniz.eqb a1 b1 && PrimFloat.Leibniz.eqb a2 b2 && PrimFloat.Leibniz.eqb a3 b3.

(** Site identity, the key comparison of the [pdos] dictionary. *)
Definition Site_eqb (a b : Site) : bool :=
  Species_eqb (specie a) (specie b) && coords_eqb (frac_coords a) (frac_coords b).

(** [len(structure)] *)
Definition Structure_len (s : Structure) : nat := List.length (sites s).

(** [structure[idx]] *)
Definition Structure_getitem (s : Structure) (idx : nat) : result Site :=
  match nth_error (sites s) idx with
  | Some site => Ok site
  | None => Raise IndexError
  end.

(** The truth value of [structure] in [if structure:], for an argument of
    type [Structure | None].  A [Structure] defines [__len__] (see
    [NsitesModel.get_energy]) and no [__bool__], so it is true exactly when
    it has a site. *)
Definition Structure_bool (structure : option Structure) : bool :=
  match structure with
  | None => false
  | Some s => negb (Structure_len s =? 0)
  end.

(** The services of the structure that the modelled code calls and that live
    outside it. *)
Class StructureServices : Type := {
  (** the dict that [Structure.as_dict] returns *)
  structure_dict : Type;
  Structure_as_dict : Structure -> structure_dict;
  Structure_from_dict : structure_dict -> Structure;
  (** [structure.get_all_neighbors(r=...)]: one list per site, in site order *)
  get_all_neighbors : Structure -> float -> list (list PeriodicNeighbor)
}.

(** The values found in the dicts of [as_dict] and [from_dict]. *)
Inductive pyvalue `{StructureServices} : Type :=
| PyStr (s : string)
| PyList (l : list float)
| PyListOfLists (l : list (list float))
| PyStructureDict (d : structure_dict).

(** A dict with string keys, as [as_dict] builds and [from_dict] reads. *)
Definition msondict `{StructureServices} : Type := Py.dict string pyvalue.

(** [np.array(v)] for a value that is a list of floats. *)
Definition np_array `{StructureServices} (v : pyvalue) : result Np.ndarray :=
  match v with
  | PyList l => Ok l
  | _ => Raise TypeError
  end.

(** ** pymatgen/phonon/dos.py *)

Definition BOLTZ_THZ_PER_K `{Externals} : float :=
  (const_value_Boltzmann_in_Hz_per_K / const_tera)%float.

Definition THZ_TO_J `{Externals} : float :=
  (const_value_hertz_joule * const_tera)%float.

Module PhononDos.

(** The attributes that [__init__] stores: [np.array(frequencies)] and
    [np.array(densities)]. *)
Record t : Type := make {
  frequencies : Np.ndarray;
  densities : Np.ndarray
}.

Section Methods.
Context `{Externals} `{StructureServices}.

Definition get_smeared_densities (self : t) (sigma : float) : result Np.ndarray :=
  let diff :=
    map (fun idx => (nth (idx + 1) (frequencies self) nan - nth idx (frequencies self) nan)%float)
        (seq 0 (List.length (frequencies self) - 1)) in
  avg_diff <- (if List.length diff =? 0 then Raise ZeroDivisionError
               else Ok (Py.sum diff / Py.float_of_len (List.length diff))%float) ;;
  gaussian_filter1d (densities self) (sigma / avg_diff)%float.

Definition __add__ (self other : t) : result t :=
  same <- Np.equal (frequencies self) (frequencies other) ;;
  if negb (Py.all same)
  then Raise (ValueError "Frequencies of both DOS are not compatible!")
  else
    densities' <- Np.add (densities self) (densities other) ;;
    Ok (make (frequencies self) densities').

Definition __radd__ (self other : t) : result t :=
  __add__ self other.

Definition from_dict (d : msondict) : result t :=
  f <- Py.dict_getitem String.eqb d "frequencies"%string ;;
  g <- Py.dict_getitem String.eqb d "densities"%string ;;
  frequencies' <- np_array f ;;
  densities' <- np_array g ;;
  Ok (make frequencies' densities').

Definition as_dict (self : t) : msondict :=
  [ ("@module"%string, PyStr "pymatgen.phonon.dos");
    ("@class"%string, PyStr "PhononDos");
    ("frequencies"%string, PyList (frequencies self));
    ("densities"%string, PyList (densities self)) ].

Definition ind_zero_freq (self : t) : result nat :=
  let ind := Np.searchsorted (frequencies self) 0 in
  if List.length (frequencies self) <=? ind
  then Raise (ValueError "No positive frequencies found")
  else Ok ind.

Definition _positive_frequencies (self : t) : result Np.ndarray :=
  ind <- ind_zero_freq self ;;
  Ok (skipn ind (frequencies self)).

Definition _positive_densities (self : t) : result Np.ndarray :=
  ind <- ind_zero_freq self ;;
  Ok (skipn ind (densities self)).

(** [formula_units = structure.composition.num_atoms /
    structure.composition.reduced_composition.num_atoms] *)
Definition formula_units (structure : Structure) : result float :=
  Py.truediv (num_atoms (composition structure))
             (reduced_composition_num_atoms (composition structure)).

(** The block that closes each of the five methods:
    [if structure: formula_units = ...; value /= formula_units]. *)
Definition per_formula_unit (value : float) (structure : option Structure) : result float :=
  match structure with
  | Some s =>
      if Structure_bool structure
      then fu <- formula_units s ;; Ok (value / fu)%float
      else Ok value
  | None => Ok value
  end.

(** [freqs / (2 * BOLTZ_THZ_PER_K * t)] *)
Definition wd2kt_of (freqs : Np.ndarray) (t : float) : Np.ndarray :=
  map (fun f => (f / (2 * BOLTZ_THZ_PER_K * t))%float) freqs.

Definition csch2 (x : float) : float := (1 / Np.square (np_sinh x))%float.

Definition zero_point_energy (self : t) (structure : option Structure) : result float :=
  freqs <- _positive_frequencies self ;;
  dens <- _positive_densities self ;;
  y <- Np.multiply freqs dens ;;
  q <- np_trapz y freqs ;;
  let zpe := (0.5 * q)%float in
  let zpe := (zpe * (THZ_TO_J * const_Avogadro))%float in
  per_formula_unit zpe structure.

Definition cv (self : t) (t : float) (structure : option Structure) : result float :=
  if PrimFloat.eqb t 0 then Ok 0%float
  else
    freqs <- _positive_frequencies self ;;
    dens <- _positive_densities self ;;
    let wd2kt := wd2kt_of freqs t in
    y <- Np.multiply (map (fun x => (Np.square x * csch2 x)%float) wd2kt) dens ;;
    q <- np_trapz y freqs ;;
    let cv := (q * (const_Boltzmann * const_Avogadro))%float in
    per_formula_unit cv structure.

Definition entropy (self : t) (t : float) (structure : option Structure) : result float :=
  if PrimFloat.eqb t 0 then Ok 0%float
  else
    freqs <- _positive_frequencies self ;;
    dens <- _positive_densities self ;;
    let wd2kt := wd2kt_of freqs t in
    y <- Np.multiply
           (map (fun x => (x * 1 / np_tanh x - np_log (2 * np_sinh x))%float) wd2kt) dens ;;
    q <- np_trapz y freqs ;;
    let s := (q * (const_Boltzmann * const_Avogadro))%float in
    per_formula_unit s structure.

Definition internal_energy (self : t) (t : float) (structure : option Structure) : result float :=
  if PrimFloat.eqb t 0 then zero_point_energy self structure
  else
    freqs <- _positive_frequencies self ;;
    dens <- _positive_densities self ;;
    let wd2kt := wd2kt_of freqs t in
    y <- Np.multiply (Np.map2 (fun f x => (f * 1 / np_tanh x)%float) freqs wd2kt) dens ;;
    q <- np_trapz y freqs ;;
    let e := (q / 2)%float in
    let e := (e * (THZ_TO_J * const_Avogadro))%float in
    per_formula_unit e structure.

Definition helmholtz_free_energy (self : t) (t : float) (structure : option Structure)
    : result float :=
  if PrimFloat.eqb t 0 then zero_point_energy self structure
  else
    freqs <- _positive_frequencies self ;;
    dens <- _positive_densities self ;;
    let wd2kt := wd2kt_of freqs t in
    y <- Np.multiply (map (fun x => np_log (2 * np_sinh x)%float) wd2kt) dens ;;
    q <- np_trapz y freqs ;;
    let f := (q * (const_Boltzmann * const_Avogadro * t))%float in
    per_formula_unit f structure.

End Methods.

End PhononDos.

Module CompletePhononDos.

(** A [CompletePhononDos] is a [PhononDos] (the attributes [__init__] hands
    to [super().__init__]) with the per-site densities and the structure. *)
Record t : Type := make {
  base : PhononDos.t;
  pdos : Py.dict Site Np.ndarray;
  structure : Structure
}.

Section Methods.
Context `{Externals} `{StructureServices}.

Definition __init__ (structure : Structure) (total_dos : PhononDos.t)
    (pdoses : Py.dict Site Np.ndarray) : t :=
  {| base := PhononDos.make (PhononDos.frequencies total_dos) (PhononDos.densities total_dos);
     pdos := Py.dict_of_pairs Site_eqb (map (fun item => (fst item, snd item)) pdoses);
     structure := structure |}.

Definition get_site_dos (self : t) (site : Site) : result PhononDos.t :=
  dens <- Py.dict_getitem Site_eqb (pdos self) site ;;
  Ok (PhononDos.make (PhononDos.frequencies (base self)) dens).

(** The loop [for at in self.structure: dct["pdos"].append(list(self.pdos[at]))]. *)
Fixpoint pdos_in_site_order (pdos : Py.dict Site Np.ndarray) (ats : list Site)
    : result (list (list float)) :=
  match ats with
  | [] => Ok []
  | site :: rest =>
      dens <- Py.dict_getitem Site_eqb pdos site ;;
      more <- pdos_in_site_order pdos rest ;;
      Ok (dens :: more)
  end.

Definition as_dict (self : t) : result msondict :=
  pdos_list <- (if 0 <? List.length (pdos self)
                then pdos_in_site_order (pdos self) (sites (structure self))
                else Ok []) ;;
  Ok [ ("@module"%string, PyStr "pymatgen.phonon.dos");
       ("@class"%string, PyStr "CompletePhononDos");
       ("structure"%string, PyStructureDict (Structure_as_dict (structure self)));
       ("frequencies"%string, PyList (PhononDos.frequencies (base self)));
       ("densities"%string, PyList (PhononDos.densities (base self)));
       ("pdos"%string, PyListOfLists pdos_list) ].

Definition from_dict (dct : msondict) : result t :=
  tdos <- PhononDos.from_dict dct ;;
  sd <- Py.dict_getitem String.eqb dct "structure"%string ;;
  struct <- match sd with
            | PyStructureDict d => Ok (Structure_from_dict d)
            | _ => Raise TypeError
            end ;;
  pd <- Py.dict_getitem String.eqb dct "pdos"%string ;;
  pdos_list <- match pd with
               | PyListOfLists l => Ok l
               | _ => Raise TypeError
               end ;;
  let pdoss := Py.dict_of_pairs Site_eqb (combine (sites struct) pdos_list) in
  Ok (__init__ struct tdos pdoss).

End Methods.

End CompletePhononDos.

(** An instance of either class.  The methods of [PhononDos] that
    [CompletePhononDos] does not override act on the inherited attributes. *)
Inductive DosObject : Type :=
| IsPhononDos (d : PhononDos.t)
| IsCompletePhononDos (c : CompletePhononDos.t).

Definition inherited (o : DosObject) : PhononDos.t :=
  match o with
  | IsPhononDos d => d
  | IsCompletePhononDos c => CompletePhononDos.base c
  end.

(** [a + b] on two instances: [__add__] is inherited unchanged, and it
    builds its result with [PhononDos(...)]. *)
Definition dos_plus (a b : DosObject) : result DosObject :=
  Py.fmap IsPhononDos (PhononDos.__add__ (inherited a) (inherited b)).

(** ** pymatgen/analysis/energy_models.py *)

(** [x ** y] on the distance of a neighbour.  The distance is a float64 that
    the neighbour search takes from a numpy array, and [**] hands it and the
    exponent to the C library's [pow]; the result, its last bit included, is
    the library's, and [x * x] need not be [x ** 2]. *)
Class ScalarPower : Type := {
  float_pow : float -> float -> float
}.

Module IsingModel.

Record t : Type := make {
  j : float;
  max_radius : float
}.

(** [getattr(specie, "spin", 0)] *)
Definition getattr_spin (sp : Species) : float :=
  match spin sp with
  | Some s => s
  | None => 0%float
  end.

Section Methods.
Context `{StructureServices} `{ScalarPower}.

(** The summand [self.j * s1 * getattr(nn.specie, "spin", 0) / (nn.nn_distance**2)]. *)
Definition pair_energy (self : t) (s1 : float) (nn : PeriodicNeighbor) : float :=
  (j self * s1 * getattr_spin (specie (nn_site nn)) / float_pow (nn_distance nn) 2)%float.

Definition get_energy (self : t) (structure : Structure) : result float :=
  let all_nn := get_all_neighbors structure (max_radius self) in
  fold_left
    (fun acc item =>
       energy <- acc ;;
       site <- Structure_getitem structure (fst item) ;;
       let s1 := getattr_spin (specie site) in
       Ok (fold_left (fun energy nn => (energy + pair_energy self s1 nn)%float)
                     (snd item) energy))
    (Py.enumerate all_nn) (Ok 0%float).

End Methods.

End IsingModel.

Module NsitesModel.

Definition get_energy (structure : Structure) : nat := Structure_len structure.

End NsitesModel.

(** ** Vocabulary of the properties *)

(** An ascending array of numbers: every element is [<=] itself (so none is
    a NaN) and [<=] every later element. *)
Fixpoint ascendingb (l : Np.ndarray) : bool :=
  match l with
  | [] => true
  | x :: r => PrimFloat.leb x x && forallb (PrimFloat.leb x) r && ascendingb r
  end.

Definition ascending (l : Np.ndarray) : Prop := ascendingb l = true.

(** [i] is the first index of [l] at which [p] holds. *)
Definition is_first_index (p : float -> bool) (l : Np.ndarray) (i : nat) : Prop :=
  i < List.length l
  /\ p (nth i l nan) = true
  /\ forall k, k < i -> p (nth k l nan) = false.

(** The first index at which [p] holds, computed. *)
Fixpoint first_index (p : float -> bool) (l : Np.ndarray) : option nat :=
  match l with
  | [] => None
  | x :: r => if p x then Some 0 else option_map S (first_index p r)
  end.

Definition nonneg (f : float) : bool := PrimFloat.leb 0 f.
Definition negative (f : float) : bool := PrimFloat.ltb f 0.

(** Two arrays of one length whose paired elements compare equal. *)
Definition elementwise_equal (a b : Np.ndarray) : bool :=
  (List.length a =? List.length b)
  && forallb (fun p => PrimFloat.eqb (fst p) (snd p)) (combine a b).

(** The invariant of the data model: one density per frequency. *)
Definition well_formed (d : PhononDos.t) : Prop :=
  List.length (PhononDos.frequencies d) = List.length (PhononDos.densities d).

(** The error of [ind_zero_freq]. *)
Definition NoPositiveFrequencies : exn := ValueError "No positive frequencies found".

(** The error of [__add__]. *)
Definition IncompatibleSpectra : exn :=
  ValueError "Frequencies of both DOS are not compatible!".

(** The differences of consecutive elements. *)
Fixpoint consecutive_differences (l : Np.ndarray) : list float :=
  match l with
  | x0 :: (x1 :: _) as r => (x1 - x0)%float :: consecutive_differences r
  | _ => []
  end.

(** The mean of the consecutive differences of an axis of at least two
    points. *)
Definition average_spacing (l : Np.ndarray) : float :=
  (Py.sum (consecutive_differences l) / Py.float_of_len (List.length l - 1))%float.

(** [method] called with the structure [s] returns what it returns without a
    structure, divided by the formula units of [s]. *)
Definition divides_by_formula_units
    (method : option Structure -> result float) (s : Structure) : Prop :=
  method (Some s) =
  (value <- method None ;; fu <- PhononDos.formula_units s ;; Ok (value / fu)%float).

(** The ordered pairs (origin site, neighbour) of a neighbour enumeration, in
    the order the enumeration lists them. *)
Definition ordered_pairs (origins : list Site) (all_nn : list (list PeriodicNeighbor))
    : list (Site * PeriodicNeighbor) :=
  flat_map (fun item => map (fun nn => (fst item, nn)) (snd item)) (combine origins all_nn).

(** [coupling * spin(i) * spin(j) / distance(i,j)^2], the square being
    [distance ** 2]. *)
Definition pair_term `{ScalarPower} (coupling : float) (p : Site * PeriodicNeighbor) : float :=
  (coupling * IsingModel.getattr_spin (specie (fst p))
            * IsingModel.getattr_spin (specie (nn_site (snd p)))
   / float_pow (nn_distance (snd p)) 2)%float.

(** The keys of a dict are pairwise different. *)
Definition dict_ok {V : Type} (d : Py.dict Site V) : Prop := NoDup (Py.dict_keys d).

(** The invariant of the data model: the per-site mapping has one entry per
    site of the structure (or none at all), and no other entry. *)
Definition one_entry_per_site (x : CompletePhononDos.t) : Prop :=
  dict_ok (CompletePhononDos.pdos x)
  /\ (forall site, In site (Py.dict_keys (CompletePhononDos.pdos x)) ->
                   In site (sites (CompletePhononDos.structure x)))
  /\ (CompletePhononDos.pdos x = []
      \/ forall site, In site (sites (CompletePhononDos.structure x)) ->
                      In site (Py.dict_keys (CompletePhononDos.pdos x))).

(** ** Instances to evaluate the definitions on *)

(** The composite trapezoidal rule with the terms added left to right. *)
Fixpoint trapezoid_terms (y x : list float) : list float :=
  match y, x with
  | y0 :: ((y1 :: _) as yr), x0 :: ((x1 :: _) as xr) =>
      ((x1 - x0) * (y1 + y0) / 2)%float :: trapezoid_terms yr xr
  | _, _ => []
  end.

Definition trapezoid (y x : Np.ndarray) : result float :=
  if List.length y =? List.length x then Ok (Py.sum (trapezoid_terms y x))
  else Raise (ValueError "operands could not be broadcast together").

(** The constants are the CODATA 2018 values.  The three transcendental
    functions are the leading terms of their series and the filter is the
    identity; the theorems below hold for every instance of [Externals], and
    this one serves to run the definitions. *)
Definition sample_externals : Externals := {|
  np_trapz := trapezoid;
  np_sinh := fun x => (x + x * x * x / 6)%float;
  np_tanh := fun x => (x - x * x * x / 3)%float;
  np_log := fun x => (x - 1)%float;
  gaussian_filter1d := fun input _ => Ok input;
  const_value_Boltzmann_in_Hz_per_K := 20836619120%float;
  const_value_hertz_joule := 6.62607015e-34%float;
  const_tera := 1e12%float;
  const_Boltzmann := 1.380649e-23%float;
  const_Avogadro := 6.02214076e23%float
|}.

(** Every site of the structure lists every other site as a neighbour at
    distance two; the structure dict is the structure. *)
Definition sample_services : StructureServices := {|
  structure_dict := Structure;
  Structure_as_dict := fun s => s;
  Structure_from_dict := fun d => d;
  get_all_neighbors := fun s _ =>
    map (fun site =>
           map (fun other => {| nn_site := other; nn_distance := 2 |})
               (filter (fun other => negb (Site_eqb site other)) (sites s)))
        (sites s)
|}.

(** The power by the product [x * x], which is [x ** 2] up to the last bit;
    it serves to run the definitions at the exponent 2, and the theorems hold
    for every instance of [ScalarPower]. *)
Definition sample_power : ScalarPower := {|
  float_pow := fun x _ => (x * x)%float
|}.

Definition sample_dos : PhononDos.t :=
  PhononDos.make [(-1)%float; 0%float; 1%float; 2%float]
                 [0%float; 0%float; 2%float; 2%float].

Definition site_Fe : Site :=
  {| specie := {| symbol := "Fe"; spin := Some 5%float |};
     frac_coords := (0%float, 0%float, 0%float) |}.

Definition site_O : Site :=
  {| specie := {| symbol := "O"; spin := None |};
     frac_coords := (0.5%float, 0.5%float, 0.5%float) |}.

Definition site_Fe2 : Site :=
  {| specie := {| symbol := "Fe"; spin := Some (-5)%float |};
     frac_coords := (0.5%float, 0%float, 0%float) |}.

Definition site_O2 : Site :=
  {| specie := {| symbol := "O"; spin := None |};
     frac_coords := (0%float, 0.5%float, 0.5%float) |}.

(** Fe2O2: four atoms, two formula units. *)
Definition sample_structure : Structure :=
  {| sites := [site_Fe; site_Fe2; site_O; site_O2];
     composition := {| num_atoms := 4; reduced_composition_num_atoms := 2 |} |}.

(** Two iron atoms of opposite spin. *)
Definition iron_pair : Structure :=
  {| sites := [site_Fe; site_Fe2];
     composition := {| num_atoms := 2; reduced_composition_num_atoms := 1 |} |}.

(** A structure without sites. *)
Definition empty_structure : Structure :=
  {| sites := [];
     composition := {| num_atoms := 0; reduced_composition_num_atoms := 0 |} |}.

(** The same axis with another density. *)
Definition sample_dos2 : PhononDos.t :=
  PhononDos.make [(-1)%float; 0%float; 1%float; 2%float]
                 [1%float; 1%float; 1%float; 1%float].

(** A spectrum of imaginary modes only. *)
Definition unstable_dos : PhononDos.t :=
  PhononDos.make [(-3)%float; (-2)%float; (-1)%float] [1%float; 1%float; 1%float].

Definition single_point_dos : PhononDos.t :=
  PhononDos.make [1%float] [1%float].

Definition sample_complete_dos : CompletePhononDos.t :=
  {| CompletePhononDos.base := sample_dos;
     CompletePhononDos.pdos :=
       [ (site_Fe, [0; 0; 0.5; 0.5]%float);
         (site_Fe2, [0; 0; 0.5; 0.5]%float);
         (site_O, [0; 0; 0.5; 0]%float);
         (site_O2, [0; 0; 0.5; 1]%float) ];
     CompletePhononDos.structure := sample_structure |}.

Definition sample_ising : IsingModel.t :=
  {| IsingModel.j := 1; IsingModel.max_radius := 3 |}.

(** ** The instance and the filter in a call of [get_smeared_densities] *)

(** A call of [get_smeared_densities] with the instance it leaves behind:
    the method assigns no attribute of [self], and the filter is called
    without [output], so it writes to an array of its own. *)
Definition call_get_smeared_densities `{Externals} (self : PhononDos.t) (sigma : float)
    : PhononDos.t * result Np.ndarray :=
  (self, PhononDos.get_smeared_densities self sigma).

(** [int(x)] on a float: the truncation towards zero; an infinity is an
    OverflowError and a nan a ValueError. *)
Definition py_int (x : float) : result Z :=
  match Prim2SF x with
  | S754_zero _ => Ok 0%Z
  | S754_infinity _ => Raise OverflowError
  | S754_nan => Raise (ValueError "cannot convert float NaN to integer")
  | S754_finite s m e =>
      let magnitude := Z.shiftl (Zpos m) e in
      Ok (if s then (- magnitude)%Z else magnitude)
  end.

(** scipy's [gaussian_filter1d(input, sigma)] opens with
    [sd = float(sigma)] and [lw = int(truncate * sd + 0.5)], [truncate] being
    4.0: a standard deviation that [int] refuses is refused by the filter
    with the same exception, before anything is filtered. *)
Definition filter_converts_radius `{Externals} : Prop :=
  forall (input : Np.ndarray) (sd : float) (e : exn),
    py_int (4.0 * sd + 0.5)%float = Raise e -> gaussian_filter1d input sd = Raise e.

(** The sample instance with a filter that converts its radius as scipy
    does and then returns its input. *)
Definition checked_filter_externals : Externals := {|
  np_trapz := @np_trapz sample_externals;
  np_sinh := @np_sinh sample_externals;
  np_tanh := @np_tanh sample_externals;
  np_log := @np_log sample_externals;
  gaussian_filter1d := fun input sd => _ <- py_int (4.0 * sd + 0.5)%float ;; Ok input;
  const_value_Boltzmann_in_Hz_per_K := @const_value_Boltzmann_in_Hz_per_K sample_externals;
  const_value_hertz_joule := @const_value_hertz_joule sample_externals;
  const_tera := @const_tera sample_externals;
  const_Boltzmann := @const_Boltzmann sample_externals;
  const_Avogadro := @const_Avogadro sample_externals
|}.

(** Two points at one frequency: the average spacing is zero. *)
Definition two_equal_dos : PhononDos.t :=
  PhononDos.make [1%float; 1%float] [1%float; 2%float].

(** A spectrum of positive frequencies, on which the thermodynamic
    integrands are finite. *)
Definition positive_dos : PhononDos.t :=
  PhononDos.make [1%float; 2%float; 3%float] [1%float; 2%float; 1%float].

(** ** Further code of the two modules and of their caller, the plotter *)

(** *** energy_models.py: the dict form of the models *)

Module EnergyModel.

Definition __version__ : string := "0.1".

(** A value of the dict of [as_dict]: a string, or the dict of the
    constructor's arguments, whose values are of type [V]. *)
Inductive value (V : Type) : Type :=
| Str (s : string)
| Args (kwargs : Py.dict string V).

Arguments Str {V} s.
Arguments Args {V} kwargs.

(** Calling [cls] with the dict unpacked into keywords: a keyword that is
    not a parameter of [__init__] is a TypeError. *)
Definition check_keywords {V : Type} (params : list string) (kwargs : Py.dict string V)
    : result unit :=
  if forallb (fun k => existsb (String.eqb k) params) (Py.dict_keys kwargs)
  then Ok tt
  else Raise TypeError.

(** A parameter without a default: leaving it out is a TypeError. *)
Definition required {V : Type} (kwargs : Py.dict string V) (name : string) : result V :=
  match Py.dict_get String.eqb kwargs name with
  | Some v => Ok v
  | None => Raise TypeError
  end.

(** A parameter with a default. *)
Definition optional {V : Type} (kwargs : Py.dict string V) (name : string) (default : V) : V :=
  match Py.dict_get String.eqb kwargs name with
  | Some v => v
  | None => default
  end.

(** [from_dict]: [cls] called with [dct["init_args"]] unpacked into
    keywords, [cls] being the class it is called on. *)
Definition from_dict {V M : Type} (cls : Py.dict string V -> result M)
    (dct : Py.dict string (value V)) : result M :=
  init_args <- Py.dict_getitem String.eqb dct "init_args"%string ;;
  match init_args with
  | Args kwargs => cls kwargs
  | Str _ => Raise TypeError
  end.

End EnergyModel.

Module EwaldElectrostaticModel.

(** The four attributes; [None] is Python's [None]. *)
Record t : Type := make {
  real_space_cut : option float;
  recip_space_cut : option float;
  eta : option float;
  acc_factor : option float
}.

(** [__init__(self, real_space_cut=None, recip_space_cut=None, eta=None,
    acc_factor=8.0)], called with keywords. *)
Definition __init__ (kwargs : Py.dict string (option float)) : result t :=
  _ <- EnergyModel.check_keywords
         ["real_space_cut"; "recip_space_cut"; "eta"; "acc_factor"]%string kwargs ;;
  Ok (make (EnergyModel.optional kwargs "real_space_cut" None)
           (EnergyModel.optional kwargs "recip_space_cut" None)
           (EnergyModel.optional kwargs "eta" None)
           (EnergyModel.optional kwargs "acc_factor" (Some 8.0%float))).

Definition init_args (self : t) : Py.dict string (option float) :=
  [ ("real_space_cut"%string, real_space_cut self);
    ("recip_space_cut"%string, recip_space_cut self);
    ("eta"%string, eta self);
    ("acc_factor"%string, acc_factor self) ].

Definition as_dict (self : t) : Py.dict string (EnergyModel.value (option float)) :=
  [ ("version"%string, EnergyModel.Str EnergyModel.__version__);
    ("@module"%string, EnergyModel.Str "pymatgen.analysis.energy_models");
    ("@class"%string, EnergyModel.Str "EwaldElectrostaticModel");
    ("init_args"%string, EnergyModel.Args (init_args self)) ].

End EwaldElectrostaticModel.

Module SymmetryModel.

Record t : Type := make {
  symprec : float;
  angle_tolerance : float
}.

(** [__init__(self, symprec=0.1, angle_tolerance=5)], called with keywords. *)
Definition __init__ (kwargs : Py.dict string float) : result t :=
  _ <- EnergyModel.check_keywords ["symprec"; "angle_tolerance"]%string kwargs ;;
  Ok (make (EnergyModel.optional kwargs "symprec" 0.1%float)
           (EnergyModel.optional kwargs "angle_tolerance" 5%float)).

Definition init_args (self : t) : Py.dict string float :=
  [ ("symprec"%string, symprec self);
    ("angle_tolerance"%string, angle_tolerance self) ].

Definition as_dict (self : t) : Py.dict string (EnergyModel.value float) :=
  [ ("version"%string, EnergyModel.Str EnergyModel.__version__);
    ("@module"%string, EnergyModel.Str "pymatgen.analysis.energy_models");
    ("@class"%string, EnergyModel.Str "SymmetryModel");
    ("init_args"%string, EnergyModel.Args (init_args self)) ].

End SymmetryModel.

(** [IsingModel.__init__(self, j, max_radius)], called with keywords. *)
Definition IsingModel_init (kwargs : Py.dict string float) : result IsingModel.t :=
  _ <- EnergyModel.check_keywords ["j"; "max_radius"]%string kwargs ;;
  j <- EnergyModel.required kwargs "j" ;;
  max_radius <- EnergyModel.required kwargs "max_radius" ;;
  Ok (IsingModel.make j max_radius).

(** [IsingModel.as_dict] *)
Definition IsingModel_as_dict (self : IsingModel.t)
    : Py.dict string (EnergyModel.value float) :=
  [ ("version"%string, EnergyModel.Str EnergyModel.__version__);
    ("@module"%string, EnergyModel.Str "pymatgen.analysis.energy_models");
    ("@class"%string, EnergyModel.Str "IsingModel");
    ("init_args"%string,
     EnergyModel.Args [ ("j"%string, IsingModel.j self);
                        ("max_radius"%string, IsingModel.max_radius self) ]) ].

(** An instance of [NsitesModel]: the class has no attribute and no
    [__init__] of its own. *)
Inductive NsitesModel_t : Type := NsitesModel_make.

(** [NsitesModel] called with keywords: the constructor takes no argument. *)
Definition NsitesModel_init (kwargs : Py.dict string float) : result NsitesModel_t :=
  _ <- EnergyModel.check_keywords [] kwargs ;;
  Ok NsitesModel_make.

(** [NsitesModel.as_dict] *)
Definition NsitesModel_as_dict (self : NsitesModel_t)
    : Py.dict string (EnergyModel.value float) :=
  [ ("version"%string, EnergyModel.Str EnergyModel.__version__);
    ("@module"%string, EnergyModel.Str "pymatgen.analysis.energy_models");
    ("@class"%string, EnergyModel.Str "NsitesModel");
    ("init_args"%string, EnergyModel.Args []) ].

(** *** dos.py: [__repr__] and the element projection *)

(** [str(n)] for a length. *)
Definition py_str_of_nat (n : nat) : string :=
  DecimalString.NilEmpty.string_of_uint (Nat.to_uint n).

(** The [repr] of the shape of a one-dimensional array, a one-tuple. *)
Definition shape_repr (a : Np.ndarray) : string :=
  ("(" ++ py_str_of_nat (List.length a) ++ ",)")%string.

(** [type(self).__name__] *)
Definition class_name (o : DosObject) : string :=
  match o with
  | IsPhononDos _ => "PhononDos"%string
  | IsCompletePhononDos _ => "CompletePhononDos"%string
  end.

(** [PhononDos.__repr__], which [CompletePhononDos] inherits. *)
Definition dos_repr (self : DosObject) : result string :=
  let frequencies := shape_repr (PhononDos.frequencies (inherited self)) in
  let densities := shape_repr (PhononDos.densities (inherited self)) in
  positive <- PhononDos._positive_frequencies (inherited self) ;;
  let n_positive_freqs := List.length positive in
  Ok (class_name self ++ "(frequencies=" ++ frequencies ++ ", densities=" ++ densities
        ++ ", n_positive_freqs=" ++ py_str_of_nat n_positive_freqs ++ ")")%string.

(** [a += b] on arrays: [b] is broadcast to the shape of [a], which stays. *)
Definition Np_iadd (a b : Np.ndarray) : result Np.ndarray :=
  if List.length a =? List.length b then Ok (Np.map2 PrimFloat.add a b)
  else match b with
       | [y] => Ok (map (fun x => (x + y)%float) a)
       | _ => Raise (ValueError "operands could not be broadcast together")
       end.

(** [CompletePhononDos.get_element_dos]: the loop over [self.pdos.items()]
    fills [el_dos], and the result wraps each sum in a PhononDos. *)
Definition get_element_dos (self : CompletePhononDos.t)
    : result (Py.dict Species PhononDos.t) :=
  el_dos <-
    fold_left
      (fun acc item =>
         el_dos <- acc ;;
         let el := specie (fst item) in
         match Py.dict_get Species_eqb el_dos el with
         | None => Ok (Py.dict_set Species_eqb el_dos el (snd item))
         | Some current =>
             summed <- Np_iadd current (snd item) ;;
             Ok (Py.dict_set Species_eqb el_dos el summed)
         end)
      (CompletePhononDos.pdos self) (Ok []) ;;
  Ok (map (fun entry =>
             (fst entry,
              PhononDos.make (PhononDos.frequencies (CompletePhononDos.base self)) (snd entry)))
          el_dos).

(** The densities of one element: the arrays of its sites, added in the
    order of the sites. *)
Definition accumulate (current : option Np.ndarray) (ds : list Np.ndarray)
    : option Np.ndarray :=
  fold_left (fun c d => Some (match c with
                              | None => d
                              | Some a => Np.map2 PrimFloat.add a d
                              end))
            ds current.

(** The density arrays of the sites of species [el], in dict order. *)
Definition densities_of_element (el : Species) (pdos : Py.dict Site Np.ndarray)
    : list Np.ndarray :=
  map snd (filter (fun item => Species_eqb (specie (fst item)) el) pdos).

Definition is_zero_float (x : float) : Prop := exists s, Prim2SF x = S754_zero s.

Definition finite_float (x : float) : Prop := (abs x <? infinity)%float = true.

(** *** plotter.py: units *)

(** The constants and numpy functions that plotter.py uses beyond those of
    dos.py. *)
Class PlotterExternals : Type := {
  (** [const.value("hertz-electron volt relationship")] *)
  const_value_hertz_electron_volt : float;
  (** [const.value("hertz-hartree relationship")] *)
  const_value_hertz_hartree : float;
  (** [const.value("hertz-inverse meter relationship")] *)
  const_value_hertz_inverse_meter : float;
  const_milli : float;
  const_centi : float;
  (** [np.linspace(start, stop, num)] *)
  np_linspace : float -> float -> nat -> result Np.ndarray
}.

(** A [str] here is a string of code points below 256 (Latin-1), one per
    character of the Rocq string; the unit names are such strings. *)

(** [c.lower()]: the letters A to Z and, above 127, the letters U+00C0 to
    U+00DE without the multiplication sign U+00D7 move up by 32; every other
    code point below 256 stays. *)
Definition chr_lower (c : Ascii.ascii) : Ascii.ascii :=
  let n := Ascii.nat_of_ascii c in
  if ((65 <=? n) && (n <=? 90)) || ((192 <=? n) && (n <=? 222) && negb (n =? 215))
  then Ascii.ascii_of_nat (n + 32) else c.

(** The letters a to z moved down by 32: [c.upper()] for an ASCII
    character. *)
Definition ascii_upper (c : Ascii.ascii) : Ascii.ascii :=
  let n := Ascii.nat_of_ascii c in
  if (97 <=? n) && (n <=? 122) then Ascii.ascii_of_nat (n - 32) else c.

(** [c.isspace()], the characters [str.strip()] removes: below 256 these
    are tab to carriage return, the four separators U+001C to U+001F, the
    space, the next-line control U+0085 and the no-break space U+00A0. *)
Definition chr_isspace (c : Ascii.ascii) : bool :=
  let n := Ascii.nat_of_ascii c in
  ((9 <=? n) && (n <=? 13)) || ((28 <=? n) && (n <=? 32)) || (n =? 133) || (n =? 160).

(** [s.lower()] *)
Fixpoint str_lower (s : string) : string :=
  match s with
  | EmptyString => EmptyString
  | String c r => String (chr_lower c) (str_lower r)
  end.

(** [s.upper()] for a string of ASCII characters; other characters stay. *)
Fixpoint str_upper (s : string) : string :=
  match s with
  | EmptyString => EmptyString
  | String c r => String (ascii_upper c) (str_upper r)
  end.

(** [s.lstrip()] *)
Fixpoint str_lstrip (s : string) : string :=
  match s with
  | EmptyString => EmptyString
  | String c r => if chr_isspace c then str_lstrip r else s
  end.

(** [s.rstrip()] *)
Fixpoint str_rstrip (s : string) : string :=
  match s with
  | EmptyString => EmptyString
  | String c r =>
      match str_rstrip r with
      | EmptyString => if chr_isspace c then EmptyString else String c EmptyString
      | kept => String c kept
      end
  end.

(** [s.strip()] *)
Definition str_strip (s : string) : string := str_rstrip (str_lstrip s).

(** [s.isspace()] or [s == ""] *)
Fixpoint str_all_space (s : string) : bool :=
  match s with
  | EmptyString => true
  | String c r => chr_isspace c && str_all_space r
  end.

Record FreqUnits : Type := {
  factor : float;
  label : string
}.

Section FreqUnitsTable.
Context `{Externals} `{PlotterExternals}.

(** The dict [dct] of [freq_units]. *)
Definition freq_units_dct : Py.dict string FreqUnits :=
  [ ("thz"%string, {| factor := 1; label := "THz" |});
    ("ev"%string,
     {| factor := (const_value_hertz_electron_volt * const_tera)%float; label := "eV" |});
    ("mev"%string,
     {| factor := (const_value_hertz_electron_volt * const_tera / const_milli)%float;
        label := "meV" |});
    ("ha"%string,
     {| factor := (const_value_hertz_hartree * const_tera)%float; label := "Ha" |});
    ("cm-1"%string,
     {| factor := (const_value_hertz_inverse_meter * const_tera * const_centi)%float;
        label := "cm^{-1}" |});
    ("cm^-1"%string,
     {| factor := (const_value_hertz_inverse_meter * const_tera * const_centi)%float;
        label := "cm^{-1}" |}) ].

Definition freq_units (units : string) : result FreqUnits :=
  match Py.dict_get String.eqb freq_units_dct (str_strip (str_lower units)) with
  | Some u => Ok u
  | None => Raise KeyError
  end.

End FreqUnitsTable.

(** The six unit names. *)
Definition unit_names : list string :=
  [ "thz"; "ev"; "mev"; "ha"; "cm-1"; "cm^-1" ]%string.

(** CODATA 2018 values; [np.linspace] by its formula
    [start + i * (stop - start) / (num - 1)]. *)
Definition sample_plotter_externals : PlotterExternals := {|
  const_value_hertz_electron_volt := 4.135667696e-15%float;
  const_value_hertz_hartree := 1.5198298460570e-16%float;
  const_value_hertz_inverse_meter := 3.3356409519815204e-09%float;
  const_milli := 0.001%float;
  const_centi := 0.01%float;
  np_linspace := fun start stop num =>
    Ok (map (fun i => (start + Py.float_of_len i
                               * ((stop - start) / Py.float_of_len (num - 1)))%float)
            (seq 0 num))
|}.

(** *** plotter.py: PhononDosPlotter *)

(** [sorted(l, key=key)]: the stable sort, each element placed before the
    first element with a larger key. *)
Section Sorted.
Context {A K : Type} (key : A -> K) (key_lt : K -> K -> bool).

Fixpoint sorted_insert (x : A) (l : list A) : list A :=
  match l with
  | [] => [x]
  | y :: r => if key_lt (key x) (key y) then x :: l else y :: sorted_insert x r
  end.

Definition py_sorted (l : list A) : list A :=
  fold_left (fun acc x => sorted_insert x acc) l [].

End Sorted.

Module PhononDosPlotter.

(** An entry of [_doses]: [{"frequencies": ..., "densities": ...}]. *)
Record DosData : Type := {
  frequencies : Np.ndarray;
  densities : Np.ndarray
}.

Record t : Type := make {
  stack : bool;
  sigma : option float;
  _doses : Py.dict string DosData
}.

(** [__init__] with a boolean [stack]. *)
Definition __init__ (stack : bool) (sigma : option float) : t :=
  make stack sigma [].

(** A curve [get_plot] draws: its legend label, abscissas, ordinates and
    index into the nine colours. *)
Record Curve : Type := {
  curve_label : string;
  curve_x : Np.ndarray;
  curve_y : Np.ndarray;
  curve_color : nat
}.

Section Methods.
Context `{Externals} `{PlotterExternals}.

(** [add_dos].  The smearing is asked for by a [sigma] that is true: not
    [None] and not zero.  On an error [self] is as before. *)
Definition add_dos (self : t) (label : string) (dos : PhononDos.t) : result t :=
  densities <- match sigma self with
               | Some s =>
                   if negb (PrimFloat.eqb s 0)
                   then PhononDos.get_smeared_densities dos s
                   else Ok (PhononDos.densities dos)
               | None => Ok (PhononDos.densities dos)
               end ;;
  Ok (make (stack self) (sigma self)
        (Py.dict_set String.eqb (_doses self) label
           {| frequencies := PhononDos.frequencies dos; densities := densities |})).

(** [add_dos_dict]: the plotter after the call, and the exception that
    ended the call if one did; the DOSs added before it stay added. *)
Definition add_dos_dict {K : Type} (key_lt : K -> K -> bool) (self : t)
    (dos_dict : Py.dict string PhononDos.t) (key_sort_func : option (string -> K))
    : t * option exn :=
  let keys := match key_sort_func with
              | Some f => py_sorted f key_lt (Py.dict_keys dos_dict)
              | None => Py.dict_keys dos_dict
              end in
  fold_left
    (fun state label =>
       match snd state with
       | Some _ => state
       | None =>
           match (dos <- Py.dict_getitem String.eqb dos_dict label ;;
                  add_dos (fst state) label dos) with
           | Ok self' => (self', None)
           | Raise e => (fst state, Some e)
           end
       end)
    keys (self, None).

(** [n_colors] of [get_plot]. *)
Definition n_colors (self : t) : nat := Nat.min 9 (Nat.max 3 (List.length (_doses self))).

(** The first loop of [get_plot]: the frequencies in the unit and the
    densities to draw, with [y] the running sum of a stacked plot. *)
Fixpoint get_plot_loop (stack : bool) (unit_factor : float) (doses : list DosData)
    (y : option Np.ndarray) : result (list (Np.ndarray * Np.ndarray)) :=
  match doses with
  | [] => Ok []
  | dos :: rest =>
      let frequencies := map (fun f => (f * unit_factor)%float) (frequencies dos) in
      let densities := densities dos in
      let y := match y with
               | None => repeat 0%float (List.length frequencies)
               | Some y => y
               end in
      step <- (if stack
               then y' <- Np_iadd y densities ;; Ok (y', y')
               else Ok (y, densities)) ;;
      more <- get_plot_loop stack unit_factor rest (Some (fst step)) ;;
      Ok ((frequencies, snd step) :: more)
  end.

(** What [get_plot] hands to matplotlib, curve by curve in drawing order. *)
Definition get_plot_curves (self : t) (units : string) : result (list Curve) :=
  unit <- freq_units units ;;
  let n_colors := n_colors self in
  all <- get_plot_loop (stack self) (factor unit) (map snd (_doses self)) None ;;
  let keys := rev (Py.dict_keys (_doses self)) in
  let all_frequencies := rev (map fst all) in
  let all_densities := rev (map snd all) in
  Ok (map (fun item =>
             {| curve_label := fst (fst (snd item));
                curve_x := snd (fst (snd item));
                curve_y := snd (snd item);
                curve_color := fst item mod n_colors |})
          (Py.enumerate (combine (combine keys all_frequencies) all_densities))).

End Methods.

End PhononDosPlotter.

(** The running sums of a stacked plot, from [y]. *)
Fixpoint running_sums (y : Np.ndarray) (ds : list Np.ndarray) : list Np.ndarray :=
  match ds with
  | [] => []
  | d :: rest => Np.map2 PrimFloat.add y d :: running_sums (Np.map2 PrimFloat.add y d) rest
  end.

Definition sample_dos_dict : Py.dict string PhononDos.t :=
  [ ("total"%string, sample_dos); ("other"%string, sample_dos2) ].

(** *** plotter.py: ThermoPlotter *)

(** [np.minimum] and [np.maximum] of two numbers; a nan stays. *)
Definition np_minimum (a b : float) : float :=
  if (a <? b)%float || PrimFloat.is_nan a then a else b.

Definition np_maximum (a b : float) : float :=
  if (b <? a)%float || PrimFloat.is_nan a then a else b.

(** [np.min(a)] and [np.max(a)]: the reductions of the two, which an empty
    array does not have. *)
Definition Np_min (a : Np.ndarray) : result float :=
  match a with
  | [] => Raise (ValueError
                   "zero-size array to reduction operation minimum which has no identity")
  | x :: rest => Ok (fold_left np_minimum rest x)
  end.

Definition Np_max (a : Np.ndarray) : result float :=
  match a with
  | [] => Raise (ValueError
                   "zero-size array to reduction operation maximum which has no identity")
  | x :: rest => Ok (fold_left np_maximum rest x)
  end.

Module ThermoPlotter.

Record t : Type := make {
  dos : PhononDos.t;
  structure : option Structure
}.

(** What [_plot_thermo] hands to matplotlib: the curve with its legend
    label, the limits of the x axis and the label of the y axis. *)
Record ThermoCurve : Type := {
  thermo_x : Np.ndarray;
  thermo_y : list float;
  thermo_label : option string;
  thermo_xlim : float * float;
  thermo_ylabel : option string
}.

Section Methods.
Context `{Externals} `{PlotterExternals}.

(** The loop of [_plot_thermo]: [func(t, structure=self.structure) * factor]
    for each temperature in turn. *)
Fixpoint thermo_values (func : float -> option Structure -> result float)
    (structure : option Structure) (factor : float) (temperatures : list float)
    : result (list float) :=
  match temperatures with
  | [] => Ok []
  | t :: rest =>
      value <- func t structure ;;
      more <- thermo_values func structure factor rest ;;
      Ok ((value * factor)%float :: more)
  end.

(** [_plot_thermo]; the y axis is labelled by a [ylabel] that is true. *)
Definition _plot_thermo (self : t) (func : float -> option Structure -> result float)
    (temperatures : Np.ndarray) (factor : float) (ylabel label : option string)
    : result ThermoCurve :=
  values <- thermo_values func (structure self) factor temperatures ;;
  lowest <- Np_min temperatures ;;
  highest <- Np_max temperatures ;;
  Ok {| thermo_x := temperatures;
        thermo_y := values;
        thermo_label := label;
        thermo_xlim := (lowest, highest);
        thermo_ylabel := match ylabel with
                         | Some text => if String.eqb text "" then None else Some text
                         | None => None
                         end |}.

Definition plot_cv (self : t) (tmin tmax : float) (ntemp : nat) : result ThermoCurve :=
  temperatures <- np_linspace tmin tmax ntemp ;;
  let ylabel := if Structure_bool (structure self)
                then "$C_v$ (J/K/mol)"%string else "$C_v$ (J/K/mol-c)"%string in
  _plot_thermo self (PhononDos.cv (dos self)) temperatures 1 (Some ylabel) None.

Definition plot_entropy (self : t) (tmin tmax : float) (ntemp : nat) : result ThermoCurve :=
  temperatures <- np_linspace tmin tmax ntemp ;;
  let ylabel := if Structure_bool (structure self)
                then "$S$ (J/K/mol)"%string else "$S$ (J/K/mol-c)"%string in
  _plot_thermo self (PhononDos.entropy (dos self)) temperatures 1 (Some ylabel) None.

Definition plot_internal_energy (self : t) (tmin tmax : float) (ntemp : nat)
    : result ThermoCurve :=
  temperatures <- np_linspace tmin tmax ntemp ;;
  let ylabel := if Structure_bool (structure self)
                then "$\Delta E$ (kJ/mol)"%string else "$\Delta E$ (kJ/mol-c)"%string in
  _plot_thermo self (PhononDos.internal_energy (dos self)) temperatures 1e-3
    (Some ylabel) None.

Definition plot_helmholtz_free_energy (self : t) (tmin tmax : float) (ntemp : nat)
    : result ThermoCurve :=
  temperatures <- np_linspace tmin tmax ntemp ;;
  let ylabel := if Structure_bool (structure self)
                then "$\Delta F$ (kJ/mol)"%string else "$\Delta F$ (kJ/mol-c)"%string in
  _plot_thermo self (PhononDos.helmholtz_free_energy (dos self)) temperatures 1e-3
    (Some ylabel) None.

(** [plot_thermodynamic_properties]: the four curves in the order they are
    drawn on the one axes. *)
Definition plot_thermodynamic_properties (self : t) (tmin tmax : float) (ntemp : nat)
    : result (list ThermoCurve) :=
  temperatures <- np_linspace tmin tmax ntemp ;;
  let mol := if Structure_bool (structure self) then ""%string else "-c"%string in
  c_v <- _plot_thermo self (PhononDos.cv (dos self)) temperatures 1
           (Some "Thermodynamic properties"%string)
           (Some ("$C_v$ (J/K/mol" ++ mol ++ ")")%string) ;;
  s <- _plot_thermo self (PhononDos.entropy (dos self)) temperatures 1 None
         (Some ("$S$ (J/K/mol" ++ mol ++ ")")%string) ;;
  e <- _plot_thermo self (PhononDos.internal_energy (dos self)) temperatures 1e-3 None
         (Some ("$\Delta E$ (kJ/mol" ++ mol ++ ")")%string) ;;
  f <- _plot_thermo self (PhononDos.helmholtz_free_energy (dos self)) temperatures 1e-3 None
         (Some ("$\Delta F$ (kJ/mol" ++ mol ++ ")")%string) ;;
  Ok [c_v; s; e; f].

End Methods.

End ThermoPlotter.

(** A curve [with_structure] is the curve [without] per formula unit: the
    same temperatures and limits, and each value of [func] divided by
    [formula_units] before the unit factor is applied. *)
Definition plots_per_formula_unit (func : float -> option Structure -> result float)
    (factor formula_units : float)
    (without with_structure : ThermoPlotter.ThermoCurve) : Prop :=
  ThermoPlotter.thermo_x with_structure = ThermoPlotter.thermo_x without
  /\ ThermoPlotter.thermo_xlim with_structure = ThermoPlotter.thermo_xlim without
  /\ exists values,
       Forall2 (fun t value => func t None = Ok value)
               (ThermoPlotter.thermo_x without) values
       /\ ThermoPlotter.thermo_y without = map (fun value => (value * factor)%float) values
       /\ ThermoPlotter.thermo_y with_structure
          = map (fun value => (value / formula_units * factor)%float) values.

Definition sample_thermo_plotter : ThermoPlotter.t :=
  ThermoPlotter.make sample_dos (Some sample_structure).

(** *** Samples for the further code *)

(** Two oxygen atoms, neither with a spin. *)
Definition oxygen_pair : Structure :=
  {| sites := [site_O; site_O2];
     composition := {| num_atoms := 2; reduced_composition_num_atoms := 1 |} |}.

(** One iron atom, which has no neighbour. *)
Definition lone_iron : Structure :=
  {| sites := [site_Fe];
     composition := {| num_atoms := 1; reduced_composition_num_atoms := 1 |} |}.

(** A neighbour search that answers with two empty lists whatever the
    structure. *)
Definition two_list_services : StructureServices := {|
  structure_dict := Structure;
  Structure_as_dict := fun s => s;
  Structure_from_dict := fun d => d;
  get_all_neighbors := fun _ _ => [[]; []]
|}.

(** A CompletePhononDos without projections, and one that has the
    projection of the first site only. *)
Definition unprojected_dos : CompletePhononDos.t :=
  {| CompletePhononDos.base := sample_dos;
     CompletePhononDos.pdos := [];
     CompletePhononDos.structure := sample_structure |}.

Definition partly_projected_dos : CompletePhononDos.t :=
  {| CompletePhononDos.base := sample_dos;
     CompletePhononDos.pdos := [ (site_Fe, [0; 0; 0.5; 0.5]%float) ];
     CompletePhononDos.structure := sample_structure |}.

(** A stacked plot of the two sample DOSs, and a plotter that smears. *)
Definition sample_plotter : PhononDosPlotter.t :=
  PhononDosPlotter.make true None
    [ ("total"%string,
       {| PhononDosPlotter.frequencies := PhononDos.frequencies sample_dos;
          PhononDosPlotter.densities := PhononDos.densities sample_dos |});
      ("other"%string,
       {| PhononDosPlotter.frequencies := PhononDos.frequencies sample_dos2;
          PhononDosPlotter.densities := PhononDos.densities sample_dos2 |}) ].

Definition smearing_plotter : PhononDosPlotter.t :=
  PhononDosPlotter.__init__ false (Some 0.5%float).

(** * Properties *)

(** ** binary64 facts, from the specification of the primitive operations *)

Lemma Prim2SF_zero : Prim2SF 0 = S754_zero false.
Proof. reflexivity. Qed.

Lemma ltb_zero_spec (x : float) :
  (x <? 0)%float = match Prim2SF x with
                   | S754_infinity true | S754_finite true _ _ => true
                   | _ => false
                   end.
Proof.
  rewrite FloatAxioms.ltb_spec, Prim2SF_zero. unfold SFltb, SFcompare.
  destruct (Prim2SF x) as [[]|[]| |[] m e]; reflexivity.
Qed.

Lemma leb_zero_spec (x : float) :
  (0 <=? x)%float = match Prim2SF x with
                    | S754_zero _ | S754_infinity false | S754_finite false _ _ => true
                    | _ => false
                    end.
Proof.
  rewrite FloatAxioms.leb_spec, Prim2SF_zero. unfold SFleb, SFcompare.
  destruct (Prim2SF x) as [[]|[]| |[] m e]; reflexivity.
Qed.

(** Below a negative number there are only negative numbers. *)
Lemma ltb_zero_mono (x y : float) :
  (x <=? y)%float = true -> (y <? 0)%float = true -> (x <? 0)%float = true.
Proof.
  rewrite !ltb_zero_spec, FloatAxioms.leb_spec. unfold SFleb, SFcompare.
  destruct (Prim2SF x) as [[]|[]| |[] mx ex], (Prim2SF y) as [[]|[]| |[] my ey];
    try discriminate; try reflexivity.
Qed.

(** A number (not a NaN) is non-negative exactly when it is not negative. *)
Lemma number_sign (x : float) :
  (x <=? x)%float = true -> nonneg x = negb (negative x).
Proof.
  unfold nonneg, negative.
  rewrite ltb_zero_spec, leb_zero_spec, FloatAxioms.leb_spec. unfold SFleb, SFcompare.
  destruct (Prim2SF x) as [[]|[]| |[] mx ex]; try discriminate; reflexivity.
Qed.

Lemma negative_not_nonneg (x : float) : negative x = true -> nonneg x = false.
Proof.
  unfold nonneg, negative. rewrite ltb_zero_spec, leb_zero_spec.
  destruct (Prim2SF x) as [[]|[]| |[] mx ex]; try discriminate; reflexivity.
Qed.

Lemma float_add_comm (x y : float) : (x + y)%float = (y + x)%float.
Proof.
  apply Prim2SF_inj. rewrite !FloatAxioms.add_spec. unfold SF64add, SFadd.
  destruct (Prim2SF x) as [sx|sx| |sx mx ex], (Prim2SF y) as [sy|sy| |sy my ey];
    try reflexivity; try (destruct sx, sy; reflexivity).
  rewrite Z.min_comm, Z.add_comm. reflexivity.
Qed.

Lemma SFcompare_swap (a b : spec_float) :
  SFcompare b a = option_map CompOpp (SFcompare a b).
Proof.
  destruct a as [[]|[]| |[] ma ea], b as [[]|[]| |[] mb eb]; try reflexivity; simpl;
  rewrite (Z.compare_antisym ea eb); destruct (ea ?= eb)%Z; simpl; try reflexivity;
  pose proof (Pos.compare_cont_antisym ma mb Eq) as H; simpl in H; rewrite <- H;
  reflexivity.
Qed.

Lemma float_eqb_sym (x y : float) : (x =? y)%float = (y =? x)%float.
Proof.
  rewrite !FloatAxioms.eqb_spec. unfold SFeqb.
  rewrite (SFcompare_swap (Prim2SF x) (Prim2SF y)).
  destruct (SFcompare (Prim2SF x) (Prim2SF y)) as [[]|]; reflexivity.
Qed.

(** Zero divided by a positive number is zero. *)
Lemma zero_div_pos (x : float) : (0 <? x)%float = true -> (0 / x)%float = 0%float.
Proof.
  intros Hx. apply Prim2SF_inj. rewrite FloatAxioms.div_spec, Prim2SF_zero.
  rewrite FloatAxioms.ltb_spec, Prim2SF_zero in Hx. unfold SFltb, SFcompare in Hx.
  unfold SF64div, SFdiv.
  destruct (Prim2SF x) as [[]|[]| |[] mx ex]; try discriminate; reflexivity.
Qed.

(** Against the key [0], numpy's order is [<]. *)
Lemma less_zero (x : float) : Np.less x 0 = negative x.
Proof.
  unfold Np.less, negative.
  replace (0 =? 0)%float with true by reflexivity.
  simpl. apply orb_false_r.
Qed.

(** ** The binary search *)

Section Binsearch.
Variables (arr : Np.ndarray) (key : float).

(** The elements that sort before the key form an initial segment. *)
Hypothesis less_initial : forall i j,
  i <= j -> j < List.length arr ->
  Np.less (nth j arr nan) key = true -> Np.less (nth i arr nan) key = true.

Lemma binsearch_left_spec (fuel lo hi : nat) :
  hi - lo <= fuel -> lo <= hi -> hi <= List.length arr ->
  (forall i, i < lo -> Np.less (nth i arr nan) key = true) ->
  (forall i, hi <= i -> i < List.length arr -> Np.less (nth i arr nan) key = false) ->
  lo <= Np.binsearch_left fuel arr key lo hi <= hi
  /\ (forall i, i < Np.binsearch_left fuel arr key lo hi ->
                Np.less (nth i arr nan) key = true)
  /\ (forall i, Np.binsearch_left fuel arr key lo hi <= i -> i < List.length arr ->
                Np.less (nth i arr nan) key = false).
Proof.
  revert lo hi. induction fuel as [|fuel IH]; intros lo hi Hfuel Hle Hlen Hbelow Habove.
  - simpl. assert (hi = lo) by lia. subst hi. auto.
  - cbn [Np.binsearch_left]. destruct (Nat.ltb_spec lo hi) as [Hlt|Hge].
    + assert (Hmid : lo <= lo + (hi - lo) / 2 < hi).
      { pose proof (Nat.Div0.div_lt_upper_bound (hi - lo) 2 (hi - lo)). lia. }
      destruct (Np.less (nth (lo + (hi - lo) / 2) arr nan) key) eqn:Hp.
      * destruct (IH (lo + (hi - lo) / 2 + 1) hi) as (Hb & Hl & Hr); try lia; auto.
        -- intros i Hi. apply less_initial with (j := lo + (hi - lo) / 2); try lia; auto.
        -- split; [lia | auto].
      * destruct (IH lo (lo + (hi - lo) / 2)) as (Hb & Hl & Hr); try lia; auto.
        -- intros i Hi Hilen.
           destruct (Np.less (nth i arr nan) key) eqn:Hpi; [|reflexivity].
           rewrite (less_initial Hi Hilen Hpi) in Hp. discriminate.
        -- split; [lia | auto].
    + assert (hi = lo) by lia. subst hi. auto.
Qed.

(** [searchsorted] returns the length of that initial segment. *)
Lemma searchsorted_spec :
  Np.searchsorted arr key <= List.length arr
  /\ (forall i, i < Np.searchsorted arr key -> Np.less (nth i arr nan) key = true)
  /\ (forall i, Np.searchsorted arr key <= i -> i < List.length arr ->
                Np.less (nth i arr nan) key = false).
Proof.
  unfold Np.searchsorted.
  destruct (@binsearch_left_spec (List.length arr) 0 (List.length arr)) as (Hb & Hl & Hr);
    try lia; auto.
  split; [lia | auto].
Qed.

End Binsearch.

(** The loop does not need more fuel than the width of its interval. *)
Lemma binsearch_left_fuel (arr : Np.ndarray) (key : float) (fuel fuel' lo hi : nat) :
  hi - lo <= fuel -> hi - lo <= fuel' ->
  Np.binsearch_left fuel arr key lo hi = Np.binsearch_left fuel' arr key lo hi.
Proof.
  revert fuel' lo hi. induction fuel as [|fuel IH]; intros fuel' lo hi H1 H2.
  - destruct fuel' as [|fuel']; [reflexivity|]. cbn [Np.binsearch_left].
    destruct (Nat.ltb_spec lo hi); [lia | reflexivity].
  - destruct fuel' as [|fuel'].
    + cbn [Np.binsearch_left]. destruct (Nat.ltb_spec lo hi); [lia | reflexivity].
    + cbn [Np.binsearch_left]. destruct (Nat.ltb_spec lo hi) as [Hlt|Hge]; [|reflexivity].
      assert (Hmid : lo <= lo + (hi - lo) / 2 < hi).
      { pose proof (Nat.Div0.div_lt_upper_bound (hi - lo) 2 (hi - lo)). lia. }
      destruct (Np.less (nth (lo + (hi - lo) / 2) arr nan) key); apply IH; lia.
Qed.

(** ** Ascending arrays and the first non-negative frequency *)

Lemma ascending_nth (l : Np.ndarray) (i j : nat) :
  ascending l -> i <= j -> j < List.length l ->
  (nth i l nan <=? nth j l nan)%float = true.
Proof.
  unfold ascending. revert i j. induction l as [|x r IH]; intros i j Hasc Hij Hj.
  - simpl in Hj. lia.
  - cbn [ascendingb] in Hasc.
    apply andb_prop in Hasc. destruct Hasc as [Hx Hr].
    apply andb_prop in Hx. destruct Hx as [Hxx Hxr].
    destruct i as [|i], j as [|j]; cbn [nth]; simpl in Hj.
    + exact Hxx.
    + rewrite forallb_forall in Hxr. apply Hxr. apply nth_In. lia.
    + lia.
    + apply IH; [exact Hr | lia | lia].
Qed.

Lemma ascending_negative_initial (l : Np.ndarray) (i j : nat) :
  ascending l -> i <= j -> j < List.length l ->
  Np.less (nth j l nan) 0 = true -> Np.less (nth i l nan) 0 = true.
Proof.
  intros Hasc Hij Hj. rewrite !less_zero. unfold negative.
  apply ltb_zero_mono. apply ascending_nth; assumption.
Qed.

(** An index [r] with [p] false before it and true at it is the first index
    of [p]. *)
Lemma first_index_intro (p : float -> bool) (l : Np.ndarray) (r : nat) :
  r <= List.length l ->
  (forall i, i < r -> p (nth i l nan) = false) ->
  (r < List.length l -> p (nth r l nan) = true) ->
  first_index p l = if r <? List.length l then Some r else None.
Proof.
  revert r. induction l as [|x l IH]; intros r Hr Hbefore Hat.
  - simpl in *. assert (r = 0) by lia. subst r. reflexivity.
  - cbn [first_index]. destruct r as [|r].
    + pose proof (Hat ltac:(simpl; lia)) as H0. cbn [nth] in H0. rewrite H0. reflexivity.
    + pose proof (Hbefore 0 ltac:(lia)) as H0. cbn [nth] in H0. rewrite H0.
      rewrite (IH r).
      * simpl List.length. destruct (Nat.ltb_spec r (List.length l));
          destruct (Nat.ltb_spec (S r) (S (List.length l))); try lia; reflexivity.
      * simpl in Hr. lia.
      * intros i Hi. apply (Hbefore (S i)). lia.
      * intros Hlt. apply Hat. simpl. lia.
Qed.

Lemma first_index_Some (p : float -> bool) (l : Np.ndarray) (i : nat) :
  first_index p l = Some i ->
  i < List.length l /\ p (nth i l nan) = true
  /\ forall k, k < i -> p (nth k l nan) = false.
Proof.
  revert i. induction l as [|x l IH]; intros i H; [discriminate|].
  cbn [first_index] in H. destruct (p x) eqn:Hx.
  - injection H as <-. simpl. repeat split; [lia | exact Hx | intros k Hk; lia].
  - destruct (first_index p l) as [i'|] eqn:Hl; [|discriminate].
    injection H as <-. destruct (IH i' eq_refl) as (H1 & H2 & H3).
    simpl. repeat split; [lia | exact H2 |].
    intros [|k] Hk; [exact Hx | apply H3; lia].
Qed.

Lemma first_index_None (p : float -> bool) (l : Np.ndarray) :
  first_index p l = None <-> Forall (fun x => p x = false) l.
Proof.
  induction l as [|x l IH]; cbn [first_index].
  - split; auto.
  - destruct (p x) eqn:Hx.
    + split; [discriminate|]. intros H. inversion H; subst. congruence.
    + destruct (first_index p l) as [i|].
      * split; [discriminate|]. intros H. inversion H; subst.
        apply IH in H3. discriminate.
      * split; auto. intros _. constructor; [exact Hx | apply IH; reflexivity].
Qed.

Lemma ascending_number (l : Np.ndarray) (i : nat) :
  ascending l -> i < List.length l -> (nth i l nan <=? nth i l nan)%float = true.
Proof. intros Hasc Hi. apply ascending_nth; auto. Qed.

(** On an ascending array, [searchsorted(arr, 0)] is the first index whose
    element is [>= 0], and the length of the array when there is none. *)
Lemma searchsorted_zero_ascending (l : Np.ndarray) :
  ascending l ->
  first_index nonneg l =
  if Np.searchsorted l 0 <? List.length l then Some (Np.searchsorted l 0) else None.
Proof.
  intros Hasc.
  destruct (@searchsorted_spec l 0%float) as (Hb & Hl & Hr).
  { intros i j. apply ascending_negative_initial. exact Hasc. }
  apply first_index_intro.
  - exact Hb.
  - intros i Hi. apply negative_not_nonneg. rewrite <- less_zero. apply Hl. exact Hi.
  - intros Hlt. rewrite number_sign.
    + rewrite <- less_zero. rewrite Hr; [reflexivity | lia | exact Hlt].
    + apply ascending_number; assumption.
Qed.

(** When every element is negative, [searchsorted(arr, 0)] is the length. *)
Lemma searchsorted_zero_all_negative (l : Np.ndarray) :
  Forall (fun f => negative f = true) l ->
  Np.searchsorted l 0 = List.length l.
Proof.
  intros Hneg.
  assert (Hall : forall i, i < List.length l -> Np.less (nth i l nan) 0 = true).
  { intros i Hi. rewrite less_zero. rewrite Forall_forall in Hneg.
    apply Hneg. apply nth_In. exact Hi. }
  destruct (@searchsorted_spec l 0%float) as (Hb & Hl & Hr).
  { intros i j Hij Hj _. apply Hall. lia. }
  destruct (Nat.eq_dec (Np.searchsorted l 0) (List.length l)) as [|Hne]; [assumption|].
  assert (Hlt : Np.searchsorted l 0 < List.length l) by lia.
  specialize (Hr _ (le_n _) Hlt). rewrite (Hall _ Hlt) in Hr. discriminate.
Qed.

(** ** PhononDos: the positive-frequency range *)

Lemma multiply_same_length (a b : Np.ndarray) :
  List.length a = List.length b ->
  Np.multiply a b = Ok (Np.map2 PrimFloat.mul a b).
Proof.
  intros Hlen. unfold Np.multiply, Np.broadcast.
  rewrite Hlen, Nat.eqb_refl. reflexivity.
Qed.

Lemma add_same_length (a b : Np.ndarray) :
  List.length a = List.length b ->
  Np.add a b = Ok (Np.map2 PrimFloat.add a b).
Proof.
  intros Hlen. unfold Np.add, Np.broadcast.
  rewrite Hlen, Nat.eqb_refl. reflexivity.
Qed.

Lemma ind_zero_freq_ascending (d : PhononDos.t) :
  ascending (PhononDos.frequencies d) ->
  PhononDos.ind_zero_freq d =
  match first_index nonneg (PhononDos.frequencies d) with
  | Some i => Ok i
  | None => Raise NoPositiveFrequencies
  end.
Proof.
  intros Hasc. rewrite (searchsorted_zero_ascending Hasc).
  unfold PhononDos.ind_zero_freq.
  destruct (Nat.ltb_spec (Np.searchsorted (PhononDos.frequencies d) 0)
                         (List.length (PhononDos.frequencies d)));
    destruct (Nat.leb_spec (List.length (PhononDos.frequencies d))
                           (Np.searchsorted (PhononDos.frequencies d) 0));
    try lia; reflexivity.
Qed.

Lemma ind_zero_freq_all_negative (d : PhononDos.t) :
  Forall (fun f => negative f = true) (PhononDos.frequencies d) ->
  PhononDos.ind_zero_freq d = Raise NoPositiveFrequencies.
Proof.
  intros Hneg. unfold PhononDos.ind_zero_freq.
  rewrite (searchsorted_zero_all_negative Hneg), Nat.leb_refl. reflexivity.
Qed.

Lemma exists_nonneg_first_index (l : Np.ndarray) :
  Exists (fun f => nonneg f = true) l -> exists i, first_index nonneg l = Some i.
Proof.
  intros Hex. destruct (first_index nonneg l) as [i|] eqn:Hfi; [eauto|].
  apply first_index_None in Hfi. rewrite Forall_forall in Hfi.
  apply Exists_exists in Hex. destruct Hex as (x & Hin & Hx).
  rewrite (Hfi x Hin) in Hx. discriminate.
Qed.

Lemma is_first_index_computed (p : float -> bool) (l : Np.ndarray) (i : nat) :
  is_first_index p l i <-> first_index p l = Some i.
Proof.
  split.
  - intros (Hlt & Hat & Hbefore).
    rewrite (@first_index_intro p l i); [|lia|exact Hbefore|intros _; exact Hat].
    apply Nat.ltb_lt in Hlt. rewrite Hlt. reflexivity.
  - apply first_index_Some.
Qed.

Lemma positive_range_ascending (d : PhononDos.t) (i : nat) :
  ascending (PhononDos.frequencies d) ->
  first_index nonneg (PhononDos.frequencies d) = Some i ->
  PhononDos.ind_zero_freq d = Ok i
  /\ PhononDos._positive_frequencies d = Ok (skipn i (PhononDos.frequencies d))
  /\ PhononDos._positive_densities d = Ok (skipn i (PhononDos.densities d)).
Proof.
  intros Hasc Hi.
  pose proof (ind_zero_freq_ascending d Hasc) as Hind. rewrite Hi in Hind.
  unfold PhononDos._positive_frequencies, PhononDos._positive_densities.
  rewrite Hind. cbn [Py.bind]. auto.
Qed.

Section DosProperties.
Context `{Externals} `{StructureServices}.

(** C6: on an ascending frequency axis [ind_zero_freq] is the first index
    whose frequency is [>= 0], and the positive frequencies and densities are
    the parts of the two arrays from that index on; when every frequency is
    negative, [ind_zero_freq], the two positive sub-arrays, [zero_point_energy],
    [internal_energy] and [helmholtz_free_energy] (at every temperature) and
    [cv] and [entropy] (at every temperature other than zero) raise the
    "No positive frequencies found" error and return nothing. *)
Theorem zero_freq_index_first_nonneg (d : PhononDos.t) :
  (ascending (PhononDos.frequencies d) ->
   forall i, is_first_index nonneg (PhononDos.frequencies d) i ->
     PhononDos.ind_zero_freq d = Ok i
     /\ PhononDos._positive_frequencies d = Ok (skipn i (PhononDos.frequencies d))
     /\ PhononDos._positive_densities d = Ok (skipn i (PhononDos.densities d)))
  /\ (Forall (fun f => negative f = true) (PhononDos.frequencies d) ->
      PhononDos.ind_zero_freq d = Raise NoPositiveFrequencies
      /\ PhononDos._positive_frequencies d = Raise NoPositiveFrequencies
      /\ PhononDos._positive_densities d = Raise NoPositiveFrequencies
      /\ forall (t : float) (structure : option Structure),
           PhononDos.zero_point_energy d structure = Raise NoPositiveFrequencies
           /\ PhononDos.internal_energy d t structure = Raise NoPositiveFrequencies
           /\ PhononDos.helmholtz_free_energy d t structure = Raise NoPositiveFrequencies
           /\ ((t =? 0)%float = false ->
               PhononDos.cv d t structure = Raise NoPositiveFrequencies
               /\ PhononDos.entropy d t structure = Raise NoPositiveFrequencies)).
Proof.
  split.
  - intros Hasc i Hi. apply positive_range_ascending; [assumption|].
    apply is_first_index_computed. exact Hi.
  - intros Hneg. pose proof (ind_zero_freq_all_negative d Hneg) as Hind.
    assert (Hf : PhononDos._positive_frequencies d = Raise NoPositiveFrequencies).
    { unfold PhononDos._positive_frequencies. rewrite Hind. reflexivity. }
    assert (Hd : PhononDos._positive_densities d = Raise NoPositiveFrequencies).
    { unfold PhononDos._positive_densities. rewrite Hind. reflexivity. }
    assert (Hz : forall structure,
               PhononDos.zero_point_energy d structure = Raise NoPositiveFrequencies).
    { intros structure. unfold PhononDos.zero_point_energy. rewrite Hf. reflexivity. }
    split; [exact Hind|]. split; [exact Hf|]. split; [exact Hd|].
    intros t structure. split; [apply Hz|]. split; [|split].
    + unfold PhononDos.internal_energy. destruct (t =? 0)%float; [apply Hz|].
      rewrite Hf. reflexivity.
    + unfold PhononDos.helmholtz_free_energy. destruct (t =? 0)%float; [apply Hz|].
      rewrite Hf. reflexivity.
    + intros Ht. unfold PhononDos.cv, PhononDos.entropy. rewrite Ht, Hf. auto.
Qed.

(** C1: for a PhononDos with an ascending frequency axis that has a value
    [>= 0], [zero_point_energy()] without a structure is
    [0.5 * np.trapz(f * rho, x=f) * (THZ_TO_J * Avogadro)] with [f] and [rho]
    the frequencies and densities from the first non-negative frequency on,
    and [f * rho] their elementwise product when there is one density per
    frequency; for the frequencies [-1, 0, 1, 2] and densities [0, 0, 2, 2]
    these are [0, 1, 2] and [0, 2, 2]. *)
Theorem zero_point_energy_formula :
  (forall d : PhononDos.t,
     ascending (PhononDos.frequencies d) ->
     Exists (fun f => nonneg f = true) (PhononDos.frequencies d) ->
     exists i,
       is_first_index nonneg (PhononDos.frequencies d) i
       /\ PhononDos.zero_point_energy d None =
          (y <- Np.multiply (skipn i (PhononDos.frequencies d))
                            (skipn i (PhononDos.densities d)) ;;
           q <- np_trapz y (skipn i (PhononDos.frequencies d)) ;;
           Ok (0.5 * q * (THZ_TO_J * const_Avogadro))%float)
       /\ (well_formed d ->
           Np.multiply (skipn i (PhononDos.frequencies d)) (skipn i (PhononDos.densities d))
           = Ok (Np.map2 PrimFloat.mul (skipn i (PhononDos.frequencies d))
                                       (skipn i (PhononDos.densities d)))))
  /\ PhononDos._positive_frequencies sample_dos = Ok [0; 1; 2]%float
  /\ PhononDos._positive_densities sample_dos = Ok [0; 2; 2]%float
  /\ PhononDos.zero_point_energy sample_dos None =
     (q <- np_trapz (Np.map2 PrimFloat.mul [0; 1; 2]%float [0; 2; 2]%float) [0; 1; 2]%float ;;
      Ok (0.5 * q * (THZ_TO_J * const_Avogadro))%float).
Proof.
  split; [|repeat split; reflexivity].
  intros d Hasc Hex.
  destruct (exists_nonneg_first_index Hex) as [i Hi]. exists i.
  split; [apply is_first_index_computed; exact Hi|].
  destruct (positive_range_ascending d Hasc Hi) as (_ & Hf & Hd).
  split.
  - unfold PhononDos.zero_point_energy. rewrite Hf, Hd. cbn [Py.bind].
    destruct (Np.multiply (skipn i (PhononDos.frequencies d))
                          (skipn i (PhononDos.densities d))); [|reflexivity].
    cbn [Py.bind]. destruct (np_trapz a (skipn i (PhononDos.frequencies d))); reflexivity.
  - intros Hwf. apply multiply_same_length.
    rewrite !length_skipn. rewrite Hwf. reflexivity.
Qed.

(** C2: at a temperature that compares equal to zero, [cv] and [entropy]
    return 0, and [internal_energy] and [helmholtz_free_energy] return what
    [zero_point_energy] returns for the same structure argument, for every
    PhononDos and every structure argument; no integrand is evaluated. *)
Theorem zero_temperature_limits
    (d : PhononDos.t) (t : float) (structure : option Structure) :
  (t =? 0)%float = true ->
  PhononDos.cv d t structure = Ok 0%float
  /\ PhononDos.entropy d t structure = Ok 0%float
  /\ PhononDos.internal_energy d t structure = PhononDos.zero_point_energy d structure
  /\ PhononDos.helmholtz_free_energy d t structure = PhononDos.zero_point_energy d structure.
Proof.
  intros Ht.
  unfold PhononDos.cv, PhononDos.entropy, PhononDos.internal_energy,
    PhononDos.helmholtz_free_energy.
  rewrite Ht. auto.
Qed.

End DosProperties.

(** ** PhononDos: the structure argument *)

(** Runs a chain of binds by cases on each step. *)
Ltac run_binds :=
  repeat match goal with
         | |- context [Py.bind ?m _] =>
             lazymatch m with
             | PhononDos.per_formula_unit _ _ => fail
             | PhononDos.formula_units _ => fail
             | Py.bind _ _ => fail
             | _ => destruct m; cbn [Py.bind]
             end
         end.

Section FormulaUnits.
Context `{Externals} `{StructureServices}.

Lemma per_formula_unit_None (value : float) :
  PhononDos.per_formula_unit value None = Ok value.
Proof. reflexivity. Qed.

Lemma per_formula_unit_empty (value : float) (s : Structure) :
  sites s = [] -> PhononDos.per_formula_unit value (Some s) = Ok value.
Proof.
  intros Hs. unfold PhononDos.per_formula_unit, Structure_bool, Structure_len.
  rewrite Hs. reflexivity.
Qed.

Lemma per_formula_unit_sites (value : float) (s : Structure) :
  sites s <> [] ->
  PhononDos.per_formula_unit value (Some s) =
  (fu <- PhononDos.formula_units s ;; Ok (value / fu)%float).
Proof.
  intros Hs. unfold PhononDos.per_formula_unit, Structure_bool, Structure_len.
  destruct (sites s); [congruence | reflexivity].
Qed.

Lemma zero_point_energy_divides (d : PhononDos.t) (s : Structure) :
  sites s <> [] -> divides_by_formula_units (PhononDos.zero_point_energy d) s.
Proof.
  intros Hs. unfold divides_by_formula_units, PhononDos.zero_point_energy.
  run_binds; try reflexivity.
  rewrite per_formula_unit_sites by exact Hs. reflexivity.
Qed.

Lemma zero_point_energy_empty (d : PhononDos.t) (s : Structure) :
  sites s = [] -> PhononDos.zero_point_energy d (Some s) = PhononDos.zero_point_energy d None.
Proof.
  intros Hs. unfold PhononDos.zero_point_energy.
  run_binds; try reflexivity.
  rewrite per_formula_unit_empty by exact Hs. reflexivity.
Qed.

(** Where the structure is used: with a structure that has at least one site,
    each of the five methods returns the value it returns without a
    structure divided by [formula_units]; at a temperature equal to zero
    [cv] and [entropy] return the constant 0 without looking at the
    structure, which is 0 divided by [formula_units] whenever
    [formula_units] is positive.  Without a structure, and with a structure
    that has no site, the value is returned undivided. *)
Theorem structure_divides_by_formula_units
    (d : PhononDos.t) (t : float) (s : Structure) :
  (sites s <> [] ->
     divides_by_formula_units (PhononDos.zero_point_energy d) s
     /\ divides_by_formula_units (PhononDos.internal_energy d t) s
     /\ divides_by_formula_units (PhononDos.helmholtz_free_energy d t) s
     /\ ((t =? 0)%float = false ->
           divides_by_formula_units (PhononDos.cv d t) s
           /\ divides_by_formula_units (PhononDos.entropy d t) s)
     /\ ((t =? 0)%float = true ->
           PhononDos.cv d t (Some s) = Ok 0%float
           /\ PhononDos.entropy d t (Some s) = Ok 0%float
           /\ forall fu, PhononDos.formula_units s = Ok fu -> (0 <? fu)%float = true ->
                divides_by_formula_units (PhononDos.cv d t) s
                /\ divides_by_formula_units (PhononDos.entropy d t) s))
  /\ (sites s = [] ->
        PhononDos.zero_point_energy d (Some s) = PhononDos.zero_point_energy d None
        /\ PhononDos.internal_energy d t (Some s) = PhononDos.internal_energy d t None
        /\ PhononDos.helmholtz_free_energy d t (Some s) = PhononDos.helmholtz_free_energy d t None
        /\ PhononDos.cv d t (Some s) = PhononDos.cv d t None
        /\ PhononDos.entropy d t (Some s) = PhononDos.entropy d t None)
  /\ (forall value, PhononDos.per_formula_unit value None = Ok value).
Proof.
  split; [|split; [|intros value; reflexivity]].
  - intros Hs.
    split; [apply zero_point_energy_divides; exact Hs|].
    split; [|split; [|split]].
    + unfold divides_by_formula_units, PhononDos.internal_energy.
      destruct (t =? 0)%float; [apply zero_point_energy_divides; exact Hs|].
      run_binds; try reflexivity.
      rewrite per_formula_unit_sites by exact Hs. reflexivity.
    + unfold divides_by_formula_units, PhononDos.helmholtz_free_energy.
      destruct (t =? 0)%float; [apply zero_point_energy_divides; exact Hs|].
      run_binds; try reflexivity.
      rewrite per_formula_unit_sites by exact Hs. reflexivity.
    + intros Ht. unfold divides_by_formula_units, PhononDos.cv, PhononDos.entropy.
      rewrite Ht.
      split; run_binds; try reflexivity;
        rewrite per_formula_unit_sites by exact Hs; reflexivity.
    + intros Ht. unfold divides_by_formula_units, PhononDos.cv, PhononDos.entropy.
      rewrite Ht. split; [reflexivity|]. split; [reflexivity|].
      intros fu Hfu Hpos. rewrite Hfu. cbn [Py.bind].
      rewrite zero_div_pos by exact Hpos. auto.
  - intros Hs.
    split; [apply zero_point_energy_empty; exact Hs|].
    unfold PhononDos.internal_energy, PhononDos.helmholtz_free_energy,
      PhononDos.cv, PhononDos.entropy.
    destruct (t =? 0)%float.
    + rewrite zero_point_energy_empty by exact Hs. auto.
    + repeat split; run_binds; try reflexivity;
        rewrite per_formula_unit_empty by exact Hs; reflexivity.
Qed.

End FormulaUnits.

(** ** PhononDos: combination *)

Lemma all_map {A : Type} (g : A -> bool) (l : list A) :
  Py.all (map g l) = forallb g l.
Proof.
  unfold Py.all. induction l as [|x l IH]; simpl; [reflexivity | rewrite IH; reflexivity].
Qed.

Lemma elementwise_equal_length (a b : Np.ndarray) :
  elementwise_equal a b = true -> List.length a = List.length b.
Proof.
  unfold elementwise_equal. intros H. apply andb_prop in H. destruct H as [H _].
  apply Nat.eqb_eq. exact H.
Qed.

Lemma elementwise_equal_check (a b : Np.ndarray) :
  elementwise_equal a b = true ->
  Np.equal a b = Ok (Np.map2 PrimFloat.eqb a b)
  /\ Py.all (Np.map2 PrimFloat.eqb a b) = true.
Proof.
  intros H. pose proof (elementwise_equal_length a b H) as Hlen.
  unfold elementwise_equal in H. apply andb_prop in H. destruct H as [_ H].
  split.
  - unfold Np.equal, Np.broadcast. rewrite Hlen, Nat.eqb_refl. reflexivity.
  - unfold Np.map2. rewrite all_map. exact H.
Qed.

Lemma elementwise_equal_sym (a b : Np.ndarray) :
  elementwise_equal a b = elementwise_equal b a.
Proof.
  unfold elementwise_equal. rewrite (Nat.eqb_sym (List.length a)). f_equal.
  revert b. induction a as [|x a IH]; intros [|y b]; simpl; try reflexivity.
  rewrite IH, float_eqb_sym. reflexivity.
Qed.

Lemma map2_add_comm (a b : Np.ndarray) :
  Np.map2 PrimFloat.add a b = Np.map2 PrimFloat.add b a.
Proof.
  unfold Np.map2. revert b. induction a as [|x a IH]; intros [|y b]; simpl; try reflexivity.
  rewrite IH, float_add_comm. reflexivity.
Qed.

Lemma add_compatible (a b : PhononDos.t) :
  well_formed a -> well_formed b ->
  elementwise_equal (PhononDos.frequencies a) (PhononDos.frequencies b) = true ->
  PhononDos.__add__ a b =
  Ok (PhononDos.make (PhononDos.frequencies a)
        (Np.map2 PrimFloat.add (PhononDos.densities a) (PhononDos.densities b))).
Proof.
  intros Ha Hb Heq.
  destruct (elementwise_equal_check _ _ Heq) as [Hcheck Hall].
  unfold PhononDos.__add__. rewrite Hcheck. cbn [Py.bind]. rewrite Hall. cbn [negb].
  rewrite add_same_length; [reflexivity|].
  unfold well_formed in Ha, Hb. rewrite <- Ha, <- Hb.
  apply elementwise_equal_length. exact Heq.
Qed.

(** C4: for two PhononDos with elementwise equal frequency arrays, [a + b]
    is a new PhononDos with the frequencies of [a] and the elementwise sum of
    the densities; [b + a] has the frequencies of [b], which are elementwise
    equal to those of [a], and the same densities; [__radd__] returns what
    [__add__] returns. *)
Theorem add_sums_densities (a b : PhononDos.t) :
  well_formed a -> well_formed b ->
  elementwise_equal (PhononDos.frequencies a) (PhononDos.frequencies b) = true ->
  exists ab ba,
    PhononDos.__add__ a b = Ok ab
    /\ PhononDos.__add__ b a = Ok ba
    /\ PhononDos.frequencies ab = PhononDos.frequencies a
    /\ PhononDos.densities ab =
       Np.map2 PrimFloat.add (PhononDos.densities a) (PhononDos.densities b)
    /\ elementwise_equal (PhononDos.frequencies ab) (PhononDos.frequencies ba) = true
    /\ PhononDos.densities ab = PhononDos.densities ba
    /\ PhononDos.__radd__ a b = PhononDos.__add__ a b
    /\ PhononDos.__radd__ b a = PhononDos.__add__ b a.
Proof.
  intros Ha Hb Heq.
  assert (Heq' : elementwise_equal (PhononDos.frequencies b) (PhononDos.frequencies a) = true).
  { rewrite elementwise_equal_sym. exact Heq. }
  eexists. eexists.
  split; [apply add_compatible; assumption|].
  split; [apply add_compatible; assumption|].
  cbn [PhononDos.frequencies PhononDos.densities].
  repeat split; try reflexivity.
  - exact Heq.
  - apply map2_add_comm.
Qed.

Lemma add_same_length_differing (a b : PhononDos.t) :
  List.length (PhononDos.frequencies a) = List.length (PhononDos.frequencies b) ->
  elementwise_equal (PhononDos.frequencies a) (PhononDos.frequencies b) = false ->
  PhononDos.__add__ a b = Raise IncompatibleSpectra.
Proof.
  intros Hlen Hne. unfold PhononDos.__add__, Np.equal, Np.broadcast.
  rewrite Hlen, Nat.eqb_refl. cbn [Py.bind].
  unfold elementwise_equal in Hne. rewrite Hlen, Nat.eqb_refl in Hne. simpl in Hne.
  unfold Np.map2. rewrite all_map, Hne. reflexivity.
Qed.

Lemma add_not_broadcastable (a b : PhononDos.t) :
  List.length (PhononDos.frequencies a) <> List.length (PhononDos.frequencies b) ->
  List.length (PhononDos.frequencies a) <> 1 ->
  List.length (PhononDos.frequencies b) <> 1 ->
  PhononDos.__add__ a b = Raise (ValueError "operands could not be broadcast together").
Proof.
  intros Hlen Ha Hb. unfold PhononDos.__add__, Np.equal, Np.broadcast.
  apply Nat.eqb_neq in Hlen. rewrite Hlen.
  destruct (PhononDos.frequencies a) as [|x [|x' a']];
    destruct (PhononDos.frequencies b) as [|y [|y' b']];
    simpl in *; try congruence; reflexivity.
Qed.

(** C5, on the code: two frequency arrays of different lengths, one of them
    of length one, are not elementwise equal, and [+] raises nothing: the
    comparison broadcasts the single frequency, and the result pairs the one
    frequency with two densities, or, against an empty axis, with none. *)
Theorem add_broadcasts_single_frequency :
  elementwise_equal [1]%float [1; 1]%float = false
  /\ PhononDos.__add__ (PhononDos.make [1]%float [2]%float)
                       (PhononDos.make [1; 1]%float [3; 4]%float)
     = Ok (PhononDos.make [1]%float [5; 6]%float)
  /\ elementwise_equal [1]%float [] = false
  /\ PhononDos.__add__ (PhononDos.make [1]%float [2]%float) (PhononDos.make [] [])
     = Ok (PhononDos.make [1]%float []).
Proof. repeat split; reflexivity. Qed.

(** C10: the sum of two CompletePhononDos is an instance of PhononDos; it
    holds the frequencies of the left operand and the summed total densities,
    and nothing else. *)
Theorem complete_plus_is_plain (a b : CompletePhononDos.t) :
  (forall r, dos_plus (IsCompletePhononDos a) (IsCompletePhononDos b) = Ok r ->
             exists d, r = IsPhononDos d)
  /\ (well_formed (CompletePhononDos.base a) -> well_formed (CompletePhononDos.base b) ->
      elementwise_equal (PhononDos.frequencies (CompletePhononDos.base a))
                        (PhononDos.frequencies (CompletePhononDos.base b)) = true ->
      dos_plus (IsCompletePhononDos a) (IsCompletePhononDos b) =
      Ok (IsPhononDos
            (PhononDos.make (PhononDos.frequencies (CompletePhononDos.base a))
               (Np.map2 PrimFloat.add (PhononDos.densities (CompletePhononDos.base a))
                                      (PhononDos.densities (CompletePhononDos.base b)))))).
Proof.
  split.
  - intros r. unfold dos_plus, Py.fmap. cbn [inherited].
    destruct (PhononDos.__add__ (CompletePhononDos.base a) (CompletePhononDos.base b));
      cbn [Py.bind]; intros Hr; [|discriminate].
    injection Hr as <-. eauto.
  - intros Ha Hb Heq. unfold dos_plus, Py.fmap. cbn [inherited].
    rewrite (add_compatible Ha Hb Heq). reflexivity.
Qed.

(** ** PhononDos: smearing *)

Lemma differences_by_index (l : Np.ndarray) :
  map (fun idx => (nth (idx + 1) l nan - nth idx l nan)%float) (seq 0 (List.length l - 1))
  = consecutive_differences l.
Proof.
  induction l as [|x0 [|x1 r] IH]; try reflexivity.
  change (List.length (x0 :: x1 :: r) - 1) with (S (List.length r)).
  change (consecutive_differences (x0 :: x1 :: r))
    with ((x1 - x0)%float :: consecutive_differences (x1 :: r)).
  rewrite <- IH.
  change (List.length (x1 :: r) - 1) with (List.length r - 0).
  rewrite Nat.sub_0_r. cbn [seq map]. f_equal.
  rewrite <- seq_shift, map_map. reflexivity.
Qed.

Lemma length_consecutive_differences (l : Np.ndarray) :
  List.length (consecutive_differences l) = List.length l - 1.
Proof.
  induction l as [|x0 [|x1 r] IH]; try reflexivity.
  change (consecutive_differences (x0 :: x1 :: r))
    with ((x1 - x0)%float :: consecutive_differences (x1 :: r)).
  cbn [List.length] in *. rewrite IH. lia.
Qed.

Section Smearing.
Context `{Externals}.

(** C9: with fewer than two frequency points [get_smeared_densities] raises
    ZeroDivisionError, the list of consecutive differences being empty.  With
    two or more points the average spacing is the quotient of the sum of the
    differences by their number, no division error is raised, and the call
    is the call of [gaussian_filter1d] on the densities and
    [sigma / average spacing]: it returns the array the filter returns, and
    raises what the filter raises, which is the exception of [int] when the
    filter cannot convert its radius.  In each case the instance is after
    the call what it was before. *)
Theorem smeared_densities_needs_two_points (d : PhononDos.t) (sigma : float) :
  (List.length (PhononDos.frequencies d) < 2 ->
     consecutive_differences (PhononDos.frequencies d) = []
     /\ PhononDos.get_smeared_densities d sigma = Raise ZeroDivisionError)
  /\ (2 <= List.length (PhononDos.frequencies d) ->
      PhononDos.get_smeared_densities d sigma =
      gaussian_filter1d (PhononDos.densities d)
                        (sigma / average_spacing (PhononDos.frequencies d))%float
      /\ (forall smeared,
            gaussian_filter1d (PhononDos.densities d)
              (sigma / average_spacing (PhononDos.frequencies d))%float = Ok smeared ->
            call_get_smeared_densities d sigma = (d, Ok smeared))
      /\ (filter_converts_radius ->
          forall e,
            py_int (4.0 * (sigma / average_spacing (PhononDos.frequencies d)) + 0.5)%float
            = Raise e ->
            call_get_smeared_densities d sigma = (d, Raise e)))
  /\ fst (call_get_smeared_densities d sigma) = d.
Proof.
  unfold call_get_smeared_densities, PhononDos.get_smeared_densities.
  rewrite differences_by_index, length_consecutive_differences.
  split; [|split; [|reflexivity]]; intros Hlen.
  - destruct (PhononDos.frequencies d) as [|x0 [|x1 r]]; simpl in Hlen; try lia;
      split; reflexivity.
  - destruct (Nat.eqb_spec (List.length (PhononDos.frequencies d) - 1) 0); [lia|].
    cbn [Py.bind]. fold (average_spacing (PhononDos.frequencies d)).
    split; [reflexivity|]. split.
    + intros smeared Hs. rewrite Hs. reflexivity.
    + intros Hfilter e He. rewrite (Hfilter _ _ _ He). reflexivity.
Qed.

End Smearing.

(** ** IsingModel *)

Lemma fold_left_add_map {A : Type} (f : A -> float) (l : list A) (e : float) :
  fold_left (fun acc x => (acc + f x)%float) l e = fold_left PrimFloat.add (map f l) e.
Proof.
  revert e. induction l as [|x l IH]; intros e; simpl; [reflexivity | apply IH].
Qed.

Lemma ordered_pairs_cons (o : Site) (origins : list Site)
    (nns : list PeriodicNeighbor) (rest : list (list PeriodicNeighbor)) :
  ordered_pairs (o :: origins) (nns :: rest)
  = map (fun nn => (o, nn)) nns ++ ordered_pairs origins rest.
Proof. reflexivity. Qed.

Section Ising.
Context `{StructureServices} `{ScalarPower}.

(** The outer loop of [get_energy], entered at index [k] with the energy
    [e], over the neighbour lists [all_nn] of the sites [origins]. *)
Lemma get_energy_loop (self : IsingModel.t) (structure : Structure)
    (all_nn : list (list PeriodicNeighbor)) :
  forall (k : nat) (origins : list Site) (e : float),
    List.length all_nn <= List.length origins ->
    (forall i, i < List.length all_nn ->
               nth_error (sites structure) (k + i) = nth_error origins i) ->
    fold_left
      (fun acc item =>
         energy <- acc ;;
         site <- Structure_getitem structure (fst item) ;;
         let s1 := IsingModel.getattr_spin (specie site) in
         Ok (fold_left (fun energy nn => (energy + IsingModel.pair_energy self s1 nn)%float)
                       (snd item) energy))
      (combine (seq k (List.length all_nn)) all_nn) (Ok e)
    = Ok (fold_left PrimFloat.add
            (map (pair_term (IsingModel.j self)) (ordered_pairs origins all_nn)) e).
Proof.
  induction all_nn as [|nns rest IH]; intros k origins e Hlen Hnth.
  - unfold ordered_pairs. destruct origins; reflexivity.
  - destruct origins as [|o origins]; [simpl in Hlen; lia|].
    assert (Hk : Structure_getitem structure k = Ok o).
    { unfold Structure_getitem.
      pose proof (Hnth 0 ltac:(simpl; lia)) as Hfirst. rewrite Nat.add_0_r in Hfirst.
      rewrite Hfirst. reflexivity. }
    cbn [List.length seq combine fold_left fst snd Py.bind].
    rewrite Hk. cbn [Py.bind].
    rewrite (IH (S k) origins).
    + rewrite ordered_pairs_cons, map_app, fold_left_app, map_map.
      rewrite (fold_left_add_map
                 (IsingModel.pair_energy self (IsingModel.getattr_spin (specie o)))).
      reflexivity.
    + simpl in Hlen. lia.
    + intros i Hi. specialize (Hnth (S i) ltac:(simpl; lia)).
      rewrite Nat.add_succ_r in Hnth. exact Hnth.
Qed.

(** C8: with one neighbour list per site, [get_energy] returns the sum,
    from 0 and in the order of the enumeration, of
    [j * spin(i) * spin(nn) / (nn_distance ** 2)] over every pair of an origin
    site [i] and an entry [nn] of its neighbour list; a pair listed from both
    of its ends is in the sum twice.  The spin of a species without the
    attribute is 0. *)
Theorem ising_energy_sums_ordered_pairs (self : IsingModel.t) (structure : Structure) :
  List.length (get_all_neighbors structure (IsingModel.max_radius self))
    = List.length (sites structure) ->
  IsingModel.get_energy self structure =
    Ok (Py.sum (map (pair_term (IsingModel.j self))
                    (ordered_pairs (sites structure)
                       (get_all_neighbors structure (IsingModel.max_radius self)))))
  /\ (forall sp, spin sp = None -> IsingModel.getattr_spin sp = 0%float)
  /\ (forall sp s, spin sp = Some s -> IsingModel.getattr_spin sp = s).
Proof.
  intros Hlen. split; [|split].
  - unfold IsingModel.get_energy, Py.enumerate, Py.sum.
    apply get_energy_loop; [lia | intros i _; reflexivity].
  - intros sp Hsp. unfold IsingModel.getattr_spin. rewrite Hsp. reflexivity.
  - intros sp s Hsp. unfold IsingModel.getattr_spin. rewrite Hsp. reflexivity.
Qed.

End Ising.

(** ** Dictionaries *)

Lemma NoDup_snoc {A : Type} (l : list A) (a : A) :
  NoDup l -> ~ In a l -> NoDup (l ++ [a]).
Proof.
  induction l as [|x l IH]; simpl; intros Hnd Hin.
  - constructor; [tauto | constructor].
  - inversion Hnd as [|? ? Hx Hl]; subst. constructor.
    + intros H. apply in_app_or in H. destruct H as [H|[H|[]]]; [auto|].
      subst. tauto.
    + apply IH; tauto.
Qed.

Section DictFacts.
Context {K V : Type} (K_eqb : K -> K -> bool).
Hypothesis K_eqb_eq : forall a b, K_eqb a b = true <-> a = b.

Lemma K_eqb_refl (k : K) : K_eqb k k = true.
Proof. apply K_eqb_eq. reflexivity. Qed.

Lemma dict_get_None (d : Py.dict K V) (k : K) :
  Py.dict_get K_eqb d k = None <-> ~ In k (Py.dict_keys d).
Proof.
  induction d as [|[k0 v0] d IH]; simpl.
  - tauto.
  - destruct (K_eqb k0 k) eqn:E.
    + apply K_eqb_eq in E. split; [discriminate | intros Hn; exfalso; auto].
    + rewrite IH. split.
      * intros Hn [Heq|Hin]; [|auto]. subst k0. rewrite K_eqb_refl in E. discriminate.
      * tauto.
Qed.

Lemma dict_get_In (d : Py.dict K V) (k : K) :
  In k (Py.dict_keys d) -> exists v, Py.dict_get K_eqb d k = Some v.
Proof.
  intros Hin. destruct (Py.dict_get K_eqb d k) as [v|] eqn:E; [eauto|].
  apply dict_get_None in E. contradiction.
Qed.

Lemma dict_set_fresh (d : Py.dict K V) (k : K) (v : V) :
  ~ In k (Py.dict_keys d) -> Py.dict_set K_eqb d k v = d ++ [(k, v)].
Proof.
  induction d as [|[k0 v0] d IH]; simpl; intros Hfresh; [reflexivity|].
  destruct (K_eqb k0 k) eqn:E.
  - apply K_eqb_eq in E. exfalso. auto.
  - rewrite IH; [reflexivity | tauto].
Qed.

Lemma dict_of_pairs_fresh (ps acc : Py.dict K V) :
  NoDup (Py.dict_keys (acc ++ ps)) ->
  fold_left (fun d kv => Py.dict_set K_eqb d (fst kv) (snd kv)) ps acc = acc ++ ps.
Proof.
  revert acc. induction ps as [|[k v] ps IH]; intros acc Hnd; simpl.
  - rewrite app_nil_r. reflexivity.
  - unfold Py.dict_keys in Hnd. rewrite map_app in Hnd. simpl in Hnd.
    rewrite dict_set_fresh.
    + rewrite IH.
      * rewrite <- app_assoc. reflexivity.
      * unfold Py.dict_keys. rewrite <- app_assoc, map_app. exact Hnd.
    + apply NoDup_remove_2 in Hnd. intros Hin. apply Hnd.
      apply in_or_app. left. exact Hin.
Qed.

(** Building a dict from the items of a dict gives the dict back. *)
Lemma dict_of_pairs_dict (d : Py.dict K V) :
  NoDup (Py.dict_keys d) -> Py.dict_of_pairs K_eqb d = d.
Proof.
  intros Hnd. unfold Py.dict_of_pairs. rewrite dict_of_pairs_fresh; auto.
Qed.

Lemma dict_set_keys (d : Py.dict K V) (k : K) (v : V) :
  Py.dict_keys (Py.dict_set K_eqb d k v)
  = match Py.dict_get K_eqb d k with
    | Some _ => Py.dict_keys d
    | None => Py.dict_keys d ++ [k]
    end.
Proof.
  induction d as [|[k0 v0] d IH]; simpl; [reflexivity|].
  destruct (K_eqb k0 k) eqn:E; simpl; [reflexivity|].
  rewrite IH. destruct (Py.dict_get K_eqb d k); reflexivity.
Qed.

Lemma dict_set_NoDup (d : Py.dict K V) (k : K) (v : V) :
  NoDup (Py.dict_keys d) -> NoDup (Py.dict_keys (Py.dict_set K_eqb d k v)).
Proof.
  intros Hnd. rewrite dict_set_keys.
  destruct (Py.dict_get K_eqb d k) eqn:E; [exact Hnd|].
  apply dict_get_None in E.
  apply NoDup_snoc; assumption.
Qed.

Lemma dict_get_set (d : Py.dict K V) (k k' : K) (v : V) :
  Py.dict_get K_eqb (Py.dict_set K_eqb d k v) k'
  = if K_eqb k k' then Some v else Py.dict_get K_eqb d k'.
Proof.
  induction d as [|[k0 v0] d IH]; simpl; [reflexivity|].
  destruct (K_eqb k0 k) eqn:E; simpl.
  - apply K_eqb_eq in E. subst k0. destruct (K_eqb k k'); reflexivity.
  - rewrite IH. destruct (K_eqb k0 k') eqn:E'; [|reflexivity].
    apply K_eqb_eq in E'. subst k0.
    destruct (K_eqb k k') eqn:E2; [|reflexivity].
    apply K_eqb_eq in E2. subst k'. rewrite K_eqb_refl in E. discriminate.
Qed.

(** A dict built from the pairs [(k, f k)] maps each listed key [k] to
    [f k]. *)
Lemma dict_get_of_graph (f : K -> V) (ks : list K) (acc : Py.dict K V) (k : K) :
  Py.dict_get K_eqb
    (fold_left (fun d kv => Py.dict_set K_eqb d (fst kv) (snd kv))
               (map (fun k => (k, f k)) ks) acc) k
  = if existsb (K_eqb k) ks then Some (f k) else Py.dict_get K_eqb acc k.
Proof.
  revert acc. induction ks as [|k0 ks IH]; intros acc; simpl; [reflexivity|].
  rewrite IH. destruct (existsb (K_eqb k) ks); [rewrite orb_true_r; reflexivity|].
  rewrite orb_false_r, dict_get_set. simpl.
  destruct (K_eqb k0 k) eqn:E.
  - apply K_eqb_eq in E. subst k0. rewrite K_eqb_refl. reflexivity.
  - destruct (K_eqb k k0) eqn:E'; [|reflexivity].
    apply K_eqb_eq in E'. subst k0. rewrite K_eqb_refl in E. discriminate.
Qed.

Lemma dict_of_pairs_NoDup (ps acc : Py.dict K V) :
  NoDup (Py.dict_keys acc) ->
  NoDup (Py.dict_keys (fold_left (fun d kv => Py.dict_set K_eqb d (fst kv) (snd kv)) ps acc)).
Proof.
  revert acc. induction ps as [|[k v] ps IH]; intros acc Hnd; simpl; [exact Hnd|].
  apply IH. apply dict_set_NoDup. exact Hnd.
Qed.

Lemma existsb_eqb_In (k : K) (ks : list K) :
  existsb (K_eqb k) ks = true <-> In k ks.
Proof.
  rewrite existsb_exists. split.
  - intros (x & Hin & Hx). apply K_eqb_eq in Hx. subst x. exact Hin.
  - intros Hin. exists k. split; [exact Hin | apply K_eqb_refl].
Qed.

End DictFacts.

(** ** Serialization *)

Lemma option_float_eqb_eq (a b : option float) :
  option_eqb PrimFloat.Leibniz.eqb a b = true <-> a = b.
Proof.
  destruct a as [a|], b as [b|]; simpl; try (split; congruence).
  rewrite FloatAxioms.Leibniz.eqb_spec. split; congruence.
Qed.

Lemma Species_eqb_eq (a b : Species) : Species_eqb a b = true <-> a = b.
Proof.
  unfold Species_eqb. rewrite andb_true_iff, String.eqb_eq, option_float_eqb_eq.
  destruct a, b; simpl. split; [intros [-> ->]; reflexivity | intros E; inversion E; auto].
Qed.

Lemma coords_eqb_eq (a b : float * float * float) : coords_eqb a b = true <-> a = b.
Proof.
  destruct a as [[a1 a2] a3], b as [[b1 b2] b3]. unfold coords_eqb.
  rewrite !andb_true_iff, !FloatAxioms.Leibniz.eqb_spec.
  split; [intros [[-> ->] ->]; reflexivity | intros E; inversion E; auto].
Qed.

Lemma Site_eqb_eq (a b : Site) : Site_eqb a b = true <-> a = b.
Proof.
  unfold Site_eqb. rewrite andb_true_iff, Species_eqb_eq, coords_eqb_eq.
  destruct a, b; simpl. split; [intros [-> ->]; reflexivity | intros E; inversion E; auto].
Qed.

Lemma items_identity {K V : Type} (d : Py.dict K V) :
  map (fun item => (fst item, snd item)) d = d.
Proof.
  induction d as [|[k v] d IH]; simpl; [reflexivity | rewrite IH; reflexivity].
Qed.

Lemma combine_graph {K V : Type} (f : K -> V) (ks : list K) :
  combine ks (map f ks) = map (fun k => (k, f k)) ks.
Proof.
  induction ks as [|k ks IH]; simpl; [reflexivity | rewrite IH; reflexivity].
Qed.

Lemma pdos_in_site_order_total (pdos : Py.dict Site Np.ndarray) (ats : list Site) :
  (forall site, In site ats -> In site (Py.dict_keys pdos)) ->
  CompletePhononDos.pdos_in_site_order pdos ats
  = Ok (map (fun site => match Py.dict_get Site_eqb pdos site with
                         | Some dens => dens
                         | None => []
                         end) ats).
Proof.
  induction ats as [|site ats IH]; intros Hin; [reflexivity|].
  cbn [CompletePhononDos.pdos_in_site_order map]. unfold Py.dict_getitem.
  destruct (dict_get_In Site_eqb Site_eqb_eq pdos site (Hin site (or_introl eq_refl)))
    as [dens Hdens].
  rewrite Hdens. cbn [Py.bind]. rewrite IH; [reflexivity|].
  intros s Hs. apply Hin. right. exact Hs.
Qed.

Section Roundtrip.
Context `{StructureServices}.

Lemma PhononDos_roundtrip (x : PhononDos.t) :
  PhononDos.from_dict (PhononDos.as_dict x) = Ok x.
Proof. destruct x. reflexivity. Qed.

(** C7: [from_dict(as_dict(x))] is [x] for a PhononDos.  For a
    CompletePhononDos that holds one density sequence per site of its
    structure, and whose structure survives its own serialization,
    [as_dict] lists the per-site densities in the order of the sites, and
    [from_dict] of that dict has the frequencies, densities and structure of
    [x] and, zipping sites and listed densities by position, the density
    sequence of [x] at every site. *)
Theorem from_dict_as_dict_roundtrip :
  (forall x : PhononDos.t, PhononDos.from_dict (PhononDos.as_dict x) = Ok x)
  /\ (forall x : CompletePhononDos.t,
        Structure_from_dict (Structure_as_dict (CompletePhononDos.structure x))
          = CompletePhononDos.structure x ->
        one_entry_per_site x ->
        exists dct x' pdos_list,
          CompletePhononDos.as_dict x = Ok dct
          /\ CompletePhononDos.from_dict dct = Ok x'
          /\ CompletePhononDos.base x' = CompletePhononDos.base x
          /\ CompletePhononDos.structure x' = CompletePhononDos.structure x
          /\ (forall site, Py.dict_get Site_eqb (CompletePhononDos.pdos x') site
                           = Py.dict_get Site_eqb (CompletePhononDos.pdos x) site)
          /\ Py.dict_get String.eqb dct "pdos"%string = Some (PyListOfLists pdos_list)
          /\ (CompletePhononDos.pdos x <> [] ->
              Forall2 (fun site dens =>
                         Py.dict_get Site_eqb (CompletePhononDos.pdos x) site = Some dens)
                      (sites (CompletePhononDos.structure x)) pdos_list)
          /\ CompletePhononDos.pdos x'
             = Py.dict_of_pairs Site_eqb
                 (combine (sites (CompletePhononDos.structure x)) pdos_list)).
Proof.
  split; [exact PhononDos_roundtrip|].
  intros [[fr de] pd st] Hst (Hnd & Hkeys & Hall).
  cbn [CompletePhononDos.structure CompletePhononDos.pdos CompletePhononDos.base] in *.
  set (f := fun site => match Py.dict_get Site_eqb pd site with
                        | Some dens => dens
                        | None => []
                        end).
  assert (Hinit : forall l : list (list float),
             Py.dict_of_pairs Site_eqb
               (map (fun item => (fst item, snd item))
                    (Py.dict_of_pairs Site_eqb (combine (sites st) l)))
             = Py.dict_of_pairs Site_eqb (combine (sites st) l)).
  { intros l. rewrite items_identity. apply dict_of_pairs_dict; [exact Site_eqb_eq|].
    apply dict_of_pairs_NoDup; [exact Site_eqb_eq | constructor]. }
  destruct Hall as [Hempty | Hall].
  - subst pd.
    exists [ ("@module"%string, PyStr "pymatgen.phonon.dos");
             ("@class"%string, PyStr "CompletePhononDos");
             ("structure"%string, PyStructureDict (Structure_as_dict st));
             ("frequencies"%string, PyList fr);
             ("densities"%string, PyList de);
             ("pdos"%string, PyListOfLists []) ].
    exists (CompletePhononDos.__init__ st (PhononDos.make fr de)
              (Py.dict_of_pairs Site_eqb (combine (sites st) []))).
    exists [].
    split; [reflexivity|].
    split.
    { unfold CompletePhononDos.from_dict. cbn. rewrite Hst. reflexivity. }
    unfold CompletePhononDos.__init__.
    cbn [CompletePhononDos.structure CompletePhononDos.pdos CompletePhononDos.base
         PhononDos.frequencies PhononDos.densities].
    rewrite Hinit.
    repeat split; try reflexivity.
    + intros site. rewrite combine_nil. reflexivity.
    + intros Hne. congruence.
  - exists [ ("@module"%string, PyStr "pymatgen.phonon.dos");
             ("@class"%string, PyStr "CompletePhononDos");
             ("structure"%string, PyStructureDict (Structure_as_dict st));
             ("frequencies"%string, PyList fr);
             ("densities"%string, PyList de);
             ("pdos"%string, PyListOfLists (map f (sites st))) ].
    exists (CompletePhononDos.__init__ st (PhononDos.make fr de)
              (Py.dict_of_pairs Site_eqb (combine (sites st) (map f (sites st))))).
    exists (map f (sites st)).
    split.
    { unfold CompletePhononDos.as_dict.
      cbn [CompletePhononDos.structure CompletePhononDos.pdos CompletePhononDos.base
           PhononDos.frequencies PhononDos.densities].
      rewrite (pdos_in_site_order_total pd (sites st) Hall).
      destruct (0 <? List.length pd) eqn:Hlen; [reflexivity|].
      apply Nat.ltb_ge in Hlen.
      destruct pd as [|p pd]; [|simpl in Hlen; lia].
      destruct (sites st) as [|s0 ss]; [reflexivity|].
      exfalso. apply (Hall s0). left. reflexivity. }
    split.
    { unfold CompletePhononDos.from_dict. cbn. rewrite Hst. reflexivity. }
    unfold CompletePhononDos.__init__.
    cbn [CompletePhononDos.structure CompletePhononDos.pdos CompletePhononDos.base
         PhononDos.frequencies PhononDos.densities].
    rewrite Hinit.
    repeat split; try reflexivity.
    + intros site. unfold Py.dict_of_pairs. rewrite combine_graph.
      rewrite (dict_get_of_graph Site_eqb Site_eqb_eq).
      destruct (existsb (Site_eqb site) (sites st)) eqn:Hin.
      * apply (existsb_eqb_In Site_eqb Site_eqb_eq) in Hin.
        destruct (dict_get_In Site_eqb Site_eqb_eq pd site (Hall site Hin)) as [dens Hd].
        unfold f. rewrite Hd. reflexivity.
      * simpl. symmetry. apply (dict_get_None Site_eqb Site_eqb_eq).
        intros Hk. apply Hkeys in Hk.
        apply (existsb_eqb_In Site_eqb Site_eqb_eq) in Hk. congruence.
    + intros _. clear Hinit Hkeys. induction (sites st) as [|s0 ss IHs]; constructor.
      * destruct (dict_get_In Site_eqb Site_eqb_eq pd s0 (Hall s0 (or_introl eq_refl)))
          as [dens Hd].
        unfold f. rewrite Hd. reflexivity.
      * apply IHs. intros s Hs. apply Hall. right. exact Hs.
Qed.

End Roundtrip.

(** * The theorems at the sample instances *)

Lemma sample_dos_has_nonneg :
  Exists (fun f => nonneg f = true) (PhononDos.frequencies sample_dos).
Proof. apply Exists_cons_tl. apply Exists_cons_hd. reflexivity. Qed.

Lemma sample_dos_first_nonneg :
  is_first_index nonneg (PhononDos.frequencies sample_dos) 1.
Proof.
  split; [simpl; lia|]. split; [reflexivity|].
  intros k Hk. destruct k; [reflexivity | lia].
Qed.

Lemma unstable_dos_all_negative :
  Forall (fun f => negative f = true) (PhononDos.frequencies unstable_dos).
Proof. repeat constructor. Qed.

Lemma sample_structure_has_sites : sites sample_structure <> [].
Proof. discriminate. Qed.

Lemma sample_sites_NoDup : NoDup (sites sample_structure).
Proof.
  assert (Hne : forall a b, Site_eqb a b = false -> a <> b).
  { intros a b E Heq. apply Site_eqb_eq in Heq. congruence. }
  repeat constructor; simpl; intros Hin;
    repeat match goal with
           | H : _ \/ _ |- _ => destruct H as [H|H]
           | H : False |- _ => contradiction
           | H : ?a = ?b |- _ => exact (Hne a b eq_refl H)
           end.
Qed.

Lemma sample_complete_dos_one_entry_per_site : one_entry_per_site sample_complete_dos.
Proof.
  split; [exact sample_sites_NoDup|]. split.
  - intros site Hin. exact Hin.
  - right. intros site Hin. exact Hin.
Qed.

Lemma zero_point_energy_formula_witness :
  exists i,
    is_first_index nonneg (PhononDos.frequencies sample_dos) i
    /\ @PhononDos.zero_point_energy sample_externals sample_dos None =
       (y <- Np.multiply (skipn i (PhononDos.frequencies sample_dos))
                         (skipn i (PhononDos.densities sample_dos)) ;;
        q <- trapezoid y (skipn i (PhononDos.frequencies sample_dos)) ;;
        Ok (0.5 * q * (@THZ_TO_J sample_externals * 6.02214076e23))%float)
    /\ Np.multiply (skipn i (PhononDos.frequencies sample_dos))
                   (skipn i (PhononDos.densities sample_dos))
       = Ok (Np.map2 PrimFloat.mul (skipn i (PhononDos.frequencies sample_dos))
                                   (skipn i (PhononDos.densities sample_dos))).
Proof.
  destruct (proj1 (@zero_point_energy_formula sample_externals) sample_dos
              eq_refl sample_dos_has_nonneg) as (i & Hi & Hz & Hm).
  exists i. split; [exact Hi|]. split; [exact Hz|]. apply Hm. reflexivity.
Defined.

Lemma zero_temperature_limits_witness :
  @PhononDos.cv sample_externals sample_dos 0 (Some sample_structure) = Ok 0%float
  /\ @PhononDos.entropy sample_externals sample_dos 0 (Some sample_structure) = Ok 0%float
  /\ @PhononDos.internal_energy sample_externals sample_dos 0 (Some sample_structure)
     = @PhononDos.zero_point_energy sample_externals sample_dos (Some sample_structure)
  /\ @PhononDos.helmholtz_free_energy sample_externals sample_dos 0 (Some sample_structure)
     = @PhononDos.zero_point_energy sample_externals sample_dos (Some sample_structure).
Proof.
  apply (@zero_temperature_limits sample_externals sample_dos 0%float (Some sample_structure)).
  reflexivity.
Defined.

(** C3: the code at a structure without sites.  Such a structure is not
    [None], and the docstring of each of the five methods says of the
    structure "If not None it will be used to determine the number of formula
    units"; the guard [if structure:] is false for it, so all five methods,
    for every DOS and every temperature, return what they return without a
    structure.  The formula units of that structure are 0 / 0, a
    ZeroDivisionError, so the value divided by them does not exist.  For
    comparison, a structure of four sites and two formula units halves the
    value. *)
Theorem structure_without_sites_is_not_used :
  Structure_bool (Some empty_structure) = false
  /\ PhononDos.formula_units empty_structure = Raise ZeroDivisionError
  /\ (forall (E : Externals) (d : PhononDos.t) (t : float),
        @PhononDos.zero_point_energy E d (Some empty_structure)
        = @PhononDos.zero_point_energy E d None
        /\ @PhononDos.internal_energy E d t (Some empty_structure)
           = @PhononDos.internal_energy E d t None
        /\ @PhononDos.helmholtz_free_energy E d t (Some empty_structure)
           = @PhononDos.helmholtz_free_energy E d t None
        /\ @PhononDos.cv E d t (Some empty_structure) = @PhononDos.cv E d t None
        /\ @PhononDos.entropy E d t (Some empty_structure) = @PhononDos.entropy E d t None)
  /\ @PhononDos.zero_point_energy sample_externals positive_dos None
     = Ok 1197.0938138680294%float
  /\ @PhononDos.zero_point_energy sample_externals positive_dos (Some empty_structure)
     = Ok 1197.0938138680294%float
  /\ @PhononDos.zero_point_energy sample_externals positive_dos (Some sample_structure)
     = Ok 598.54690693401471%float
  /\ @PhononDos.cv sample_externals positive_dos 300 (Some empty_structure)
     = Ok 24.714923567153001%float
  /\ @PhononDos.cv sample_externals positive_dos 300 (Some sample_structure)
     = Ok 12.3574617835765%float
  /\ ~ divides_by_formula_units
         (@PhononDos.zero_point_energy sample_externals positive_dos) empty_structure.
Proof.
  split; [reflexivity|]. split; [reflexivity|]. split.
  { intros E d t.
    exact (proj1 (proj2 (@structure_divides_by_formula_units E d t empty_structure))
             eq_refl). }
  repeat (split; [vm_compute; reflexivity|]).
  unfold divides_by_formula_units. vm_compute. discriminate.
Qed.

Lemma structure_divides_by_formula_units_witness :
  divides_by_formula_units (@PhononDos.zero_point_energy sample_externals sample_dos)
                           sample_structure
  /\ divides_by_formula_units (@PhononDos.cv sample_externals positive_dos 300)
                              sample_structure
  /\ divides_by_formula_units (@PhononDos.cv sample_externals sample_dos 0)
                              sample_structure
  /\ @PhononDos.zero_point_energy sample_externals sample_dos (Some empty_structure)
     = @PhononDos.zero_point_energy sample_externals sample_dos None.
Proof.
  split; [|split; [|split]].
  - apply (proj1 (@structure_divides_by_formula_units
                    sample_externals sample_dos 300%float sample_structure)).
    exact sample_structure_has_sites.
  - apply (proj1 (proj2 (proj2 (proj2 (proj1
             (@structure_divides_by_formula_units
                sample_externals positive_dos 300%float sample_structure)
             sample_structure_has_sites))))).
    reflexivity.
  - apply (proj2 (proj2 (proj2 (proj2 (proj2 (proj2 (proj1
             (@structure_divides_by_formula_units
                sample_externals sample_dos 0%float sample_structure)
             sample_structure_has_sites)))) eq_refl)) 2%float).
    + reflexivity.
    + reflexivity.
  - apply (proj1 (proj2 (@structure_divides_by_formula_units
                           sample_externals sample_dos 300%float empty_structure))).
    reflexivity.
Defined.

Lemma add_sums_densities_witness :
  exists ab ba,
    PhononDos.__add__ sample_dos sample_dos2 = Ok ab
    /\ PhononDos.__add__ sample_dos2 sample_dos = Ok ba
    /\ PhononDos.frequencies ab = PhononDos.frequencies sample_dos
    /\ PhononDos.densities ab =
       Np.map2 PrimFloat.add (PhononDos.densities sample_dos) (PhononDos.densities sample_dos2)
    /\ elementwise_equal (PhononDos.frequencies ab) (PhononDos.frequencies ba) = true
    /\ PhononDos.densities ab = PhononDos.densities ba
    /\ PhononDos.__radd__ sample_dos sample_dos2 = PhononDos.__add__ sample_dos sample_dos2
    /\ PhononDos.__radd__ sample_dos2 sample_dos = PhononDos.__add__ sample_dos2 sample_dos.
Proof.
  apply (@add_sums_densities sample_dos sample_dos2); reflexivity.
Defined.

Lemma zero_freq_index_first_nonneg_witness :
  (PhononDos.ind_zero_freq sample_dos = Ok 1
   /\ PhononDos._positive_frequencies sample_dos
      = Ok (skipn 1 (PhononDos.frequencies sample_dos))
   /\ PhononDos._positive_densities sample_dos
      = Ok (skipn 1 (PhononDos.densities sample_dos)))
  /\ PhononDos.ind_zero_freq unstable_dos = Raise NoPositiveFrequencies
  /\ @PhononDos.zero_point_energy sample_externals unstable_dos None
     = Raise NoPositiveFrequencies
  /\ @PhononDos.cv sample_externals unstable_dos 300 None = Raise NoPositiveFrequencies.
Proof.
  split.
  - apply (proj1 (@zero_freq_index_first_nonneg sample_externals sample_dos)).
    + reflexivity.
    + exact sample_dos_first_nonneg.
  - destruct (proj2 (@zero_freq_index_first_nonneg sample_externals unstable_dos)
                unstable_dos_all_negative) as (Hind & _ & _ & Hmethods).
    destruct (Hmethods 300%float None) as (Hzpe & _ & _ & Hcv).
    split; [exact Hind|]. split; [exact Hzpe|].
    apply Hcv. reflexivity.
Defined.

Lemma from_dict_as_dict_roundtrip_witness :
  exists dct x' pdos_list,
    @CompletePhononDos.as_dict sample_services sample_complete_dos = Ok dct
    /\ @CompletePhononDos.from_dict sample_services dct = Ok x'
    /\ CompletePhononDos.base x' = CompletePhononDos.base sample_complete_dos
    /\ CompletePhononDos.structure x' = CompletePhononDos.structure sample_complete_dos
    /\ (forall site, Py.dict_get Site_eqb (CompletePhononDos.pdos x') site
                     = Py.dict_get Site_eqb (CompletePhononDos.pdos sample_complete_dos) site)
    /\ Py.dict_get String.eqb dct "pdos"%string
       = Some (@PyListOfLists sample_services pdos_list)
    /\ Forall2 (fun site dens =>
                  Py.dict_get Site_eqb (CompletePhononDos.pdos sample_complete_dos) site
                  = Some dens)
               (sites (CompletePhononDos.structure sample_complete_dos)) pdos_list
    /\ CompletePhononDos.pdos x'
       = Py.dict_of_pairs Site_eqb
           (combine (sites (CompletePhononDos.structure sample_complete_dos)) pdos_list).
Proof.
  destruct (proj2 (@from_dict_as_dict_roundtrip sample_services) sample_complete_dos
              eq_refl sample_complete_dos_one_entry_per_site)
    as (dct & x' & pdos_list & H1 & H2 & H3 & H4 & H5 & H6 & H7 & H8).
  exists dct, x', pdos_list.
  repeat (split; [assumption|]).
  split; [|assumption].
  apply H7. discriminate.
Defined.

Lemma ising_energy_sums_ordered_pairs_witness :
  @IsingModel.get_energy sample_services sample_power sample_ising sample_structure =
  Ok (Py.sum (map (@pair_term sample_power 1)
                  (ordered_pairs (sites sample_structure)
                     (@get_all_neighbors sample_services sample_structure 3%float)))).
Proof.
  apply (@ising_energy_sums_ordered_pairs sample_services sample_power sample_ising sample_structure).
  reflexivity.
Defined.

(** Two sites that are each other's only neighbour: the pair is in the sum
    once from each end, [5 * (-5) / 2^2] twice. *)
Example ising_counts_both_directions :
  @IsingModel.get_energy sample_services sample_power sample_ising iron_pair = Ok (-12.5)%float.
Proof. reflexivity. Qed.

Lemma checked_filter_converts_radius : @filter_converts_radius checked_filter_externals.
Proof.
  intros input sd e He. cbn [gaussian_filter1d checked_filter_externals].
  rewrite He. reflexivity.
Qed.

Lemma smeared_densities_needs_two_points_witness :
  @PhononDos.get_smeared_densities checked_filter_externals single_point_dos 0.5
  = Raise ZeroDivisionError
  /\ @call_get_smeared_densities checked_filter_externals sample_dos 0.5
     = (sample_dos, Ok (PhononDos.densities sample_dos))
  /\ @call_get_smeared_densities checked_filter_externals two_equal_dos 0.5
     = (two_equal_dos, Raise OverflowError).
Proof.
  split; [|split].
  - apply (proj1 (@smeared_densities_needs_two_points checked_filter_externals
                    single_point_dos 0.5%float)).
    simpl. lia.
  - destruct (proj1 (proj2 (@smeared_densities_needs_two_points checked_filter_externals
                              sample_dos 0.5%float))) as (_ & Hreturn & _).
    + simpl. lia.
    + apply Hreturn. reflexivity.
  - destruct (proj1 (proj2 (@smeared_densities_needs_two_points checked_filter_externals
                              two_equal_dos 0.5%float))) as (_ & _ & Hraise).
    + simpl. lia.
    + apply Hraise; [exact checked_filter_converts_radius | reflexivity].
Defined.

(** C9, as the claim states it, fails at two points of one frequency: the
    average spacing is 0, the standard deviation handed to the filter is
    [0.5 / 0], an infinity, and a filter that converts its radius as scipy
    does raises OverflowError where the claim has it return an array. *)
Lemma equal_frequencies_are_not_smeared :
  2 <= List.length (PhononDos.frequencies two_equal_dos)
  /\ average_spacing (PhononDos.frequencies two_equal_dos) = 0%float
  /\ (0.5 / average_spacing (PhononDos.frequencies two_equal_dos))%float = infinity
  /\ (forall E : Externals,
        @filter_converts_radius E ->
        @PhononDos.get_smeared_densities E two_equal_dos 0.5 = Raise OverflowError)
  /\ @filter_converts_radius checked_filter_externals
  /\ ~ (exists smeared,
          @PhononDos.get_smeared_densities checked_filter_externals two_equal_dos 0.5
          = Ok smeared).
Proof.
  split; [simpl; lia|]. split; [reflexivity|]. split; [reflexivity|]. split.
  { intros E Hfilter. unfold PhononDos.get_smeared_densities.
    cbn [PhononDos.frequencies PhononDos.densities two_equal_dos List.length Nat.sub seq map
         Nat.eqb Py.bind].
    apply Hfilter. reflexivity. }
  split; [exact checked_filter_converts_radius|].
  intros [smeared Hs]. vm_compute in Hs. discriminate Hs.
Qed.

Lemma complete_plus_is_plain_witness :
  dos_plus (IsCompletePhononDos sample_complete_dos) (IsCompletePhononDos sample_complete_dos)
  = Ok (IsPhononDos
          (PhononDos.make (PhononDos.frequencies sample_dos)
             (Np.map2 PrimFloat.add (PhononDos.densities sample_dos)
                                    (PhononDos.densities sample_dos))))
  /\ exists d,
       IsPhononDos (PhononDos.make (PhononDos.frequencies sample_dos)
                      (Np.map2 PrimFloat.add (PhononDos.densities sample_dos)
                                             (PhononDos.densities sample_dos)))
       = IsPhononDos d.
Proof.
  split.
  - apply (proj2 (complete_plus_is_plain sample_complete_dos sample_complete_dos));
      reflexivity.
  - apply (proj1 (complete_plus_is_plain sample_complete_dos sample_complete_dos)).
    reflexivity.
Defined.

(** * Further properties *)

(** ** energy_models.py: the dict form of the models *)

Lemma check_keywords_ok {V : Type} (params : list string) (kwargs : Py.dict string V) :
  EnergyModel.check_keywords params kwargs = Ok tt
  <-> forall k, In k (Py.dict_keys kwargs) -> In k params.
Proof.
  unfold EnergyModel.check_keywords.
  destruct (forallb (fun k => existsb (String.eqb k) params) (Py.dict_keys kwargs)) eqn:E.
  - split; [|reflexivity]. intros _ k Hk.
    rewrite forallb_forall in E. specialize (E k Hk).
    apply (existsb_eqb_In String.eqb String.eqb_eq) in E. exact E.
  - split; [discriminate|]. intros Hall. exfalso.
    assert (Htrue : forallb (fun k => existsb (String.eqb k) params)
                            (Py.dict_keys kwargs) = true).
    { apply forallb_forall. intros k Hk.
      apply (existsb_eqb_In String.eqb String.eqb_eq). apply Hall. exact Hk. }
    congruence.
Qed.

Lemma check_keywords_unexpected {V : Type} (params : list string)
    (kwargs : Py.dict string V) (k : string) :
  In k (Py.dict_keys kwargs) -> ~ In k params ->
  EnergyModel.check_keywords params kwargs = Raise TypeError.
Proof.
  intros Hk Hn. unfold EnergyModel.check_keywords.
  destruct (forallb (fun k => existsb (String.eqb k) params) (Py.dict_keys kwargs)) eqn:E;
    [|reflexivity].
  exfalso. apply Hn. rewrite forallb_forall in E.
  apply (existsb_eqb_In String.eqb String.eqb_eq). apply E. exact Hk.
Qed.

(** X1: each of the four energy models is rebuilt by [from_dict] from the
    dict its [as_dict] returns. *)
Theorem energy_model_from_dict_as_dict :
  (forall m, EnergyModel.from_dict EwaldElectrostaticModel.__init__
               (EwaldElectrostaticModel.as_dict m) = Ok m)
  /\ (forall m, EnergyModel.from_dict SymmetryModel.__init__
                  (SymmetryModel.as_dict m) = Ok m)
  /\ (forall m, EnergyModel.from_dict IsingModel_init (IsingModel_as_dict m) = Ok m)
  /\ (forall m, EnergyModel.from_dict NsitesModel_init (NsitesModel_as_dict m) = Ok m).
Proof.
  repeat split; intros m; destruct m; reflexivity.
Qed.

(** X2: [from_dict] raises KeyError for a dict without the key "init_args",
    whatever the class; with the key, a keyword that is no parameter of the
    class's constructor raises TypeError, so does a missing [j] or
    [max_radius] for IsingModel, and so does any keyword at all for
    NsitesModel. *)
Theorem energy_model_from_dict_errors :
  (forall (V M : Type) (cls : Py.dict string V -> result M) dct,
     Py.dict_get String.eqb dct "init_args"%string = None ->
     EnergyModel.from_dict cls dct = Raise KeyError)
  /\ (forall kwargs k,
        In k (Py.dict_keys kwargs) ->
        ~ In k ["real_space_cut"; "recip_space_cut"; "eta"; "acc_factor"]%string ->
        EwaldElectrostaticModel.__init__ kwargs = Raise TypeError)
  /\ (forall kwargs k,
        In k (Py.dict_keys kwargs) -> ~ In k ["symprec"; "angle_tolerance"]%string ->
        SymmetryModel.__init__ kwargs = Raise TypeError)
  /\ (forall kwargs k,
        In k (Py.dict_keys kwargs) -> ~ In k ["j"; "max_radius"]%string ->
        IsingModel_init kwargs = Raise TypeError)
  /\ (forall kwargs,
        Py.dict_get String.eqb kwargs "j"%string = None
        \/ Py.dict_get String.eqb kwargs "max_radius"%string = None ->
        IsingModel_init kwargs = Raise TypeError)
  /\ (forall kwargs, kwargs <> [] -> NsitesModel_init kwargs = Raise TypeError).
Proof.
  split; [|split; [|split; [|split; [|split]]]].
  - intros V M cls dct Hnone. unfold EnergyModel.from_dict, Py.dict_getitem.
    rewrite Hnone. reflexivity.
  - intros kwargs k Hk Hn. unfold EwaldElectrostaticModel.__init__.
    rewrite (check_keywords_unexpected _ kwargs k Hk Hn). reflexivity.
  - intros kwargs k Hk Hn. unfold SymmetryModel.__init__.
    rewrite (check_keywords_unexpected _ kwargs k Hk Hn). reflexivity.
  - intros kwargs k Hk Hn. unfold IsingModel_init.
    rewrite (check_keywords_unexpected _ kwargs k Hk Hn). reflexivity.
  - intros kwargs Hmiss. unfold IsingModel_init, EnergyModel.required.
    destruct (EnergyModel.check_keywords ["j"; "max_radius"]%string kwargs) as [[]|e] eqn:Hck.
    + cbn [Py.bind]. destruct Hmiss as [Hj|Hr].
      * rewrite Hj. reflexivity.
      * rewrite Hr. destruct (Py.dict_get String.eqb kwargs "j"%string); reflexivity.
    + unfold EnergyModel.check_keywords in Hck.
      destruct (forallb _ _); [discriminate|]. injection Hck as <-. reflexivity.
  - intros [|[k v] kwargs] Hne; [congruence|]. reflexivity.
Qed.

(** X3: the constructors with defaults accept exactly the dicts whose keys
    are among their parameters, and the model they build answers, under each
    parameter name, the value that was passed or else the default:
    [None, None, None, 8.0] for the Ewald model and [0.1, 5] for
    SymmetryModel. *)
Theorem energy_model_defaults :
  (forall kwargs,
     (forall k, In k (Py.dict_keys kwargs) ->
                In k ["real_space_cut"; "recip_space_cut"; "eta"; "acc_factor"]%string) ->
     exists m,
       EwaldElectrostaticModel.__init__ kwargs = Ok m
       /\ forall name default,
            In (name, default)
               [ ("real_space_cut", None); ("recip_space_cut", None); ("eta", None);
                 ("acc_factor", Some 8.0%float) ]%string ->
            Py.dict_get String.eqb (EwaldElectrostaticModel.init_args m) name
            = Some (match Py.dict_get String.eqb kwargs name with
                    | Some v => v
                    | None => default
                    end))
  /\ (forall kwargs,
        (forall k, In k (Py.dict_keys kwargs) -> In k ["symprec"; "angle_tolerance"]%string) ->
        exists m,
          SymmetryModel.__init__ kwargs = Ok m
          /\ forall name default,
               In (name, default) [ ("symprec", 0.1%float); ("angle_tolerance", 5%float) ]%string ->
               Py.dict_get String.eqb (SymmetryModel.init_args m) name
               = Some (match Py.dict_get String.eqb kwargs name with
                       | Some v => v
                       | None => default
                       end))
  /\ EwaldElectrostaticModel.__init__ []
     = Ok (EwaldElectrostaticModel.make None None None (Some 8.0%float))
  /\ SymmetryModel.__init__ [] = Ok (SymmetryModel.make 0.1%float 5%float).
Proof.
  split; [|split; [|split; reflexivity]].
  - intros kwargs Hkeys. eexists. split.
    + unfold EwaldElectrostaticModel.__init__.
      rewrite (proj2 (check_keywords_ok _ kwargs) Hkeys). reflexivity.
    + intros name default Hin. simpl in Hin.
      destruct Hin as [E|[E|[E|[E|[]]]]]; injection E as <- <-; reflexivity.
  - intros kwargs Hkeys. eexists. split.
    + unfold SymmetryModel.__init__.
      rewrite (proj2 (check_keywords_ok _ kwargs) Hkeys). reflexivity.
    + intros name default Hin. simpl in Hin.
      destruct Hin as [E|[E|[]]]; injection E as <- <-; reflexivity.
Qed.

(** ** IsingModel.get_energy: the bounds of the enumeration, and no spin *)

Section IsingBounds.
Context `{StructureServices} `{ScalarPower}.

Lemma get_energy_loop_raised (self : IsingModel.t) (structure : Structure)
    (items : list (nat * list PeriodicNeighbor)) (e : exn) :
  fold_left
    (fun acc item =>
       energy <- acc ;;
       site <- Structure_getitem structure (fst item) ;;
       let s1 := IsingModel.getattr_spin (specie site) in
       Ok (fold_left (fun energy nn => (energy + IsingModel.pair_energy self s1 nn)%float)
                     (snd item) energy))
    items (Raise e)
  = Raise e.
Proof. induction items as [|item items IH]; [reflexivity | exact IH]. Qed.

Lemma get_energy_loop_overrun (self : IsingModel.t) (structure : Structure)
    (all_nn : list (list PeriodicNeighbor)) :
  forall (k : nat) (origins : list Site) (e : float),
    List.length origins < List.length all_nn ->
    (forall i, nth_error (sites structure) (k + i) = nth_error origins i) ->
    fold_left
      (fun acc item =>
         energy <- acc ;;
         site <- Structure_getitem structure (fst item) ;;
         let s1 := IsingModel.getattr_spin (specie site) in
         Ok (fold_left (fun energy nn => (energy + IsingModel.pair_energy self s1 nn)%float)
                       (snd item) energy))
      (combine (seq k (List.length all_nn)) all_nn) (Ok e)
    = Raise IndexError.
Proof.
  induction all_nn as [|nns rest IH]; intros k origins e Hlen Hnth.
  - simpl in Hlen. lia.
  - pose proof (Hnth 0) as Hfirst. rewrite Nat.add_0_r in Hfirst.
    cbn [List.length seq combine fold_left fst snd Py.bind].
    destruct origins as [|o origins].
    + assert (Hk : Structure_getitem structure k = Raise IndexError).
      { unfold Structure_getitem. rewrite Hfirst. reflexivity. }
      rewrite Hk. cbn [Py.bind]. apply get_energy_loop_raised.
    + assert (Hk : Structure_getitem structure k = Ok o).
      { unfold Structure_getitem. rewrite Hfirst. reflexivity. }
      rewrite Hk. cbn [Py.bind]. apply (IH (S k) origins).
      * simpl in Hlen. lia.
      * intros i. specialize (Hnth (S i)). rewrite Nat.add_succ_r in Hnth. exact Hnth.
Qed.

(** X4: [get_energy] indexes the structure by the position of each
    neighbour list.  When the enumeration has more lists than the structure
    has sites it raises IndexError; when it has no more lists than sites it
    returns the sum over the listed pairs, the sites beyond the enumeration
    adding nothing. *)
Theorem ising_energy_enumeration_bounds (self : IsingModel.t) (structure : Structure) :
  (List.length (sites structure)
     < List.length (get_all_neighbors structure (IsingModel.max_radius self)) ->
   IsingModel.get_energy self structure = Raise IndexError)
  /\ (List.length (get_all_neighbors structure (IsingModel.max_radius self))
        <= List.length (sites structure) ->
      IsingModel.get_energy self structure =
      Ok (Py.sum (map (pair_term (IsingModel.j self))
                      (ordered_pairs (sites structure)
                         (get_all_neighbors structure (IsingModel.max_radius self)))))).
Proof.
  split; intros Hlen; unfold IsingModel.get_energy, Py.enumerate, Py.sum.
  - apply get_energy_loop_overrun with (origins := sites structure);
      [exact Hlen | intros i; reflexivity].
  - apply get_energy_loop; [exact Hlen | intros i _; reflexivity].
Qed.

End IsingBounds.

(** *** binary64: products and quotients of zero *)

Lemma finite_float_spec (x : float) :
  finite_float x ->
  (exists s, Prim2SF x = S754_zero s) \/ (exists s m e, Prim2SF x = S754_finite s m e).
Proof.
  unfold finite_float. rewrite FloatAxioms.ltb_spec, FloatAxioms.abs_spec.
  replace (Prim2SF infinity) with (S754_infinity false) by reflexivity.
  destruct (Prim2SF x) as [s|s| |s m e]; simpl; intros Hx; try discriminate; eauto.
Qed.

Lemma mul_zero_r (x z : float) :
  finite_float x -> is_zero_float z -> is_zero_float (x * z).
Proof.
  intros Hx [s Hz]. unfold is_zero_float.
  rewrite FloatAxioms.mul_spec, Hz. unfold SF64mul, SFmul.
  destruct (finite_float_spec Hx) as [[s' ->]|(s' & m & e & ->)]; eauto.
Qed.

Lemma mul_zero_l (z x : float) :
  is_zero_float z -> finite_float x -> is_zero_float (z * x).
Proof.
  intros [s Hz] Hx. unfold is_zero_float.
  rewrite FloatAxioms.mul_spec, Hz. unfold SF64mul, SFmul.
  destruct (finite_float_spec Hx) as [[s' ->]|(s' & m & e & ->)]; eauto.
Qed.

Lemma div_zero_pos (z p : float) :
  is_zero_float z -> (0 <? p)%float = true -> is_zero_float (z / p).
Proof.
  intros [s Hz] Hp. unfold is_zero_float.
  rewrite FloatAxioms.div_spec, Hz.
  rewrite FloatAxioms.ltb_spec, Prim2SF_zero in Hp. unfold SFltb, SFcompare in Hp.
  unfold SF64div, SFdiv.
  destruct (Prim2SF p) as [[]|[]| |[] mp ep]; try discriminate; eauto.
Qed.

Lemma add_zero_zero (z : float) : is_zero_float z -> (0 + z)%float = 0%float.
Proof.
  intros [s Hz]. apply Prim2SF_inj.
  rewrite FloatAxioms.add_spec, Hz, Prim2SF_zero. destruct s; reflexivity.
Qed.

Lemma zero_is_zero : is_zero_float 0.
Proof. exists false. reflexivity. Qed.

Lemma zero_finite : finite_float 0.
Proof. reflexivity. Qed.

Lemma sum_of_zeros (l : list float) :
  Forall is_zero_float l -> Py.sum l = 0%float.
Proof.
  unfold Py.sum. induction l as [|z l IH]; intros Hl; [reflexivity|].
  inversion Hl as [|? ? Hz Hl']; subst. cbn [fold_left].
  rewrite (add_zero_zero Hz). apply IH. exact Hl'.
Qed.

Section IsingNoSpin.
Context `{StructureServices} `{ScalarPower}.

(** X5: for a finite coupling [j], a structure none of whose listed pairs
    has a spin on either end, each at a distance whose square
    [nn_distance ** 2] is positive,
    has the energy 0 exactly; so has a structure no site of which has a
    neighbour within the radius. *)
Theorem ising_energy_without_spin (self : IsingModel.t) (structure : Structure) :
  List.length (get_all_neighbors structure (IsingModel.max_radius self))
    <= List.length (sites structure) ->
  (finite_float (IsingModel.j self) ->
   Forall (fun p => spin (specie (fst p)) = None
                    /\ spin (specie (nn_site (snd p))) = None
                    /\ (0 <? float_pow (nn_distance (snd p)) 2)%float = true)
          (ordered_pairs (sites structure)
             (get_all_neighbors structure (IsingModel.max_radius self))) ->
   IsingModel.get_energy self structure = Ok 0%float)
  /\ (Forall (fun nns => nns = [])
             (get_all_neighbors structure (IsingModel.max_radius self)) ->
      IsingModel.get_energy self structure = Ok 0%float).
Proof.
  intros Hlen.
  assert (Hsum : IsingModel.get_energy self structure =
                 Ok (Py.sum (map (pair_term (IsingModel.j self))
                                 (ordered_pairs (sites structure)
                                    (get_all_neighbors structure (IsingModel.max_radius self)))))).
  { unfold IsingModel.get_energy, Py.enumerate, Py.sum.
    apply get_energy_loop; [exact Hlen | intros i _; reflexivity]. }
  rewrite Hsum. split.
  - intros Hj Hpairs. f_equal. apply sum_of_zeros.
    apply Forall_map. eapply Forall_impl; [|exact Hpairs].
    intros [site nn] (Hs1 & Hs2 & Hd). cbn [fst snd] in *.
    unfold pair_term, IsingModel.getattr_spin. cbn [fst snd]. rewrite Hs1, Hs2.
    apply div_zero_pos; [|exact Hd].
    apply mul_zero_l; [|exact zero_finite].
    apply mul_zero_r; [exact Hj | exact zero_is_zero].
  - intros Hempty. f_equal.
    assert (Hnil : ordered_pairs (sites structure)
                     (get_all_neighbors structure (IsingModel.max_radius self)) = []).
    { unfold ordered_pairs. clear Hsum Hlen.
      revert Hempty. generalize (get_all_neighbors structure (IsingModel.max_radius self)).
      induction (sites structure) as [|o os IH]; intros [|nns rest] Hempty; try reflexivity.
      inversion Hempty as [|? ? Hn Hr]; subst. simpl. apply IH. exact Hr. }
    rewrite Hnil. reflexivity.
Qed.

End IsingNoSpin.

(** ** dos.py: [__repr__], the site and element projections, the dict form *)

Lemma nonneg_mono (x y : float) :
  (x <=? y)%float = true -> nonneg x = true -> nonneg y = true.
Proof.
  unfold nonneg. rewrite !leb_zero_spec, FloatAxioms.leb_spec. unfold SFleb, SFcompare.
  destruct (Prim2SF x) as [[]|[]| |[] mx ex], (Prim2SF y) as [[]|[]| |[] my ey];
    try discriminate; try reflexivity.
Qed.

Lemma ascending_skipn (l : Np.ndarray) (i : nat) : ascending l -> ascending (skipn i l).
Proof.
  unfold ascending. revert i. induction l as [|x l IH]; intros [|i] Hasc; try assumption.
  cbn [skipn]. apply IH. cbn [ascendingb] in Hasc.
  apply andb_prop in Hasc. tauto.
Qed.

Lemma nth_skipn (l : Np.ndarray) (i k : nat) : nth k (skipn i l) nan = nth (i + k) l nan.
Proof.
  revert i. induction l as [|x l IH]; intros [|i]; try reflexivity.
  - destruct k; reflexivity.
  - cbn [skipn]. rewrite IH. reflexivity.
Qed.

(** X6: [repr] of a PhononDos or CompletePhononDos whose frequencies are all
    negative raises the "No positive frequencies found" error; on an
    ascending axis whose first non-negative frequency is at index [i] it
    names the class, the two shapes and the number [len - i] of positive
    frequencies. *)
Theorem repr_counts_positive_frequencies (o : DosObject) :
  (Forall (fun f => negative f = true) (PhononDos.frequencies (inherited o)) ->
   dos_repr o = Raise NoPositiveFrequencies)
  /\ (ascending (PhononDos.frequencies (inherited o)) ->
      forall i, is_first_index nonneg (PhononDos.frequencies (inherited o)) i ->
        dos_repr o =
        Ok (class_name o
            ++ "(frequencies=" ++ shape_repr (PhononDos.frequencies (inherited o))
            ++ ", densities=" ++ shape_repr (PhononDos.densities (inherited o))
            ++ ", n_positive_freqs="
            ++ py_str_of_nat (List.length (PhononDos.frequencies (inherited o)) - i)
            ++ ")")%string).
Proof.
  split.
  - intros Hneg. unfold dos_repr, PhononDos._positive_frequencies.
    rewrite (ind_zero_freq_all_negative _ Hneg). reflexivity.
  - intros Hasc i Hi. apply is_first_index_computed in Hi.
    destruct (positive_range_ascending _ Hasc Hi) as (_ & Hf & _).
    unfold dos_repr. rewrite Hf. cbn [Py.bind]. rewrite length_skipn. reflexivity.
Qed.

(** X7: a CompletePhononDos built from a dict [{site: densities}] answers
    [get_site_dos(site)] with the total frequency axis and the densities
    stored for the site, and raises KeyError for a site that is no key of
    the dict. *)
Theorem get_site_dos_of_init
    (structure : Structure) (total_dos : PhononDos.t)
    (pdoses : Py.dict Site Np.ndarray) (site : Site) :
  dict_ok pdoses ->
  CompletePhononDos.get_site_dos
    (CompletePhononDos.__init__ structure total_dos pdoses) site
  = match Py.dict_get Site_eqb pdoses site with
    | Some dens => Ok (PhononDos.make (PhononDos.frequencies total_dos) dens)
    | None => Raise KeyError
    end.
Proof.
  intros Hok. unfold CompletePhononDos.get_site_dos, CompletePhononDos.__init__.
  cbn [CompletePhononDos.pdos CompletePhononDos.base PhononDos.frequencies].
  rewrite items_identity, (dict_of_pairs_dict Site_eqb Site_eqb_eq pdoses Hok).
  unfold Py.dict_getitem. destruct (Py.dict_get Site_eqb pdoses site); reflexivity.
Qed.

Lemma Np_iadd_same_length (a b : Np.ndarray) :
  List.length a = List.length b -> Np_iadd a b = Ok (Np.map2 PrimFloat.add a b).
Proof. intros Hlen. unfold Np_iadd. rewrite Hlen, Nat.eqb_refl. reflexivity. Qed.

Lemma length_map2 {A B C : Type} (f : A -> B -> C) (a : list A) (b : list B) :
  List.length a = List.length b -> List.length (Np.map2 f a b) = List.length a.
Proof.
  intros Hlen. unfold Np.map2. rewrite length_map, length_combine, Hlen. apply Nat.min_id.
Qed.

Lemma dict_get_In_value {K V : Type} (K_eqb : K -> K -> bool) (d : Py.dict K V) (k : K) (v : V) :
  Py.dict_get K_eqb d k = Some v -> exists k', In (k', v) d.
Proof.
  induction d as [|[k0 v0] d IH]; simpl; [discriminate|].
  destruct (K_eqb k0 k).
  - intros E. injection E as <-. eauto.
  - intros E. destruct (IH E) as [k' Hk']. eauto.
Qed.

Lemma dict_get_Some_In {K V : Type} (K_eqb : K -> K -> bool)
    (K_eqb_eq : forall a b, K_eqb a b = true <-> a = b)
    (d : Py.dict K V) (k : K) (v : V) :
  Py.dict_get K_eqb d k = Some v -> In k (Py.dict_keys d).
Proof.
  induction d as [|[k0 v0] d IH]; simpl; [discriminate|].
  destruct (K_eqb k0 k) eqn:E.
  - intros _. left. apply K_eqb_eq. exact E.
  - intros Hv. right. apply IH. exact Hv.
Qed.

Lemma dict_set_values {K V : Type} (K_eqb : K -> K -> bool) (P : V -> Prop)
    (d : Py.dict K V) (k : K) (v : V) :
  Forall (fun entry => P (snd entry)) d -> P v ->
  Forall (fun entry => P (snd entry)) (Py.dict_set K_eqb d k v).
Proof.
  intros Hd Hv. induction d as [|[k0 v0] d IH]; simpl.
  - constructor; [exact Hv | constructor].
  - inversion Hd as [|? ? H0 Hd']; subst.
    destruct (K_eqb k0 k); constructor; auto.
Qed.

(** The loop of [get_element_dos] over arrays of one length [n]. *)
Lemma element_dos_loop (n : nat) (items : Py.dict Site Np.ndarray) :
  Forall (fun item => List.length (snd item) = n) items ->
  forall acc : Py.dict Species Np.ndarray,
    NoDup (Py.dict_keys acc) ->
    Forall (fun entry => List.length (snd entry) = n) acc ->
    exists final,
      fold_left
        (fun acc item =>
           el_dos <- acc ;;
           let el := specie (fst item) in
           match Py.dict_get Species_eqb el_dos el with
           | None => Ok (Py.dict_set Species_eqb el_dos el (snd item))
           | Some current =>
               summed <- Np_iadd current (snd item) ;;
               Ok (Py.dict_set Species_eqb el_dos el summed)
           end)
        items (Ok acc) = Ok final
      /\ NoDup (Py.dict_keys final)
      /\ forall el, Py.dict_get Species_eqb final el
                    = accumulate (Py.dict_get Species_eqb acc el)
                                 (densities_of_element el items).
Proof.
  intros Hitems. induction Hitems as [|[site d] items Hd Hitems IH]; intros acc Hnd Hacc.
  - exists acc. repeat split; auto.
  - cbn [fold_left fst snd Py.bind] in *.
    destruct (Py.dict_get Species_eqb acc (specie site)) as [current|] eqn:Hcur.
    + destruct (dict_get_In_value _ _ _ Hcur) as [k' Hin].
      assert (Hlen : List.length current = List.length d).
      { rewrite Forall_forall in Hacc. pose proof (Hacc _ Hin) as Hc.
        cbn [snd] in Hc, Hd. congruence. }
      rewrite (Np_iadd_same_length _ _ Hlen). cbn [Py.bind].
      destruct (IH (Py.dict_set Species_eqb acc (specie site)
                      (Np.map2 PrimFloat.add current d))) as (final & Hfold & Hnd' & Hget).
      * apply (dict_set_NoDup Species_eqb Species_eqb_eq). exact Hnd.
      * apply (@dict_set_values _ _ Species_eqb (fun v => List.length v = n));
          [exact Hacc|]. cbn [snd] in Hd. rewrite length_map2; congruence.
      * exists final. split; [exact Hfold|]. split; [exact Hnd'|].
        intros el. rewrite Hget, (dict_get_set Species_eqb Species_eqb_eq).
        unfold densities_of_element. cbn [filter fst snd].
        destruct (Species_eqb (specie site) el) eqn:E; [|reflexivity].
        apply Species_eqb_eq in E. subst el. rewrite Hcur. reflexivity.
    + destruct (IH (Py.dict_set Species_eqb acc (specie site) d))
        as (final & Hfold & Hnd' & Hget).
      * apply (dict_set_NoDup Species_eqb Species_eqb_eq). exact Hnd.
      * apply (@dict_set_values _ _ Species_eqb (fun v => List.length v = n));
          [exact Hacc | exact Hd].
      * exists final. split; [exact Hfold|]. split; [exact Hnd'|].
        intros el. rewrite Hget, (dict_get_set Species_eqb Species_eqb_eq).
        unfold densities_of_element. cbn [filter fst snd].
        destruct (Species_eqb (specie site) el) eqn:E; [|reflexivity].
        apply Species_eqb_eq in E. subst el. rewrite Hcur. reflexivity.
Qed.

Lemma dict_get_map_values {K V W : Type} (K_eqb : K -> K -> bool) (g : V -> W)
    (d : Py.dict K V) (k : K) :
  Py.dict_get K_eqb (map (fun entry => (fst entry, g (snd entry))) d) k
  = option_map g (Py.dict_get K_eqb d k).
Proof.
  induction d as [|[k0 v0] d IH]; simpl; [reflexivity|].
  destruct (K_eqb k0 k); [reflexivity | exact IH].
Qed.

Lemma dict_keys_map_values {K V W : Type} (g : V -> W) (d : Py.dict K V) :
  Py.dict_keys (map (fun entry => (fst entry, g (snd entry))) d) = Py.dict_keys d.
Proof.
  unfold Py.dict_keys. rewrite map_map. reflexivity.
Qed.

Lemma accumulate_Some (ds : list Np.ndarray) :
  forall v, exists w, accumulate (Some v) ds = Some w.
Proof.
  induction ds as [|d ds IH]; intros v; [exists v; reflexivity|].
  unfold accumulate. cbn [fold_left]. apply IH.
Qed.

Lemma accumulate_None_iff (ds : list Np.ndarray) :
  accumulate None ds = None <-> ds = [].
Proof.
  destruct ds as [|d ds]; [split; reflexivity|]. split; [|discriminate].
  unfold accumulate. cbn [fold_left]. intros Hn.
  destruct (accumulate_Some ds d) as [w Hw].
  assert (Hc : Some w = None) by (rewrite <- Hw; exact Hn). discriminate.
Qed.

(** X8: when all per-site density arrays have one length,
    [get_element_dos] returns a dict with one entry per species that occurs
    among the sites of [pdos] and no other, no species twice, and every
    entry has the frequency axis of the total DOS. *)
Theorem get_element_dos_keys (x : CompletePhononDos.t) (n : nat) :
  Forall (fun item => List.length (snd item) = n) (CompletePhononDos.pdos x) ->
  exists el_dos,
    get_element_dos x = Ok el_dos
    /\ NoDup (Py.dict_keys el_dos)
    /\ (forall el, In el (Py.dict_keys el_dos)
                   <-> exists site, In site (Py.dict_keys (CompletePhononDos.pdos x))
                                    /\ specie site = el)
    /\ Forall (fun entry => PhononDos.frequencies (snd entry)
                            = PhononDos.frequencies (CompletePhononDos.base x)) el_dos.
Proof.
  intros Hlen.
  destruct (element_dos_loop Hlen (acc := []) (NoDup_nil _) (Forall_nil _))
    as (final & Hfold & Hnd & Hget).
  eexists. split.
  { unfold get_element_dos.
    match goal with
    | |- Py.bind ?m _ = _ => replace m with (Ok final) by (symmetry; exact Hfold)
    end.
    reflexivity. }
  rewrite dict_keys_map_values. split; [exact Hnd|]. split.
  - intros el. split.
    + intros Hin.
      destruct (dict_get_In Species_eqb Species_eqb_eq final el Hin) as [v Hv].
      rewrite Hget in Hv. cbn [Py.dict_get] in Hv.
      destruct (densities_of_element el (CompletePhononDos.pdos x)) as [|d ds] eqn:Hds.
      { discriminate. }
      unfold densities_of_element in Hds.
      assert (Hex : exists item, In item (filter (fun item => Species_eqb (specie (fst item)) el)
                                                 (CompletePhononDos.pdos x))).
      { destruct (filter _ _) as [|item rest]; [discriminate | exists item; left; reflexivity]. }
      destruct Hex as [[site d0] Hitem]. apply filter_In in Hitem. destruct Hitem as [Hin' E].
      exists site. split.
      * unfold Py.dict_keys. apply in_map_iff. exists (site, d0). auto.
      * apply Species_eqb_eq. exact E.
    + intros (site & Hsite & <-).
      destruct (Py.dict_get Species_eqb final (specie site)) as [v|] eqn:Hv.
      * apply (dict_get_Some_In Species_eqb Species_eqb_eq final _ Hv).
      * exfalso. rewrite Hget in Hv. cbn [Py.dict_get] in Hv.
        apply accumulate_None_iff in Hv.
        unfold Py.dict_keys in Hsite. apply in_map_iff in Hsite.
        destruct Hsite as ([site' d0] & Heq & Hin). cbn [fst] in Heq. subst site'.
        assert (Hf : In (site, d0) (filter (fun item => Species_eqb (specie (fst item)) (specie site))
                                           (CompletePhononDos.pdos x))).
        { apply filter_In. split; [exact Hin|]. apply Species_eqb_eq. reflexivity. }
        unfold densities_of_element in Hv.
        destruct (filter _ _); [contradiction | discriminate].
  - apply Forall_forall. intros entry Hin. apply in_map_iff in Hin.
    destruct Hin as (e0 & <- & _). reflexivity.
Qed.

(** X9: under the same condition, the densities [get_element_dos] returns
    for a species are the density arrays of its sites added elementwise, one
    after the other in the order of [pdos], starting from the first. *)
Theorem get_element_dos_sums_sites (x : CompletePhononDos.t) (n : nat) :
  Forall (fun item => List.length (snd item) = n) (CompletePhononDos.pdos x) ->
  exists el_dos,
    get_element_dos x = Ok el_dos
    /\ forall el,
         Py.dict_get Species_eqb el_dos el
         = match densities_of_element el (CompletePhononDos.pdos x) with
           | [] => None
           | first :: others =>
               Some (PhononDos.make (PhononDos.frequencies (CompletePhononDos.base x))
                       (fold_left (Np.map2 PrimFloat.add) others first))
           end.
Proof.
  intros Hlen.
  destruct (element_dos_loop Hlen (acc := []) (NoDup_nil _) (Forall_nil _))
    as (final & Hfold & Hnd & Hget).
  eexists. split.
  { unfold get_element_dos.
    match goal with
    | |- Py.bind ?m _ = _ => replace m with (Ok final) by (symmetry; exact Hfold)
    end.
    reflexivity. }
  intros el. rewrite dict_get_map_values, Hget. cbn [Py.dict_get].
  destruct (densities_of_element el (CompletePhononDos.pdos x)) as [|first others];
    [reflexivity|].
  unfold accumulate. cbn [fold_left].
  generalize first. induction others as [|d others IH]; intros c; cbn [fold_left];
    [reflexivity | apply IH].
Qed.

(** X10: on an ascending axis with a value [>= 0], the positive
    frequencies are a non-empty ascending array of numbers that are all
    [>= 0], and when there is one density per frequency there are as many
    positive densities as positive frequencies. *)
Theorem positive_frequencies_are_nonneg (d : PhononDos.t) :
  ascending (PhononDos.frequencies d) ->
  Exists (fun f => nonneg f = true) (PhononDos.frequencies d) ->
  exists freqs dens,
    PhononDos._positive_frequencies d = Ok freqs
    /\ PhononDos._positive_densities d = Ok dens
    /\ freqs <> []
    /\ Forall (fun f => nonneg f = true) freqs
    /\ ascending freqs
    /\ (well_formed d -> List.length dens = List.length freqs).
Proof.
  intros Hasc Hex.
  destruct (exists_nonneg_first_index Hex) as [i Hi].
  destruct (positive_range_ascending d Hasc Hi) as (_ & Hf & Hd).
  apply first_index_Some in Hi. destruct Hi as (Hlt & Hat & _).
  exists (skipn i (PhononDos.frequencies d)), (skipn i (PhononDos.densities d)).
  split; [exact Hf|]. split; [exact Hd|]. split; [|split; [|split]].
  - intros Hnil. apply (f_equal (@List.length float)) in Hnil.
    rewrite length_skipn in Hnil. simpl in Hnil. lia.
  - apply Forall_forall. intros x Hx.
    destruct (In_nth _ _ nan Hx) as (k & Hk & <-).
    rewrite length_skipn in Hk. rewrite nth_skipn.
    apply nonneg_mono with (x := nth i (PhononDos.frequencies d) nan); [|exact Hat].
    apply ascending_nth; [exact Hasc | lia | lia].
  - apply ascending_skipn. exact Hasc.
  - intros Hwf. rewrite !length_skipn. unfold well_formed in Hwf. lia.
Qed.

Section DictForm.
Context `{StructureServices}.

Lemma pdos_in_site_order_missing (pdos : Py.dict Site Np.ndarray) (ats : list Site) :
  (exists site, In site ats /\ Py.dict_get Site_eqb pdos site = None) ->
  CompletePhononDos.pdos_in_site_order pdos ats = Raise KeyError.
Proof.
  induction ats as [|a ats IH]; intros (site & Hin & Hnone); [contradiction|].
  cbn [CompletePhononDos.pdos_in_site_order]. unfold Py.dict_getitem.
  destruct (Py.dict_get Site_eqb pdos a) as [dens|] eqn:Ha; [|reflexivity].
  cbn [Py.bind]. rewrite IH; [reflexivity|].
  destruct Hin as [->|Hin]; [congruence|]. eauto.
Qed.

(** X11: [PhononDos.from_dict] reads the keys "frequencies" and "densities"
    and nothing else: it raises KeyError when either is missing, and with
    both holding lists it returns the PhononDos of the two lists whatever
    other keys the dict has.  [CompletePhononDos.from_dict] needs, beyond
    these, the key "structure" and, after the structure is rebuilt, the key
    "pdos", and raises KeyError when one is missing. *)
Theorem from_dict_reads_its_keys (dct : msondict) :
  (Py.dict_get String.eqb dct "frequencies"%string = None
   \/ Py.dict_get String.eqb dct "densities"%string = None ->
   PhononDos.from_dict dct = Raise KeyError
   /\ CompletePhononDos.from_dict dct = Raise KeyError)
  /\ (forall f g,
        Py.dict_get String.eqb dct "frequencies"%string = Some (PyList f) ->
        Py.dict_get String.eqb dct "densities"%string = Some (PyList g) ->
        PhononDos.from_dict dct = Ok (PhononDos.make f g)
        /\ (Py.dict_get String.eqb dct "structure"%string = None ->
            CompletePhononDos.from_dict dct = Raise KeyError)
        /\ (forall sd,
              Py.dict_get String.eqb dct "structure"%string = Some (PyStructureDict sd) ->
              Py.dict_get String.eqb dct "pdos"%string = None ->
              CompletePhononDos.from_dict dct = Raise KeyError)).
Proof.
  split.
  - intros Hmiss.
    assert (Hp : PhononDos.from_dict dct = Raise KeyError).
    { unfold PhononDos.from_dict, Py.dict_getitem. destruct Hmiss as [Hf|Hg].
      - rewrite Hf. reflexivity.
      - rewrite Hg. destruct (Py.dict_get String.eqb dct "frequencies"%string); reflexivity. }
    split; [exact Hp|]. unfold CompletePhononDos.from_dict. rewrite Hp. reflexivity.
  - intros f g Hf Hg.
    assert (Hp : PhononDos.from_dict dct = Ok (PhononDos.make f g)).
    { unfold PhononDos.from_dict, Py.dict_getitem. rewrite Hf, Hg. reflexivity. }
    split; [exact Hp|].
    unfold CompletePhononDos.from_dict. rewrite Hp. cbn [Py.bind].
    unfold Py.dict_getitem. split.
    + intros Hs. rewrite Hs. reflexivity.
    + intros sd Hs Hpd. rewrite Hs, Hpd. reflexivity.
Qed.

(** X12: [CompletePhononDos.as_dict] with an empty [pdos] succeeds for any
    structure and writes an empty "pdos" list; with a non-empty [pdos] that
    lacks an entry for some site of the structure it raises KeyError. *)
Theorem complete_as_dict_missing_site (x : CompletePhononDos.t) :
  (CompletePhononDos.pdos x = [] ->
   exists dct,
     CompletePhononDos.as_dict x = Ok dct
     /\ Py.dict_get String.eqb dct "pdos"%string = Some (PyListOfLists []))
  /\ (CompletePhononDos.pdos x <> [] ->
      (exists site, In site (sites (CompletePhononDos.structure x))
                    /\ Py.dict_get Site_eqb (CompletePhononDos.pdos x) site = None) ->
      CompletePhononDos.as_dict x = Raise KeyError).
Proof.
  split.
  - intros Hnil. unfold CompletePhononDos.as_dict. rewrite Hnil.
    eexists. split; reflexivity.
  - intros Hne Hmiss. unfold CompletePhononDos.as_dict.
    destruct (CompletePhononDos.pdos x) as [|p pd] eqn:Hpd; [congruence|].
    cbn [List.length Nat.ltb Nat.leb].
    rewrite (pdos_in_site_order_missing _ _ Hmiss). reflexivity.
Qed.

End DictForm.

(** X13: [+] keeps the invariant of the data model.  For two PhononDos with
    one density per frequency and elementwise equal axes the sum has one
    density per frequency and the axis of the left operand, so a third
    PhononDos compatible with the first can be added to it, and the result
    holds the densities added from left to right. *)
Theorem add_keeps_well_formed (a b : PhononDos.t) :
  well_formed a -> well_formed b ->
  elementwise_equal (PhononDos.frequencies a) (PhononDos.frequencies b) = true ->
  exists ab,
    PhononDos.__add__ a b = Ok ab
    /\ well_formed ab
    /\ PhononDos.frequencies ab = PhononDos.frequencies a
    /\ forall c,
         well_formed c ->
         elementwise_equal (PhononDos.frequencies a) (PhononDos.frequencies c) = true ->
         exists abc,
           PhononDos.__add__ ab c = Ok abc
           /\ well_formed abc
           /\ PhononDos.frequencies abc = PhononDos.frequencies a
           /\ PhononDos.densities abc
              = Np.map2 PrimFloat.add
                  (Np.map2 PrimFloat.add (PhononDos.densities a) (PhononDos.densities b))
                  (PhononDos.densities c).
Proof.
  intros Ha Hb Hab.
  assert (Hwf : forall u v,
             well_formed u -> well_formed v ->
             elementwise_equal (PhononDos.frequencies u) (PhononDos.frequencies v) = true ->
             well_formed (PhononDos.make (PhononDos.frequencies u)
                            (Np.map2 PrimFloat.add (PhononDos.densities u)
                                                   (PhononDos.densities v)))).
  { intros u v Hu Hv Huv. unfold well_formed in *.
    cbn [PhononDos.frequencies PhononDos.densities].
    pose proof (elementwise_equal_length _ _ Huv) as Hl.
    rewrite length_map2; congruence. }
  eexists. split; [apply add_compatible; assumption|].
  split; [apply Hwf; assumption|]. split; [reflexivity|].
  intros c Hc Hac. eexists.
  split; [apply add_compatible; [apply Hwf; assumption | exact Hc | exact Hac]|].
  split; [|split; reflexivity].
  apply (Hwf (PhononDos.make (PhononDos.frequencies a)
                (Np.map2 PrimFloat.add (PhononDos.densities a) (PhononDos.densities b))) c);
    [apply Hwf; assumption | exact Hc | exact Hac].
Qed.

(** ** plotter.py: units *)

Lemma lstrip_spaces (w s : string) :
  str_all_space w = true -> str_lstrip (w ++ s) = str_lstrip s.
Proof.
  induction w as [|c w IH]; intros Hw; [reflexivity|].
  cbn [str_all_space] in Hw. apply andb_prop in Hw. destruct Hw as [Hc Hw].
  cbn [String.append str_lstrip]. rewrite Hc. apply IH. exact Hw.
Qed.

Lemma rstrip_all_space (w : string) : str_all_space w = true -> str_rstrip w = EmptyString.
Proof.
  induction w as [|c w IH]; intros Hw; [reflexivity|].
  cbn [str_all_space] in Hw. apply andb_prop in Hw. destruct Hw as [Hc Hw].
  cbn [str_rstrip]. rewrite (IH Hw), Hc. reflexivity.
Qed.

Lemma rstrip_spaces (s w : string) :
  str_all_space w = true -> str_rstrip (s ++ w) = str_rstrip s.
Proof.
  intros Hw. induction s as [|c s IH].
  - cbn [String.append]. rewrite (rstrip_all_space _ Hw). reflexivity.
  - cbn [String.append str_rstrip]. rewrite IH. reflexivity.
Qed.

Lemma lstrip_all_space (w : string) : str_all_space w = true -> str_lstrip w = EmptyString.
Proof.
  induction w as [|c w IH]; intros Hw; [reflexivity|].
  cbn [str_all_space] in Hw. apply andb_prop in Hw. destruct Hw as [Hc Hw].
  cbn [str_lstrip]. rewrite Hc. apply IH. exact Hw.
Qed.

Lemma strip_spaces (w1 s w2 : string) :
  str_all_space w1 = true -> str_all_space w2 = true ->
  str_strip (w1 ++ s ++ w2) = str_strip s.
Proof.
  intros H1 H2. unfold str_strip. rewrite (lstrip_spaces _ _ H1).
  induction s as [|c s IH].
  - cbn [String.append]. rewrite (lstrip_all_space _ H2). reflexivity.
  - cbn [String.append str_lstrip]. destruct (chr_isspace c); [exact IH|].
    apply (rstrip_spaces (String c s) _ H2).
Qed.

Lemma lower_app (a b : string) : str_lower (a ++ b) = (str_lower a ++ str_lower b)%string.
Proof.
  induction a as [|c a IH]; [reflexivity|]. cbn [String.append str_lower]. rewrite IH.
  reflexivity.
Qed.

Lemma lower_space (c : Ascii.ascii) : chr_isspace c = true -> chr_lower c = c.
Proof. destruct c as [[] [] [] [] [] [] [] []]; intros Hc; try reflexivity; discriminate. Qed.

Lemma lower_all_space (w : string) : str_all_space w = true -> str_lower w = w.
Proof.
  induction w as [|c w IH]; intros Hw; [reflexivity|].
  cbn [str_all_space] in Hw. apply andb_prop in Hw. destruct Hw as [Hc Hw].
  cbn [str_lower]. rewrite (lower_space _ Hc), (IH Hw). reflexivity.
Qed.

Lemma lower_upper_ascii (c : Ascii.ascii) : chr_lower (ascii_upper c) = chr_lower c.
Proof. destruct c as [[] [] [] [] [] [] [] []]; reflexivity. Qed.

Lemma lower_upper (s : string) : str_lower (str_upper s) = str_lower s.
Proof.
  induction s as [|c s IH]; [reflexivity|].
  cbn [str_upper str_lower]. rewrite lower_upper_ascii, IH. reflexivity.
Qed.

Section FreqUnitsProperties.
Context `{Externals} `{PlotterExternals}.

(** X14: for a name of code points below 256, [freq_units] answers exactly
    when the name, lower-cased and then stripped of white space (U+0085 and
    U+00A0 included), is one of the six unit names, and raises KeyError for
    every other such name; the two spellings of the inverse centimetre give
    one answer. *)
Theorem freq_units_known_names (units : string) :
  (In (str_strip (str_lower units)) unit_names ->
   exists u, freq_units units = Ok u)
  /\ (~ In (str_strip (str_lower units)) unit_names ->
      freq_units units = Raise KeyError)
  /\ freq_units "cm-1" = freq_units "cm^-1".
Proof.
  unfold freq_units. split; [|split; [|reflexivity]].
  - intros Hin. simpl in Hin.
    destruct Hin as [<-|[<-|[<-|[<-|[<-|[<-|[]]]]]]]; eexists; reflexivity.
  - intros Hn.
    destruct (Py.dict_get String.eqb freq_units_dct (str_strip (str_lower units)))
      as [u|] eqn:E; [|reflexivity].
    exfalso. apply Hn.
    apply (dict_get_Some_In String.eqb String.eqb_eq) in E. exact E.
Qed.

(** X15: the answer of [freq_units] does not change when the name is
    written in upper case or is surrounded by white space. *)
Theorem freq_units_ignores_case_and_space (units before after : string) :
  str_all_space before = true -> str_all_space after = true ->
  freq_units (before ++ units ++ after) = freq_units units
  /\ freq_units (str_upper units) = freq_units units
  /\ freq_units (before ++ str_upper units ++ after) = freq_units units.
Proof.
  intros Hb Ha.
  assert (Hspace : forall u, str_strip (str_lower (before ++ u ++ after))
                             = str_strip (str_lower u)).
  { intros u. rewrite !lower_app, (lower_all_space _ Hb), (lower_all_space _ Ha).
    apply strip_spaces; assumption. }
  unfold freq_units. rewrite !Hspace, !lower_upper. auto.
Qed.

End FreqUnitsProperties.

(** ** plotter.py: PhononDosPlotter *)

Lemma get_smeared_densities_cases `{Externals} (d : PhononDos.t) (sigma : float) :
  PhononDos.get_smeared_densities d sigma =
  if List.length (PhononDos.frequencies d) <? 2
  then Raise ZeroDivisionError
  else gaussian_filter1d (PhononDos.densities d)
         (sigma / average_spacing (PhononDos.frequencies d))%float.
Proof.
  unfold PhononDos.get_smeared_densities.
  rewrite differences_by_index, length_consecutive_differences.
  destruct (Nat.ltb_spec (List.length (PhononDos.frequencies d)) 2) as [Hlt|Hge].
  - destruct (Nat.eqb_spec (List.length (PhononDos.frequencies d) - 1) 0); [|lia].
    reflexivity.
  - destruct (Nat.eqb_spec (List.length (PhononDos.frequencies d) - 1) 0); [lia|].
    reflexivity.
Qed.

Lemma In_sorted_insert {A K : Type} (key : A -> K) (key_lt : K -> K -> bool)
    (x a : A) (l : list A) :
  In a (sorted_insert key key_lt x l) <-> a = x \/ In a l.
Proof.
  induction l as [|y l IH]; simpl.
  - intuition congruence.
  - destruct (key_lt (key x) (key y)); simpl; [intuition congruence|].
    rewrite IH. intuition congruence.
Qed.

Lemma In_py_sorted {A K : Type} (key : A -> K) (key_lt : K -> K -> bool)
    (a : A) (l : list A) :
  In a (py_sorted key key_lt l) <-> In a l.
Proof.
  unfold py_sorted.
  assert (Hgen : forall acc, In a (fold_left (fun acc x => sorted_insert key key_lt x acc) l acc)
                             <-> In a acc \/ In a l).
  { induction l as [|x l IH]; intros acc; simpl; [tauto|].
    rewrite IH, In_sorted_insert. intuition congruence. }
  rewrite Hgen. simpl. tauto.
Qed.

Section DosPlotter.
Context `{Externals} `{PlotterExternals}.

Lemma add_dos_without_smearing
    (self : PhononDosPlotter.t) (label : string) (dos : PhononDos.t) :
  PhononDosPlotter.sigma self = None
  \/ (exists s, PhononDosPlotter.sigma self = Some s /\ (s =? 0)%float = true) ->
  PhononDosPlotter.add_dos self label dos =
  Ok (PhononDosPlotter.make (PhononDosPlotter.stack self) (PhononDosPlotter.sigma self)
        (Py.dict_set String.eqb (PhononDosPlotter._doses self) label
           {| PhononDosPlotter.frequencies := PhononDos.frequencies dos;
              PhononDosPlotter.densities := PhononDos.densities dos |})).
Proof.
  unfold PhononDosPlotter.add_dos. intros [Hnone|(s & Hs & Hz)].
  - rewrite Hnone. reflexivity.
  - rewrite Hs, Hz. reflexivity.
Qed.

(** X16: [add_dos] smears only for a [sigma] that is neither [None] nor
    zero.  Without smearing it stores the frequencies and densities of the
    DOS and cannot fail; with smearing a DOS of fewer than two points raises
    ZeroDivisionError, and a longer one is stored with what
    [gaussian_filter1d] returns for [sigma] over the average spacing. *)
Theorem add_dos_smears_for_true_sigma
    (self : PhononDosPlotter.t) (label : string) (dos : PhononDos.t) :
  (PhononDosPlotter.sigma self = None
   \/ (exists s, PhononDosPlotter.sigma self = Some s /\ (s =? 0)%float = true) ->
   PhononDosPlotter.add_dos self label dos =
   Ok (PhononDosPlotter.make (PhononDosPlotter.stack self) (PhononDosPlotter.sigma self)
         (Py.dict_set String.eqb (PhononDosPlotter._doses self) label
            {| PhononDosPlotter.frequencies := PhononDos.frequencies dos;
               PhononDosPlotter.densities := PhononDos.densities dos |})))
  /\ (forall s,
        PhononDosPlotter.sigma self = Some s -> (s =? 0)%float = false ->
        (List.length (PhononDos.frequencies dos) < 2 ->
         PhononDosPlotter.add_dos self label dos = Raise ZeroDivisionError)
        /\ (2 <= List.length (PhononDos.frequencies dos) ->
            PhononDosPlotter.add_dos self label dos =
            (smeared <- gaussian_filter1d (PhononDos.densities dos)
                          (s / average_spacing (PhononDos.frequencies dos))%float ;;
             Ok (PhononDosPlotter.make (PhononDosPlotter.stack self)
                   (PhononDosPlotter.sigma self)
                   (Py.dict_set String.eqb (PhononDosPlotter._doses self) label
                      {| PhononDosPlotter.frequencies := PhononDos.frequencies dos;
                         PhononDosPlotter.densities := smeared |}))))).
Proof.
  split; [apply add_dos_without_smearing|].
  unfold PhononDosPlotter.add_dos.
  intros s Hs Hnz. rewrite Hs, Hnz. cbn [negb].
  rewrite get_smeared_densities_cases. split; intros Hlen.
  - apply Nat.ltb_lt in Hlen. rewrite Hlen. reflexivity.
  - apply Nat.ltb_ge in Hlen. rewrite Hlen. reflexivity.
Qed.

(** X17: after a successful [add_dos] the label answers with the
    frequencies of the DOS, every other label answers as before, and
    [stack] and [sigma] are as before.  A label that was present is
    overwritten where it stands, without an error; a new label goes to the
    end. *)
Theorem add_dos_then_lookup
    (self self' : PhononDosPlotter.t) (label : string) (dos : PhononDos.t) :
  PhononDosPlotter.add_dos self label dos = Ok self' ->
  PhononDosPlotter.stack self' = PhononDosPlotter.stack self
  /\ PhononDosPlotter.sigma self' = PhononDosPlotter.sigma self
  /\ (exists dens,
        Py.dict_get String.eqb (PhononDosPlotter._doses self') label
        = Some {| PhononDosPlotter.frequencies := PhononDos.frequencies dos;
                  PhononDosPlotter.densities := dens |})
  /\ (forall other, other <> label ->
        Py.dict_get String.eqb (PhononDosPlotter._doses self') other
        = Py.dict_get String.eqb (PhononDosPlotter._doses self) other)
  /\ Py.dict_keys (PhononDosPlotter._doses self')
     = match Py.dict_get String.eqb (PhononDosPlotter._doses self) label with
       | Some _ => Py.dict_keys (PhononDosPlotter._doses self)
       | None => Py.dict_keys (PhononDosPlotter._doses self) ++ [label]
       end.
Proof.
  unfold PhononDosPlotter.add_dos. intros Hadd.
  match type of Hadd with
  | Py.bind ?m _ = _ => destruct m as [dens|e]; cbn [Py.bind] in Hadd; [|discriminate]
  end.
  injection Hadd as <-.
  cbn [PhononDosPlotter.stack PhononDosPlotter.sigma PhononDosPlotter._doses].
  split; [reflexivity|]. split; [reflexivity|]. split; [|split].
  - exists dens. rewrite (dict_get_set String.eqb String.eqb_eq), String.eqb_refl.
    reflexivity.
  - intros other Hne. rewrite (dict_get_set String.eqb String.eqb_eq).
    destruct (String.eqb_spec label other); [congruence | reflexivity].
  - apply dict_set_keys.
Qed.

Lemma add_dos_dict_loop (dos_dict : Py.dict string PhononDos.t)
    (keys : list string) :
  (forall k, In k keys -> In k (Py.dict_keys dos_dict)) ->
  forall self : PhononDosPlotter.t,
    (PhononDosPlotter.sigma self = None
     \/ exists s, PhononDosPlotter.sigma self = Some s /\ (s =? 0)%float = true) ->
    fold_left
      (fun state label =>
         match snd state with
         | Some _ => state
         | None =>
             match (dos <- Py.dict_getitem String.eqb dos_dict label ;;
                    PhononDosPlotter.add_dos (fst state) label dos) with
             | Ok self' => (self', None)
             | Raise e => (fst state, Some e)
             end
         end)
      keys (self, None)
    = (PhononDosPlotter.make (PhononDosPlotter.stack self) (PhononDosPlotter.sigma self)
         (fold_left (fun d kv => Py.dict_set String.eqb d (fst kv) (snd kv))
            (map (fun k => (k, match Py.dict_get String.eqb dos_dict k with
                               | Some dos =>
                                   {| PhononDosPlotter.frequencies := PhononDos.frequencies dos;
                                      PhononDosPlotter.densities := PhononDos.densities dos |}
                               | None => {| PhononDosPlotter.frequencies := [];
                                            PhononDosPlotter.densities := [] |}
                               end)) keys)
            (PhononDosPlotter._doses self)),
       None).
Proof.
  induction keys as [|k keys IH]; intros Hkeys self Hsigma.
  - destruct self; reflexivity.
  - cbn [fold_left map snd fst].
    destruct (dict_get_In String.eqb String.eqb_eq dos_dict k (Hkeys k (or_introl eq_refl)))
      as [dos Hdos].
    unfold Py.dict_getitem. rewrite Hdos. cbn [Py.bind].
    rewrite (add_dos_without_smearing self k dos Hsigma).
    rewrite IH.
    + reflexivity.
    + intros k' Hk'. apply Hkeys. right. exact Hk'.
    + exact Hsigma.
Qed.


(** X18: on a plotter that does not smear, [add_dos_dict] raises nothing,
    and afterwards every label of the dict answers with the frequencies and
    densities of its DOS and every other label answers as before, whether
    the labels were sorted by a key function or not. *)
Theorem add_dos_dict_adds_every_label {K : Type} (key_lt : K -> K -> bool)
    (self : PhononDosPlotter.t) (dos_dict : Py.dict string PhononDos.t)
    (key_sort_func : option (string -> K)) :
  PhononDosPlotter.sigma self = None
  \/ (exists s, PhononDosPlotter.sigma self = Some s /\ (s =? 0)%float = true) ->
  snd (PhononDosPlotter.add_dos_dict key_lt self dos_dict key_sort_func) = None
  /\ forall label,
       Py.dict_get String.eqb
         (PhononDosPlotter._doses
            (fst (PhononDosPlotter.add_dos_dict key_lt self dos_dict key_sort_func))) label
       = match Py.dict_get String.eqb dos_dict label with
         | Some dos => Some {| PhononDosPlotter.frequencies := PhononDos.frequencies dos;
                               PhononDosPlotter.densities := PhononDos.densities dos |}
         | None => Py.dict_get String.eqb (PhononDosPlotter._doses self) label
         end.
Proof.
  intros Hsigma. unfold PhononDosPlotter.add_dos_dict.
  set (keys := match key_sort_func with
               | Some f => py_sorted f key_lt (Py.dict_keys dos_dict)
               | None => Py.dict_keys dos_dict
               end).
  assert (Hkeys : forall k, In k keys <-> In k (Py.dict_keys dos_dict)).
  { intros k. unfold keys. destruct key_sort_func as [f|]; [apply In_py_sorted | tauto]. }
  rewrite (add_dos_dict_loop dos_dict keys (fun k Hk => proj1 (Hkeys k) Hk) self Hsigma).
  cbn [fst snd PhononDosPlotter._doses]. split; [reflexivity|].
  intros label. rewrite (dict_get_of_graph String.eqb String.eqb_eq).
  destruct (existsb (String.eqb label) keys) eqn:Hex.
  - apply (existsb_eqb_In String.eqb String.eqb_eq) in Hex. apply Hkeys in Hex.
    destruct (dict_get_In String.eqb String.eqb_eq dos_dict label Hex) as [dos Hdos].
    rewrite Hdos. reflexivity.
  - destruct (Py.dict_get String.eqb dos_dict label) as [dos|] eqn:Hdos; [|reflexivity].
    apply (dict_get_Some_In String.eqb String.eqb_eq) in Hdos. apply Hkeys in Hdos.
    apply (existsb_eqb_In String.eqb String.eqb_eq) in Hdos. congruence.
Qed.

Lemma get_plot_loop_length (stack : bool) (unit_factor : float)
    (doses : list PhononDosPlotter.DosData) :
  forall y all,
    PhononDosPlotter.get_plot_loop stack unit_factor doses y = Ok all ->
    List.length all = List.length doses.
Proof.
  induction doses as [|dos rest IH]; intros y all Hall.
  - injection Hall as <-. reflexivity.
  - cbn [PhononDosPlotter.get_plot_loop] in Hall.
    match type of Hall with
    | Py.bind ?m _ = _ => destruct m as [step|e]; cbn [Py.bind] in Hall; [|discriminate]
    end.
    match type of Hall with
    | Py.bind ?m _ = _ => destruct m as [more|e] eqn:Hmore; cbn [Py.bind] in Hall;
                          [|discriminate]
    end.
    injection Hall as <-. simpl. f_equal. exact (IH _ _ Hmore).
Qed.

Lemma map_fst_enumerate {A : Type} (l : list A) :
  map fst (Py.enumerate l) = seq 0 (List.length l).
Proof.
  unfold Py.enumerate. generalize 0. induction l as [|x l IH]; intros k; [reflexivity|].
  simpl. rewrite IH. reflexivity.
Qed.

Lemma map_snd_enumerate {A : Type} (l : list A) : map snd (Py.enumerate l) = l.
Proof.
  unfold Py.enumerate. generalize 0. induction l as [|x l IH]; intros k; [reflexivity|].
  simpl. rewrite IH. reflexivity.
Qed.

Lemma map_mod_small (n : nat) (l : list nat) :
  Forall (fun i => i < n) l -> map (fun i => i mod n) l = l.
Proof.
  induction 1 as [|i l Hi Hl IH]; [reflexivity|].
  simpl. rewrite IH, Nat.mod_small; [reflexivity | exact Hi].
Qed.

(** X19: [get_plot] gives every curve one of the nine colours: the colour
    index is below 9 for any number of DOSs, there is one curve per DOS, and
    up to nine DOSs get colours that are pairwise different. *)
Theorem get_plot_colors_in_range
    (self : PhononDosPlotter.t) (units : string) (curves : list PhononDosPlotter.Curve) :
  PhononDosPlotter.get_plot_curves self units = Ok curves ->
  List.length curves = List.length (PhononDosPlotter._doses self)
  /\ Forall (fun c => PhononDosPlotter.curve_color c < 9) curves
  /\ (List.length (PhononDosPlotter._doses self) <= 9 ->
      NoDup (map PhononDosPlotter.curve_color curves)).
Proof.
  unfold PhononDosPlotter.get_plot_curves. intros Hc.
  destruct (freq_units units) as [unit|e]; cbn [Py.bind] in Hc; [|discriminate].
  match type of Hc with
  | Py.bind ?m _ = _ => destruct m as [all|e] eqn:Hall; cbn [Py.bind] in Hc; [|discriminate]
  end.
  apply get_plot_loop_length in Hall. rewrite length_map in Hall.
  injection Hc as <-.
  set (zipped := combine (combine (rev (Py.dict_keys (PhononDosPlotter._doses self)))
                                  (rev (map fst all))) (rev (map snd all))).
  assert (Hlen : List.length zipped = List.length (PhononDosPlotter._doses self)).
  { unfold zipped, Py.dict_keys. rewrite !length_combine, !length_rev, !length_map. lia. }
  assert (Hn : 0 < PhononDosPlotter.n_colors self <= 9).
  { unfold PhononDosPlotter.n_colors. lia. }
  split; [|split].
  - rewrite length_map. unfold Py.enumerate.
    rewrite length_combine, length_seq. lia.
  - apply Forall_forall. intros c Hin. apply in_map_iff in Hin.
    destruct Hin as (item & <- & _). cbn [PhononDosPlotter.curve_color].
    pose proof (Nat.mod_upper_bound (fst item) (PhononDosPlotter.n_colors self)). lia.
  - intros Hnine. rewrite map_map. cbn [PhononDosPlotter.curve_color].
    rewrite <- (map_map fst (fun i => i mod PhononDosPlotter.n_colors self)).
    rewrite map_fst_enumerate, map_mod_small; [apply seq_NoDup|].
    apply Forall_forall. intros i Hi. apply in_seq in Hi.
    unfold PhononDosPlotter.n_colors. lia.
Qed.

Lemma map_fst_combine_same {A B : Type} (a : list A) (b : list B) :
  List.length a = List.length b -> map fst (combine a b) = a.
Proof.
  revert b. induction a as [|x a IH]; intros [|y b] Hlen; try discriminate; [reflexivity|].
  simpl. rewrite IH; [reflexivity | simpl in Hlen; lia].
Qed.

Lemma map_snd_combine_same {A B : Type} (a : list A) (b : list B) :
  List.length a = List.length b -> map snd (combine a b) = b.
Proof.
  revert b. induction a as [|x a IH]; intros [|y b] Hlen; try discriminate; [reflexivity|].
  simpl. rewrite IH; [reflexivity | simpl in Hlen; lia].
Qed.

Lemma length_running_sums (ds : list Np.ndarray) :
  forall y, List.length (running_sums y ds) = List.length ds.
Proof.
  induction ds as [|d ds IH]; intros y; [reflexivity|].
  cbn [running_sums List.length]. rewrite IH. reflexivity.
Qed.

Lemma get_plot_loop_uniform (n : nat) (stack : bool) (unit_factor : float)
    (doses : list PhononDosPlotter.DosData) :
  Forall (fun dos => List.length (PhononDosPlotter.frequencies dos) = n
                     /\ List.length (PhononDosPlotter.densities dos) = n) doses ->
  forall y,
    List.length y = n ->
    PhononDosPlotter.get_plot_loop stack unit_factor doses (Some y)
    = Ok (combine (map (fun dos => map (fun f => (f * unit_factor)%float)
                                       (PhononDosPlotter.frequencies dos)) doses)
                  (if stack then running_sums y (map PhononDosPlotter.densities doses)
                   else map PhononDosPlotter.densities doses)).
Proof.
  induction 1 as [|dos rest [Hf Hd] Hrest IH]; intros y Hy.
  - destruct stack; reflexivity.
  - cbn [PhononDosPlotter.get_plot_loop map running_sums combine].
    destruct stack.
    + rewrite Np_iadd_same_length by congruence. cbn [Py.bind fst snd].
      rewrite IH; [reflexivity | rewrite length_map2; congruence].
    + cbn [Py.bind fst snd]. rewrite IH; [reflexivity | exact Hy].
Qed.

(** X20: for DOSs that all have [n] frequencies and [n] densities and a
    known unit, [get_plot] draws the curves in the reverse of the order of
    addition, each with its frequencies times the factor of the unit; in a
    stacked plot the ordinates of a curve are the densities of its DOS and of
    all DOSs added before it, summed elementwise from zeros, and otherwise
    they are the densities of its DOS. *)
Theorem get_plot_stacks_running_sums
    (self : PhononDosPlotter.t) (units : string) (unit : FreqUnits) (n : nat) :
  freq_units units = Ok unit ->
  Forall (fun entry => List.length (PhononDosPlotter.frequencies (snd entry)) = n
                       /\ List.length (PhononDosPlotter.densities (snd entry)) = n)
         (PhononDosPlotter._doses self) ->
  exists curves,
    PhononDosPlotter.get_plot_curves self units = Ok curves
    /\ map PhononDosPlotter.curve_label curves
       = rev (Py.dict_keys (PhononDosPlotter._doses self))
    /\ map PhononDosPlotter.curve_x curves
       = rev (map (fun entry => map (fun f => (f * factor unit)%float)
                                    (PhononDosPlotter.frequencies (snd entry)))
                  (PhononDosPlotter._doses self))
    /\ map PhononDosPlotter.curve_y curves
       = rev (if PhononDosPlotter.stack self
              then running_sums (repeat 0%float n)
                     (map (fun entry => PhononDosPlotter.densities (snd entry))
                          (PhononDosPlotter._doses self))
              else map (fun entry => PhononDosPlotter.densities (snd entry))
                       (PhononDosPlotter._doses self)).
Proof.
  intros Hunit Hlen.
  set (doses := PhononDosPlotter._doses self) in *.
  remember (map (fun dos => map (fun f => (f * factor unit)%float)
                                (PhononDosPlotter.frequencies dos)) (map snd doses))
    as xs eqn:Exs.
  remember (if PhononDosPlotter.stack self
            then running_sums (repeat 0%float n)
                   (map PhononDosPlotter.densities (map snd doses))
            else map PhononDosPlotter.densities (map snd doses))
    as ys eqn:Eys.
  assert (Hloop : PhononDosPlotter.get_plot_loop (PhononDosPlotter.stack self) (factor unit)
                    (map snd doses) None = Ok (combine xs ys)).
  { destruct doses as [|[k0 d0] rest] eqn:Hdoses.
    - subst xs ys. destruct (PhononDosPlotter.stack self); reflexivity.
    - subst xs ys. assert (Hall : Forall (fun dos => List.length (PhononDosPlotter.frequencies dos) = n
                               /\ List.length (PhononDosPlotter.densities dos) = n)
                            (map snd ((k0, d0) :: rest))).
      { apply Forall_map. exact Hlen. }
      pose proof (@get_plot_loop_uniform n (PhononDosPlotter.stack self) (factor unit) _ Hall
                    (repeat 0%float n) (repeat_length _ _))
        as Hgen.
      assert (Hf0 : List.length (PhononDosPlotter.frequencies d0) = n).
      { inversion Hlen as [|? ? Hp _]. exact (proj1 Hp). }
      cbn [map snd]. cbn [map snd] in Hgen.
      cbn [PhononDosPlotter.get_plot_loop] in Hgen |- *.
      rewrite length_map, Hf0. exact Hgen. }
  assert (Hxs : List.length xs = List.length doses).
  { subst xs. rewrite !length_map. reflexivity. }
  assert (Hys : List.length ys = List.length doses).
  { subst ys. destruct (PhononDosPlotter.stack self).
    - rewrite length_running_sums, !length_map. reflexivity.
    - rewrite !length_map. reflexivity. }
  eexists. split.
  { unfold PhononDosPlotter.get_plot_curves. rewrite Hunit. cbn [Py.bind].
    fold doses. rewrite Hloop. cbn [Py.bind]. reflexivity. }
  unfold Np.ndarray in *.
  rewrite (map_fst_combine_same xs ys) by congruence.
  rewrite (map_snd_combine_same xs ys) by congruence.
  assert (Hk : List.length (rev (Py.dict_keys doses)) = List.length (rev xs)).
  { unfold Py.dict_keys. rewrite !length_rev, length_map. congruence. }
  assert (Hkx : List.length (combine (rev (Py.dict_keys doses)) (rev xs))
                = List.length (rev ys)).
  { rewrite length_combine, Hk, Nat.min_id, !length_rev. congruence. }
  split; [|split].
  - rewrite map_map. cbn [PhononDosPlotter.curve_label].
    rewrite <- (map_map snd (fun p => fst (fst p))), map_snd_enumerate.
    rewrite <- (map_map fst fst), (map_fst_combine_same _ _ Hkx).
    apply map_fst_combine_same. exact Hk.
  - rewrite map_map. cbn [PhononDosPlotter.curve_x].
    rewrite <- (map_map snd (fun p => snd (fst p))), map_snd_enumerate.
    rewrite <- (map_map fst snd), (map_fst_combine_same _ _ Hkx).
    rewrite (map_snd_combine_same _ _ Hk). subst xs. rewrite map_map. reflexivity.
  - rewrite map_map. cbn [PhononDosPlotter.curve_y].
    rewrite <- (map_map snd snd), map_snd_enumerate.
    rewrite (map_snd_combine_same _ _ Hkx). subst ys. rewrite !map_map. reflexivity.
Qed.

End DosPlotter.

(** ** plotter.py: ThermoPlotter *)

Section ThermoFacts.
Context `{Externals} `{StructureServices}.

Lemma thermal_methods_without_sites (d : PhononDos.t) (t : float) (s : Structure) :
  sites s = [] ->
  PhononDos.cv d t (Some s) = PhononDos.cv d t None
  /\ PhononDos.entropy d t (Some s) = PhononDos.entropy d t None
  /\ PhononDos.internal_energy d t (Some s) = PhononDos.internal_energy d t None
  /\ PhononDos.helmholtz_free_energy d t (Some s) = PhononDos.helmholtz_free_energy d t None.
Proof.
  intros Hs.
  unfold PhononDos.cv, PhononDos.entropy, PhononDos.internal_energy,
    PhononDos.helmholtz_free_energy.
  destruct (t =? 0)%float.
  - repeat split; apply zero_point_energy_empty; exact Hs.
  - repeat split; run_binds; try reflexivity;
      rewrite per_formula_unit_empty by exact Hs; reflexivity.
Qed.

Lemma thermal_methods_divide (d : PhononDos.t) (t : float) (s : Structure) :
  sites s <> [] ->
  divides_by_formula_units (PhononDos.internal_energy d t) s
  /\ divides_by_formula_units (PhononDos.helmholtz_free_energy d t) s
  /\ ((t =? 0)%float = false ->
      divides_by_formula_units (PhononDos.cv d t) s
      /\ divides_by_formula_units (PhononDos.entropy d t) s).
Proof.
  intros Hs. split; [|split].
  - unfold divides_by_formula_units, PhononDos.internal_energy.
    destruct (t =? 0)%float; [apply zero_point_energy_divides; exact Hs|].
    run_binds; try reflexivity.
    rewrite per_formula_unit_sites by exact Hs. reflexivity.
  - unfold divides_by_formula_units, PhononDos.helmholtz_free_energy.
    destruct (t =? 0)%float; [apply zero_point_energy_divides; exact Hs|].
    run_binds; try reflexivity.
    rewrite per_formula_unit_sites by exact Hs. reflexivity.
  - intros Ht. unfold divides_by_formula_units, PhononDos.cv, PhononDos.entropy.
    rewrite Ht.
    split; run_binds; try reflexivity;
      rewrite per_formula_unit_sites by exact Hs; reflexivity.
Qed.

Lemma thermal_methods_unstable (d : PhononDos.t) (t : float) (structure : option Structure) :
  Forall (fun f => negative f = true) (PhononDos.frequencies d) ->
  PhononDos.internal_energy d t structure = Raise NoPositiveFrequencies
  /\ PhononDos.helmholtz_free_energy d t structure = Raise NoPositiveFrequencies
  /\ ((t =? 0)%float = false ->
      PhononDos.cv d t structure = Raise NoPositiveFrequencies
      /\ PhononDos.entropy d t structure = Raise NoPositiveFrequencies).
Proof.
  intros Hneg. pose proof (ind_zero_freq_all_negative d Hneg) as Hind.
  assert (Hf : PhononDos._positive_frequencies d = Raise NoPositiveFrequencies).
  { unfold PhononDos._positive_frequencies. rewrite Hind. reflexivity. }
  assert (Hz : PhononDos.zero_point_energy d structure = Raise NoPositiveFrequencies).
  { unfold PhononDos.zero_point_energy. rewrite Hf. reflexivity. }
  split; [|split].
  - unfold PhononDos.internal_energy. destruct (t =? 0)%float; [apply Hz|].
    rewrite Hf. reflexivity.
  - unfold PhononDos.helmholtz_free_energy. destruct (t =? 0)%float; [apply Hz|].
    rewrite Hf. reflexivity.
  - intros Ht. unfold PhononDos.cv, PhononDos.entropy. rewrite Ht, Hf. auto.
Qed.

End ThermoFacts.

Lemma thermo_values_ext (f g : float -> option Structure -> result float)
    (sf sg : option Structure) (factor : float) (temperatures : list float) :
  (forall t, In t temperatures -> f t sf = g t sg) ->
  ThermoPlotter.thermo_values f sf factor temperatures
  = ThermoPlotter.thermo_values g sg factor temperatures.
Proof.
  induction temperatures as [|t rest IH]; intros Hext; [reflexivity|].
  cbn [ThermoPlotter.thermo_values].
  rewrite (Hext t (or_introl eq_refl)), IH; [reflexivity|].
  intros t' Ht'. apply Hext. right. exact Ht'.
Qed.

Lemma thermo_values_divided (func : float -> option Structure -> result float)
    (s : Structure) (fu factor : float) (temperatures : list float) :
  PhononDos.formula_units s = Ok fu ->
  (forall t, In t temperatures -> divides_by_formula_units (func t) s) ->
  forall without,
    ThermoPlotter.thermo_values func None factor temperatures = Ok without ->
    exists values,
      Forall2 (fun t value => func t None = Ok value) temperatures values
      /\ without = map (fun value => (value * factor)%float) values
      /\ ThermoPlotter.thermo_values func (Some s) factor temperatures
         = Ok (map (fun value => (value / fu * factor)%float) values).
Proof.
  intros Hfu. induction temperatures as [|t rest IH]; intros Hdiv without Hw.
  - injection Hw as <-. exists []. repeat split. constructor.
  - cbn [ThermoPlotter.thermo_values] in Hw |- *.
    pose proof (Hdiv t (or_introl eq_refl)) as Ht. unfold divides_by_formula_units in Ht.
    rewrite Ht. destruct (func t None) as [v|e] eqn:Hv; cbn [Py.bind] in Hw |- *;
      [|discriminate].
    rewrite Hfu. cbn [Py.bind].
    destruct (ThermoPlotter.thermo_values func None factor rest) as [more|e] eqn:Hmore;
      cbn [Py.bind] in Hw; [|discriminate].
    injection Hw as <-.
    destruct (IH (fun t' Ht' => Hdiv t' (or_intror Ht')) more eq_refl)
      as (values & Hvalues & -> & Hwith).
    exists (v :: values). split; [constructor; [exact Hv | exact Hvalues]|].
    split; [reflexivity|]. rewrite Hwith. reflexivity.
Qed.

Lemma thermo_values_raise (func : float -> option Structure -> result float)
    (structure : option Structure) (factor : float) (e : exn) (temperatures : list float) :
  (forall t, In t temperatures ->
     func t structure = Raise e \/ exists value, func t structure = Ok value) ->
  Exists (fun t => func t structure = Raise e) temperatures ->
  ThermoPlotter.thermo_values func structure factor temperatures = Raise e.
Proof.
  induction temperatures as [|t rest IH]; intros Hall Hex; [inversion Hex|].
  cbn [ThermoPlotter.thermo_values].
  destruct (Hall t (or_introl eq_refl)) as [Hr|[v Hv]].
  - rewrite Hr. reflexivity.
  - rewrite Hv. cbn [Py.bind]. rewrite IH; [reflexivity | |].
    + intros t' Ht'. apply Hall. right. exact Ht'.
    + inversion Hex as [? ? Hhere|? ? Hlater]; subst; [congruence | exact Hlater].
Qed.

Section ThermoPlots.
Context `{Externals} `{PlotterExternals} `{StructureServices}.

Lemma plot_thermo_ext (d : PhononDos.t) (sf sg : option Structure)
    (f g : float -> option Structure -> result float)
    (temperatures : Np.ndarray) (factor : float) (ylabel label : option string) :
  (forall t, In t temperatures -> f t sf = g t sg) ->
  ThermoPlotter._plot_thermo (ThermoPlotter.make d sf) f temperatures factor ylabel label
  = ThermoPlotter._plot_thermo (ThermoPlotter.make d sg) g temperatures factor ylabel label.
Proof.
  intros Hext. unfold ThermoPlotter._plot_thermo. cbn [ThermoPlotter.structure].
  rewrite (@thermo_values_ext f g sf sg factor temperatures Hext). reflexivity.
Qed.

(** X21: a ThermoPlotter whose structure has no site plots what a
    ThermoPlotter without a structure plots: the same values, undivided, and
    the labels per mole of cells ("mol-c"). *)
Theorem thermo_plot_without_sites
    (d : PhononDos.t) (s : Structure) (tmin tmax : float) (ntemp : nat) :
  sites s = [] ->
  ThermoPlotter.plot_cv (ThermoPlotter.make d (Some s)) tmin tmax ntemp
  = ThermoPlotter.plot_cv (ThermoPlotter.make d None) tmin tmax ntemp
  /\ ThermoPlotter.plot_entropy (ThermoPlotter.make d (Some s)) tmin tmax ntemp
     = ThermoPlotter.plot_entropy (ThermoPlotter.make d None) tmin tmax ntemp
  /\ ThermoPlotter.plot_internal_energy (ThermoPlotter.make d (Some s)) tmin tmax ntemp
     = ThermoPlotter.plot_internal_energy (ThermoPlotter.make d None) tmin tmax ntemp
  /\ ThermoPlotter.plot_helmholtz_free_energy (ThermoPlotter.make d (Some s)) tmin tmax ntemp
     = ThermoPlotter.plot_helmholtz_free_energy (ThermoPlotter.make d None) tmin tmax ntemp
  /\ ThermoPlotter.plot_thermodynamic_properties (ThermoPlotter.make d (Some s))
       tmin tmax ntemp
     = ThermoPlotter.plot_thermodynamic_properties (ThermoPlotter.make d None)
         tmin tmax ntemp
  /\ forall c, ThermoPlotter.plot_cv (ThermoPlotter.make d (Some s)) tmin tmax ntemp = Ok c ->
               ThermoPlotter.thermo_ylabel c = Some "$C_v$ (J/K/mol-c)"%string.
Proof.
  intros Hs.
  assert (Hbool : Structure_bool (Some s) = false).
  { unfold Structure_bool, Structure_len. rewrite Hs. reflexivity. }
  assert (Hm : forall t,
             PhononDos.cv d t (Some s) = PhononDos.cv d t None
             /\ PhononDos.entropy d t (Some s) = PhononDos.entropy d t None
             /\ PhononDos.internal_energy d t (Some s) = PhononDos.internal_energy d t None
             /\ PhononDos.helmholtz_free_energy d t (Some s)
                = PhononDos.helmholtz_free_energy d t None).
  { intros t. apply thermal_methods_without_sites. exact Hs. }
  unfold ThermoPlotter.plot_cv, ThermoPlotter.plot_entropy,
    ThermoPlotter.plot_internal_energy, ThermoPlotter.plot_helmholtz_free_energy,
    ThermoPlotter.plot_thermodynamic_properties.
  cbn [ThermoPlotter.structure ThermoPlotter.dos]. rewrite Hbool. cbn [Structure_bool].
  destruct (np_linspace tmin tmax ntemp) as [temperatures|e]; cbn [Py.bind].
  2:{ repeat split; try reflexivity. intros c Hc. discriminate. }
  assert (Hcv : forall ylabel label factor,
             ThermoPlotter._plot_thermo (ThermoPlotter.make d (Some s)) (PhononDos.cv d)
               temperatures factor ylabel label
             = ThermoPlotter._plot_thermo (ThermoPlotter.make d None) (PhononDos.cv d)
                 temperatures factor ylabel label).
  { intros. apply plot_thermo_ext. intros t _. apply (Hm t). }
  assert (Hen : forall ylabel label factor,
             ThermoPlotter._plot_thermo (ThermoPlotter.make d (Some s)) (PhononDos.entropy d)
               temperatures factor ylabel label
             = ThermoPlotter._plot_thermo (ThermoPlotter.make d None) (PhononDos.entropy d)
                 temperatures factor ylabel label).
  { intros. apply plot_thermo_ext. intros t _. apply (Hm t). }
  assert (Hie : forall ylabel label factor,
             ThermoPlotter._plot_thermo (ThermoPlotter.make d (Some s))
               (PhononDos.internal_energy d) temperatures factor ylabel label
             = ThermoPlotter._plot_thermo (ThermoPlotter.make d None)
                 (PhononDos.internal_energy d) temperatures factor ylabel label).
  { intros. apply plot_thermo_ext. intros t _. apply (Hm t). }
  assert (Hfe : forall ylabel label factor,
             ThermoPlotter._plot_thermo (ThermoPlotter.make d (Some s))
               (PhononDos.helmholtz_free_energy d) temperatures factor ylabel label
             = ThermoPlotter._plot_thermo (ThermoPlotter.make d None)
                 (PhononDos.helmholtz_free_energy d) temperatures factor ylabel label).
  { intros. apply plot_thermo_ext. intros t _. apply (Hm t). }
  rewrite !Hcv, !Hen, !Hie, !Hfe.
  repeat split; try reflexivity.
  intros c Hc. unfold ThermoPlotter._plot_thermo in Hc.
  repeat match type of Hc with
         | Py.bind ?m _ = _ => destruct m; cbn [Py.bind] in Hc; [|discriminate]
         end.
  injection Hc as <-. reflexivity.
Qed.

Lemma plot_thermo_divided (d : PhononDos.t) (s : Structure) (fu : float)
    (func : float -> option Structure -> result float)
    (temperatures : Np.ndarray) (factor : float) (ylabel ylabel' label : option string) :
  PhononDos.formula_units s = Ok fu ->
  (forall t, In t temperatures -> divides_by_formula_units (func t) s) ->
  forall without,
    ThermoPlotter._plot_thermo (ThermoPlotter.make d None) func temperatures factor
      ylabel label = Ok without ->
    exists with_structure,
      ThermoPlotter._plot_thermo (ThermoPlotter.make d (Some s)) func temperatures factor
        ylabel' label = Ok with_structure
      /\ plots_per_formula_unit func factor fu without with_structure
      /\ ThermoPlotter.thermo_ylabel with_structure
         = match ylabel' with
           | Some text => if String.eqb text "" then None else Some text
           | None => None
           end.
Proof.
  intros Hfu Hdiv without Hw. unfold ThermoPlotter._plot_thermo in Hw |- *.
  cbn [ThermoPlotter.structure] in Hw |- *.
  destruct (ThermoPlotter.thermo_values func None factor temperatures) as [ys|e] eqn:Hys;
    cbn [Py.bind] in Hw; [|discriminate].
  destruct (@thermo_values_divided func s fu factor temperatures Hfu Hdiv ys Hys)
    as (values & Hvalues & -> & Hwith).
  rewrite Hwith. cbn [Py.bind].
  destruct (Np_min temperatures) as [lo|e]; cbn [Py.bind] in Hw |- *; [|discriminate].
  destruct (Np_max temperatures) as [hi|e]; cbn [Py.bind] in Hw |- *; [|discriminate].
  injection Hw as <-. eexists. split; [reflexivity|]. split; [|reflexivity].
  unfold plots_per_formula_unit. cbn. split; [reflexivity|]. split; [reflexivity|].
  exists values. auto.
Qed.

(** X22: with a structure that has sites, the energy plots show per mole of
    formula units ("mol") what they show per mole of cells without the
    structure: the same temperatures and axis limits, and every value of
    [internal_energy] or [helmholtz_free_energy] divided by [formula_units]
    before the factor 1e-3.  The same holds for [plot_cv] and [plot_entropy]
    over temperatures none of which is zero. *)
Theorem thermo_plot_per_formula_unit
    (d : PhononDos.t) (s : Structure) (fu tmin tmax : float) (ntemp : nat)
    (temperatures : Np.ndarray) :
  sites s <> [] ->
  PhononDos.formula_units s = Ok fu ->
  np_linspace tmin tmax ntemp = Ok temperatures ->
  (forall without,
     ThermoPlotter.plot_internal_energy (ThermoPlotter.make d None) tmin tmax ntemp
     = Ok without ->
     exists with_structure,
       ThermoPlotter.plot_internal_energy (ThermoPlotter.make d (Some s)) tmin tmax ntemp
       = Ok with_structure
       /\ plots_per_formula_unit (PhononDos.internal_energy d) 1e-3 fu without with_structure
       /\ ThermoPlotter.thermo_ylabel without = Some "$\Delta E$ (kJ/mol-c)"%string
       /\ ThermoPlotter.thermo_ylabel with_structure = Some "$\Delta E$ (kJ/mol)"%string)
  /\ (forall without,
        ThermoPlotter.plot_helmholtz_free_energy (ThermoPlotter.make d None) tmin tmax ntemp
        = Ok without ->
        exists with_structure,
          ThermoPlotter.plot_helmholtz_free_energy (ThermoPlotter.make d (Some s))
            tmin tmax ntemp = Ok with_structure
          /\ plots_per_formula_unit (PhononDos.helmholtz_free_energy d) 1e-3 fu
               without with_structure
          /\ ThermoPlotter.thermo_ylabel without = Some "$\Delta F$ (kJ/mol-c)"%string
          /\ ThermoPlotter.thermo_ylabel with_structure = Some "$\Delta F$ (kJ/mol)"%string)
  /\ (Forall (fun t => (t =? 0)%float = false) temperatures ->
      (forall without,
         ThermoPlotter.plot_cv (ThermoPlotter.make d None) tmin tmax ntemp = Ok without ->
         exists with_structure,
           ThermoPlotter.plot_cv (ThermoPlotter.make d (Some s)) tmin tmax ntemp
           = Ok with_structure
           /\ plots_per_formula_unit (PhononDos.cv d) 1 fu without with_structure
           /\ ThermoPlotter.thermo_ylabel without = Some "$C_v$ (J/K/mol-c)"%string
           /\ ThermoPlotter.thermo_ylabel with_structure = Some "$C_v$ (J/K/mol)"%string)
      /\ (forall without,
            ThermoPlotter.plot_entropy (ThermoPlotter.make d None) tmin tmax ntemp
            = Ok without ->
            exists with_structure,
              ThermoPlotter.plot_entropy (ThermoPlotter.make d (Some s)) tmin tmax ntemp
              = Ok with_structure
              /\ plots_per_formula_unit (PhononDos.entropy d) 1 fu without with_structure
              /\ ThermoPlotter.thermo_ylabel without = Some "$S$ (J/K/mol-c)"%string
              /\ ThermoPlotter.thermo_ylabel with_structure = Some "$S$ (J/K/mol)"%string)).
Proof.
  intros Hs Hfu Hlin.
  assert (Hbool : Structure_bool (Some s) = true).
  { unfold Structure_bool, Structure_len. destruct (sites s); [congruence | reflexivity]. }
  assert (Hlabel : forall func factor text without,
             ThermoPlotter._plot_thermo (ThermoPlotter.make d None) func temperatures factor
               (Some text) None = Ok without ->
             ThermoPlotter.thermo_ylabel without
             = if String.eqb text "" then None else Some text).
  { intros func factor text without Hw. unfold ThermoPlotter._plot_thermo in Hw.
    repeat match type of Hw with
           | Py.bind ?m _ = _ => destruct m; cbn [Py.bind] in Hw; [|discriminate]
           end.
    injection Hw as <-. reflexivity. }
  unfold ThermoPlotter.plot_cv, ThermoPlotter.plot_entropy,
    ThermoPlotter.plot_internal_energy, ThermoPlotter.plot_helmholtz_free_energy.
  cbn [ThermoPlotter.structure ThermoPlotter.dos]. rewrite Hbool, Hlin. cbn [Py.bind Structure_bool].
  split; [|split; [|intros Hnz; split]]; intros without Hw.
  - destruct (@plot_thermo_divided d s fu (PhononDos.internal_energy d) temperatures _
                (Some "$\Delta E$ (kJ/mol-c)"%string) (Some "$\Delta E$ (kJ/mol)"%string)
                None Hfu
                (fun t _ => proj1 (thermal_methods_divide d t s Hs)) without Hw)
      as (c & Hc & Hper & Hyl).
    exists c. split; [exact Hc|]. split; [exact Hper|].
    split; [exact (Hlabel _ _ _ _ Hw) | exact Hyl].
  - destruct (@plot_thermo_divided d s fu (PhononDos.helmholtz_free_energy d) temperatures _
                (Some "$\Delta F$ (kJ/mol-c)"%string) (Some "$\Delta F$ (kJ/mol)"%string)
                None Hfu
                (fun t _ => proj1 (proj2 (thermal_methods_divide d t s Hs))) without Hw)
      as (c & Hc & Hper & Hyl).
    exists c. split; [exact Hc|]. split; [exact Hper|].
    split; [exact (Hlabel _ _ _ _ Hw) | exact Hyl].
  - rewrite Forall_forall in Hnz.
    destruct (@plot_thermo_divided d s fu (PhononDos.cv d) temperatures _
                (Some "$C_v$ (J/K/mol-c)"%string) (Some "$C_v$ (J/K/mol)"%string)
                None Hfu
                (fun t Ht => proj1 (proj2 (proj2 (thermal_methods_divide d t s Hs))
                                      (Hnz t Ht))) without Hw)
      as (c & Hc & Hper & Hyl).
    exists c. split; [exact Hc|]. split; [exact Hper|].
    split; [exact (Hlabel _ _ _ _ Hw) | exact Hyl].
  - rewrite Forall_forall in Hnz.
    destruct (@plot_thermo_divided d s fu (PhononDos.entropy d) temperatures _
                (Some "$S$ (J/K/mol-c)"%string) (Some "$S$ (J/K/mol)"%string)
                None Hfu
                (fun t Ht => proj2 (proj2 (proj2 (thermal_methods_divide d t s Hs))
                                      (Hnz t Ht))) without Hw)
      as (c & Hc & Hper & Hyl).
    exists c. split; [exact Hc|]. split; [exact Hper|].
    split; [exact (Hlabel _ _ _ _ Hw) | exact Hyl].
Qed.

(** X23: over an empty range of temperatures ([ntemp = 0], for which
    [np.linspace] returns an empty array) every plot method raises the
    ValueError of the minimum of an empty array, whatever the DOS and the
    structure. *)
Theorem thermo_plot_empty_range (self : ThermoPlotter.t) (tmin tmax : float) (ntemp : nat) :
  np_linspace tmin tmax ntemp = Ok [] ->
  let error := Raise (ValueError
                 "zero-size array to reduction operation minimum which has no identity") in
  ThermoPlotter.plot_cv self tmin tmax ntemp = error
  /\ ThermoPlotter.plot_entropy self tmin tmax ntemp = error
  /\ ThermoPlotter.plot_internal_energy self tmin tmax ntemp = error
  /\ ThermoPlotter.plot_helmholtz_free_energy self tmin tmax ntemp = error
  /\ ThermoPlotter.plot_thermodynamic_properties self tmin tmax ntemp = Raise
       (ValueError "zero-size array to reduction operation minimum which has no identity").
Proof.
  intros Hlin error.
  unfold ThermoPlotter.plot_cv, ThermoPlotter.plot_entropy,
    ThermoPlotter.plot_internal_energy, ThermoPlotter.plot_helmholtz_free_energy,
    ThermoPlotter.plot_thermodynamic_properties.
  rewrite Hlin. repeat split; reflexivity.
Qed.

(** X24: for a DOS whose frequencies are all negative, over a non-empty
    range of temperatures, [plot_internal_energy],
    [plot_helmholtz_free_energy] and [plot_thermodynamic_properties] raise the
    "No positive frequencies found" error.  [plot_cv] and [plot_entropy]
    raise it as soon as one temperature is not zero; over temperatures that
    are all zero they plot the value [0 * 1] at each. *)
Theorem thermo_plot_unstable (self : ThermoPlotter.t) (tmin tmax : float) (ntemp : nat)
    (temperatures : Np.ndarray) :
  Forall (fun f => negative f = true) (PhononDos.frequencies (ThermoPlotter.dos self)) ->
  np_linspace tmin tmax ntemp = Ok temperatures ->
  temperatures <> [] ->
  ThermoPlotter.plot_internal_energy self tmin tmax ntemp = Raise NoPositiveFrequencies
  /\ ThermoPlotter.plot_helmholtz_free_energy self tmin tmax ntemp
     = Raise NoPositiveFrequencies
  /\ (Exists (fun t => (t =? 0)%float = false) temperatures ->
      ThermoPlotter.plot_cv self tmin tmax ntemp = Raise NoPositiveFrequencies
      /\ ThermoPlotter.plot_entropy self tmin tmax ntemp = Raise NoPositiveFrequencies
      /\ ThermoPlotter.plot_thermodynamic_properties self tmin tmax ntemp
         = Raise NoPositiveFrequencies)
  /\ (Forall (fun t => (t =? 0)%float = true) temperatures ->
      (exists c, ThermoPlotter.plot_cv self tmin tmax ntemp = Ok c
                 /\ ThermoPlotter.thermo_y c = map (fun _ => (0 * 1)%float) temperatures)
      /\ (exists c, ThermoPlotter.plot_entropy self tmin tmax ntemp = Ok c
                    /\ ThermoPlotter.thermo_y c = map (fun _ => (0 * 1)%float) temperatures)
      /\ ThermoPlotter.plot_thermodynamic_properties self tmin tmax ntemp
         = Raise NoPositiveFrequencies).
Proof.
  intros Hneg Hlin Hne.
  pose proof (fun t => thermal_methods_unstable (ThermoPlotter.dos self) t
                         (ThermoPlotter.structure self) Hneg) as Hm.
  assert (Hfirst : forall func factor,
             (forall t, func t (ThermoPlotter.structure self) = Raise NoPositiveFrequencies) ->
             ThermoPlotter.thermo_values func (ThermoPlotter.structure self) factor temperatures
             = Raise NoPositiveFrequencies).
  { intros func factor Hf. destruct temperatures as [|t rest]; [congruence|].
    cbn [ThermoPlotter.thermo_values]. rewrite Hf. reflexivity. }
  assert (Hsome : forall func factor,
             (forall t, (t =? 0)%float = true ->
                        func t (ThermoPlotter.structure self) = Ok 0%float) ->
             (forall t, (t =? 0)%float = false ->
                        func t (ThermoPlotter.structure self) = Raise NoPositiveFrequencies) ->
             Exists (fun t => (t =? 0)%float = false) temperatures ->
             ThermoPlotter.thermo_values func (ThermoPlotter.structure self) factor temperatures
             = Raise NoPositiveFrequencies).
  { intros func factor Hz Hnz Hex. apply thermo_values_raise.
    - intros t _. destruct (t =? 0)%float eqn:Ht; [right; eauto | left; auto].
    - eapply Exists_impl; [|exact Hex]. intros t Ht. apply Hnz. exact Ht. }
  assert (Hzero : forall func factor,
             (forall t, (t =? 0)%float = true ->
                        func t (ThermoPlotter.structure self) = Ok 0%float) ->
             Forall (fun t => (t =? 0)%float = true) temperatures ->
             ThermoPlotter.thermo_values func (ThermoPlotter.structure self) factor temperatures
             = Ok (map (fun _ => (0 * factor)%float) temperatures)).
  { intros func factor Hz Hall. clear Hne Hlin Hfirst Hsome.
    induction Hall as [|t rest Ht Hrest IH]; [reflexivity|].
    cbn [ThermoPlotter.thermo_values map]. rewrite (Hz t Ht). cbn [Py.bind].
    rewrite IH. reflexivity. }
  assert (Hcv0 : forall t, (t =? 0)%float = true ->
                           PhononDos.cv (ThermoPlotter.dos self) t (ThermoPlotter.structure self)
                           = Ok 0%float).
  { intros t Ht. unfold PhononDos.cv. rewrite Ht. reflexivity. }
  assert (Hen0 : forall t, (t =? 0)%float = true ->
                           PhononDos.entropy (ThermoPlotter.dos self) t
                             (ThermoPlotter.structure self) = Ok 0%float).
  { intros t Ht. unfold PhononDos.entropy. rewrite Ht. reflexivity. }
  unfold ThermoPlotter.plot_cv, ThermoPlotter.plot_entropy,
    ThermoPlotter.plot_internal_energy, ThermoPlotter.plot_helmholtz_free_energy,
    ThermoPlotter.plot_thermodynamic_properties, ThermoPlotter._plot_thermo.
  rewrite Hlin. cbn [Py.bind].
  split; [|split; [|split]].
  - rewrite Hfirst; [reflexivity|]. intros t. apply (Hm t).
  - rewrite Hfirst; [reflexivity|]. intros t. apply (Hm t).
  - intros Hex.
    rewrite !(Hsome (PhononDos.cv (ThermoPlotter.dos self)) 1%float Hcv0
                (fun t Ht => proj1 (proj2 (proj2 (Hm t)) Ht)) Hex).
    rewrite !(Hsome (PhononDos.entropy (ThermoPlotter.dos self)) 1%float Hen0
                (fun t Ht => proj2 (proj2 (proj2 (Hm t)) Ht)) Hex).
    repeat split; reflexivity.
  - intros Hall.
    rewrite !(Hzero (PhononDos.cv (ThermoPlotter.dos self)) 1%float Hcv0 Hall).
    rewrite !(Hzero (PhononDos.entropy (ThermoPlotter.dos self)) 1%float Hen0 Hall).
    rewrite (Hfirst (PhononDos.internal_energy (ThermoPlotter.dos self)) 1e-3%float
               (fun t => proj1 (Hm t))).
    cbn [Py.bind].
    destruct temperatures as [|t rest]; [congruence|].
    cbn [Np_min Np_max Py.bind]. split; [|split].
    + eexists. split; reflexivity.
    + eexists. split; reflexivity.
    + reflexivity.
Qed.

End ThermoPlots.

(** * Further properties at the samples *)

Lemma energy_model_from_dict_errors_witness :
  EnergyModel.from_dict IsingModel_init
    [ ("version"%string, EnergyModel.Str "0.1") ] = Raise KeyError
  /\ SymmetryModel.__init__ [ ("symprec"%string, 0.1%float); ("tolerance"%string, 5%float) ]
     = Raise TypeError
  /\ IsingModel_init [ ("j"%string, 1%float) ] = Raise TypeError
  /\ NsitesModel_init [ ("j"%string, 1%float) ] = Raise TypeError.
Proof.
  destruct energy_model_from_dict_errors as (H1 & _ & H3 & _ & H5 & H6).
  split; [apply H1; reflexivity|].
  split.
  { apply (H3 _ "tolerance"%string).
    - simpl. auto.
    - simpl. intros [E|[E|[]]]; discriminate E. }
  split; [apply H5; right; reflexivity|].
  apply H6. discriminate.
Defined.

Lemma energy_model_defaults_witness :
  exists m,
    EwaldElectrostaticModel.__init__ [ ("eta"%string, Some 0.5%float) ] = Ok m
    /\ Py.dict_get String.eqb (EwaldElectrostaticModel.init_args m) "eta"%string
       = Some (Some 0.5%float)
    /\ Py.dict_get String.eqb (EwaldElectrostaticModel.init_args m) "acc_factor"%string
       = Some (Some 8.0%float).
Proof.
  destruct (proj1 energy_model_defaults [ ("eta"%string, Some 0.5%float) ])
    as (m & Hm & Hget).
  { intros k Hk. simpl in Hk. destruct Hk as [<-|[]]. simpl. auto. }
  exists m. split; [exact Hm|]. split.
  - apply (Hget "eta"%string None). simpl. auto.
  - apply (Hget "acc_factor"%string (Some 8.0%float)). simpl. auto 6.
Defined.

Lemma ising_energy_enumeration_bounds_witness :
  @IsingModel.get_energy two_list_services sample_power sample_ising empty_structure = Raise IndexError
  /\ @IsingModel.get_energy sample_services sample_power sample_ising iron_pair
     = Ok (Py.sum (map (@pair_term sample_power 1)
                       (ordered_pairs (sites iron_pair)
                          (@get_all_neighbors sample_services iron_pair 3%float)))).
Proof.
  split.
  - apply (proj1 (@ising_energy_enumeration_bounds two_list_services sample_power sample_ising
                    empty_structure)).
    simpl. lia.
  - apply (proj2 (@ising_energy_enumeration_bounds sample_services sample_power sample_ising iron_pair)).
    simpl. lia.
Defined.

Lemma ising_energy_without_spin_witness :
  @IsingModel.get_energy sample_services sample_power sample_ising oxygen_pair = Ok 0%float
  /\ @IsingModel.get_energy sample_services sample_power sample_ising lone_iron = Ok 0%float.
Proof.
  split.
  - apply (proj1 (@ising_energy_without_spin sample_services sample_power sample_ising oxygen_pair
                    (le_n 2))).
    + reflexivity.
    + vm_compute. repeat constructor.
  - apply (proj2 (@ising_energy_without_spin sample_services sample_power sample_ising lone_iron
                    (le_n 1))).
    vm_compute. repeat constructor.
Defined.

Lemma repr_counts_positive_frequencies_witness :
  dos_repr (IsPhononDos unstable_dos) = Raise NoPositiveFrequencies
  /\ dos_repr (IsCompletePhononDos sample_complete_dos)
     = Ok "CompletePhononDos(frequencies=(4,), densities=(4,), n_positive_freqs=3)"%string.
Proof.
  split.
  - apply (proj1 (repr_counts_positive_frequencies (IsPhononDos unstable_dos))).
    exact unstable_dos_all_negative.
  - apply (proj2 (repr_counts_positive_frequencies (IsCompletePhononDos sample_complete_dos))
             eq_refl 1).
    exact sample_dos_first_nonneg.
Defined.

Lemma get_site_dos_of_init_witness :
  CompletePhononDos.get_site_dos
    (CompletePhononDos.__init__ sample_structure sample_dos
       (CompletePhononDos.pdos sample_complete_dos)) site_O
  = Ok (PhononDos.make (PhononDos.frequencies sample_dos) [0; 0; 0.5; 0]%float)
  /\ CompletePhononDos.get_site_dos
       (CompletePhononDos.__init__ sample_structure sample_dos
          (CompletePhononDos.pdos partly_projected_dos)) site_O
     = Raise KeyError.
Proof.
  split.
  - apply (@get_site_dos_of_init sample_structure sample_dos
             (CompletePhononDos.pdos sample_complete_dos) site_O).
    exact sample_sites_NoDup.
  - apply (@get_site_dos_of_init sample_structure sample_dos
             (CompletePhononDos.pdos partly_projected_dos) site_O).
    repeat constructor. simpl. tauto.
Defined.

Lemma get_element_dos_keys_witness :
  exists el_dos,
    get_element_dos sample_complete_dos = Ok el_dos
    /\ NoDup (Py.dict_keys el_dos)
    /\ In (specie site_O) (Py.dict_keys el_dos).
Proof.
  destruct (@get_element_dos_keys sample_complete_dos 4) as (el_dos & H1 & H2 & H3 & _).
  { repeat constructor. }
  exists el_dos. split; [exact H1|]. split; [exact H2|].
  apply H3. exists site_O. split; [simpl; auto | reflexivity].
Defined.

Lemma get_element_dos_sums_sites_witness :
  exists el_dos,
    get_element_dos sample_complete_dos = Ok el_dos
    /\ Py.dict_get Species_eqb el_dos (specie site_O)
       = Some (PhononDos.make (PhononDos.frequencies sample_dos)
                 (Np.map2 PrimFloat.add [0; 0; 0.5; 0]%float [0; 0; 0.5; 1]%float)).
Proof.
  destruct (@get_element_dos_sums_sites sample_complete_dos 4) as (el_dos & H1 & H2).
  { repeat constructor. }
  exists el_dos. split; [exact H1|]. exact (H2 (specie site_O)).
Defined.

Lemma positive_frequencies_are_nonneg_witness :
  exists freqs dens,
    PhononDos._positive_frequencies sample_dos = Ok freqs
    /\ PhononDos._positive_densities sample_dos = Ok dens
    /\ freqs <> []
    /\ Forall (fun f => nonneg f = true) freqs
    /\ List.length dens = List.length freqs.
Proof.
  destruct (@positive_frequencies_are_nonneg sample_dos eq_refl sample_dos_has_nonneg)
    as (freqs & dens & H1 & H2 & H3 & H4 & _ & H6).
  exists freqs, dens. repeat (split; [assumption|]). apply H6. reflexivity.
Defined.

Lemma from_dict_reads_its_keys_witness :
  @PhononDos.from_dict sample_services
    [ ("frequencies"%string, @PyList sample_services [1%float]) ] = Raise KeyError
  /\ @PhononDos.from_dict sample_services
       [ ("@class"%string, @PyStr sample_services "PhononDos");
         ("frequencies"%string, @PyList sample_services [1%float]);
         ("densities"%string, @PyList sample_services [2%float]) ]
     = Ok (PhononDos.make [1%float] [2%float])
  /\ @CompletePhononDos.from_dict sample_services
       [ ("@class"%string, @PyStr sample_services "PhononDos");
         ("frequencies"%string, @PyList sample_services [1%float]);
         ("densities"%string, @PyList sample_services [2%float]) ]
     = Raise KeyError.
Proof.
  split.
  - apply (proj1 (@from_dict_reads_its_keys sample_services
                    [ ("frequencies"%string, @PyList sample_services [1%float]) ])).
    right. reflexivity.
  - destruct (proj2 (@from_dict_reads_its_keys sample_services
                       [ ("@class"%string, @PyStr sample_services "PhononDos");
                         ("frequencies"%string, @PyList sample_services [1%float]);
                         ("densities"%string, @PyList sample_services [2%float]) ])
                [1%float] [2%float] eq_refl eq_refl) as (Hp & Hs & _).
    split; [exact Hp|]. apply Hs. reflexivity.
Defined.

Lemma complete_as_dict_missing_site_witness :
  (exists dct,
     @CompletePhononDos.as_dict sample_services unprojected_dos = Ok dct
     /\ Py.dict_get String.eqb dct "pdos"%string = Some (@PyListOfLists sample_services []))
  /\ @CompletePhononDos.as_dict sample_services partly_projected_dos = Raise KeyError.
Proof.
  split.
  - apply (proj1 (@complete_as_dict_missing_site sample_services unprojected_dos)).
    reflexivity.
  - apply (proj2 (@complete_as_dict_missing_site sample_services partly_projected_dos)).
    + discriminate.
    + exists site_O. split; [simpl; auto | reflexivity].
Defined.

Lemma add_keeps_well_formed_witness :
  exists ab abc,
    PhononDos.__add__ sample_dos sample_dos2 = Ok ab
    /\ PhononDos.__add__ ab sample_dos2 = Ok abc
    /\ well_formed abc
    /\ PhononDos.frequencies abc = PhononDos.frequencies sample_dos.
Proof.
  destruct (@add_keeps_well_formed sample_dos sample_dos2 eq_refl eq_refl eq_refl)
    as (ab & Hab & _ & _ & Hc).
  destruct (Hc sample_dos2 eq_refl eq_refl) as (abc & Habc & Hwf & Hf & _).
  exists ab, abc. auto.
Defined.

Lemma freq_units_known_names_witness :
  (exists u, @freq_units sample_externals sample_plotter_externals " THz" = Ok u)
  /\ (exists u, @freq_units sample_externals sample_plotter_externals
                  ("thz" ++ String (Ascii.ascii_of_nat 160) EmptyString) = Ok u)
  /\ @freq_units sample_externals sample_plotter_externals "hz" = Raise KeyError.
Proof.
  split; [|split].
  - apply (proj1 (@freq_units_known_names sample_externals sample_plotter_externals " THz")).
    vm_compute. auto.
  - apply (proj1 (@freq_units_known_names sample_externals sample_plotter_externals
                    ("thz" ++ String (Ascii.ascii_of_nat 160) EmptyString))).
    vm_compute. auto.
  - apply (proj1 (proj2 (@freq_units_known_names sample_externals sample_plotter_externals
                           "hz"))).
    vm_compute. intros [E|[E|[E|[E|[E|[E|[]]]]]]]; discriminate E.
Defined.

Lemma freq_units_ignores_case_and_space_witness :
  @freq_units sample_externals sample_plotter_externals "  meV "
  = @freq_units sample_externals sample_plotter_externals "meV"
  /\ @freq_units sample_externals sample_plotter_externals "MEV"
     = @freq_units sample_externals sample_plotter_externals "meV".
Proof.
  destruct (@freq_units_ignores_case_and_space sample_externals sample_plotter_externals
              "meV" "  " " " eq_refl eq_refl) as (H1 & H2 & _).
  split; [exact H1 | exact H2].
Defined.

Lemma add_dos_smears_for_true_sigma_witness :
  @PhononDosPlotter.add_dos sample_externals (PhononDosPlotter.__init__ false (Some 0%float))
    "total" single_point_dos
  = Ok (PhononDosPlotter.make false (Some 0%float)
          [ ("total"%string,
             {| PhononDosPlotter.frequencies := [1%float];
                PhononDosPlotter.densities := [1%float] |}) ])
  /\ @PhononDosPlotter.add_dos sample_externals smearing_plotter "total" single_point_dos
     = Raise ZeroDivisionError.
Proof.
  split.
  - apply (proj1 (@add_dos_smears_for_true_sigma sample_externals
                    (PhononDosPlotter.__init__ false (Some 0%float)) "total"
                    single_point_dos)).
    right. exists 0%float. split; reflexivity.
  - apply (proj1 (proj2 (@add_dos_smears_for_true_sigma sample_externals smearing_plotter
                           "total" single_point_dos) 0.5%float eq_refl eq_refl)).
    simpl. lia.
Defined.

Lemma add_dos_then_lookup_witness :
  Py.dict_keys (PhononDosPlotter._doses sample_plotter) = [ "total"; "other" ]%string
  /\ exists dens,
       Py.dict_get String.eqb (PhononDosPlotter._doses sample_plotter) "other"%string
       = Some {| PhononDosPlotter.frequencies := PhononDos.frequencies sample_dos2;
                 PhononDosPlotter.densities := dens |}.
Proof.
  destruct (@add_dos_then_lookup sample_externals
              (PhononDosPlotter.make true None
                 [ ("total"%string,
                    {| PhononDosPlotter.frequencies := PhononDos.frequencies sample_dos;
                       PhononDosPlotter.densities := PhononDos.densities sample_dos |}) ])
              sample_plotter "other" sample_dos2 eq_refl)
    as (_ & _ & Hget & _ & Hkeys).
  split; [exact Hkeys | exact Hget].
Defined.

Lemma add_dos_dict_adds_every_label_witness :
  snd (@PhononDosPlotter.add_dos_dict sample_externals string (fun _ _ => false)
         (PhononDosPlotter.__init__ true None) sample_dos_dict None) = None
  /\ Py.dict_get String.eqb
       (PhononDosPlotter._doses
          (fst (@PhononDosPlotter.add_dos_dict sample_externals string (fun _ _ => false)
                  (PhononDosPlotter.__init__ true None) sample_dos_dict None)))
       "other"%string
     = Some {| PhononDosPlotter.frequencies := PhononDos.frequencies sample_dos2;
               PhononDosPlotter.densities := PhononDos.densities sample_dos2 |}.
Proof.
  destruct (@add_dos_dict_adds_every_label sample_externals string (fun _ _ => false)
              (PhononDosPlotter.__init__ true None) sample_dos_dict None
              (or_introl eq_refl)) as [Hnone Hget].
  split; [exact Hnone | exact (Hget "other"%string)].
Defined.

Lemma get_plot_colors_in_range_witness :
  exists curves,
    @PhononDosPlotter.get_plot_curves sample_externals sample_plotter_externals
      sample_plotter "thz" = Ok curves
    /\ List.length curves = 2
    /\ Forall (fun c => PhononDosPlotter.curve_color c < 9) curves
    /\ NoDup (map PhononDosPlotter.curve_color curves).
Proof.
  assert (Hc : exists curves,
             @PhononDosPlotter.get_plot_curves sample_externals sample_plotter_externals
               sample_plotter "thz" = Ok curves).
  { vm_compute. eexists. reflexivity. }
  destruct Hc as [curves Hc]. exists curves.
  destruct (@get_plot_colors_in_range sample_externals sample_plotter_externals
              sample_plotter "thz" curves Hc) as (Hlen & Hlt & Hnd).
  split; [exact Hc|]. split; [exact Hlen|]. split; [exact Hlt|].
  apply Hnd. simpl. lia.
Defined.

Lemma get_plot_stacks_running_sums_witness :
  exists curves,
    @PhononDosPlotter.get_plot_curves sample_externals sample_plotter_externals
      sample_plotter "thz" = Ok curves
    /\ map PhononDosPlotter.curve_label curves = [ "other"; "total" ]%string
    /\ map PhononDosPlotter.curve_y curves
       = [ [1; 1; 3; 3]%float; [0; 0; 2; 2]%float ].
Proof.
  destruct (@get_plot_stacks_running_sums sample_externals sample_plotter_externals
              sample_plotter "thz" {| factor := 1; label := "THz" |} 4 eq_refl)
    as (curves & Hc & Hlabels & _ & Hy).
  { repeat constructor. }
  exists curves. split; [exact Hc|]. split; [exact Hlabels | exact Hy].
Defined.

Lemma thermo_plot_without_sites_witness :
  @ThermoPlotter.plot_cv sample_externals sample_plotter_externals
    (ThermoPlotter.make sample_dos (Some empty_structure)) 100 300 3
  = @ThermoPlotter.plot_cv sample_externals sample_plotter_externals
      (ThermoPlotter.make sample_dos None) 100 300 3
  /\ @ThermoPlotter.plot_thermodynamic_properties sample_externals sample_plotter_externals
       (ThermoPlotter.make sample_dos (Some empty_structure)) 100 300 3
     = @ThermoPlotter.plot_thermodynamic_properties sample_externals sample_plotter_externals
         (ThermoPlotter.make sample_dos None) 100 300 3.
Proof.
  destruct (@thermo_plot_without_sites sample_externals sample_plotter_externals
              sample_dos empty_structure 100%float 300%float 3 eq_refl)
    as (Hcv & _ & _ & _ & Hall & _).
  split; [exact Hcv | exact Hall].
Defined.

Lemma thermo_plot_per_formula_unit_witness :
  exists without with_structure,
    @ThermoPlotter.plot_internal_energy sample_externals sample_plotter_externals
      (ThermoPlotter.make positive_dos None) 100 300 3 = Ok without
    /\ @ThermoPlotter.plot_internal_energy sample_externals sample_plotter_externals
         (ThermoPlotter.make positive_dos (Some sample_structure)) 100 300 3
       = Ok with_structure
    /\ plots_per_formula_unit (@PhononDos.internal_energy sample_externals positive_dos)
         1e-3 2 without with_structure
    /\ ThermoPlotter.thermo_ylabel with_structure = Some "$\Delta E$ (kJ/mol)"%string.
Proof.
  assert (Hw : exists without,
             @ThermoPlotter.plot_internal_energy sample_externals sample_plotter_externals
               (ThermoPlotter.make positive_dos None) 100 300 3 = Ok without).
  { vm_compute. eexists. reflexivity. }
  destruct Hw as [without Hw].
  destruct (proj1 (@thermo_plot_per_formula_unit sample_externals sample_plotter_externals
                     positive_dos sample_structure 2%float 100%float 300%float 3 _
                     sample_structure_has_sites eq_refl eq_refl) without Hw)
    as (with_structure & Hc & Hper & _ & Hlabel).
  exists without, with_structure. auto.
Defined.

Lemma thermo_plot_empty_range_witness :
  @ThermoPlotter.plot_cv sample_externals sample_plotter_externals
    sample_thermo_plotter 100 300 0
  = Raise (ValueError "zero-size array to reduction operation minimum which has no identity").
Proof.
  apply (@thermo_plot_empty_range sample_externals sample_plotter_externals
           sample_thermo_plotter 100%float 300%float 0 eq_refl).
Defined.

Lemma thermo_plot_unstable_witness :
  @ThermoPlotter.plot_internal_energy sample_externals sample_plotter_externals
    (ThermoPlotter.make unstable_dos None) 100 300 3 = Raise NoPositiveFrequencies
  /\ @ThermoPlotter.plot_cv sample_externals sample_plotter_externals
       (ThermoPlotter.make unstable_dos None) 100 300 3 = Raise NoPositiveFrequencies
  /\ exists c,
       @ThermoPlotter.plot_cv sample_externals sample_plotter_externals
         (ThermoPlotter.make unstable_dos None) 0 0 2 = Ok c
       /\ ThermoPlotter.thermo_y c = [ (0 * 1)%float; (0 * 1)%float ].
Proof.
  destruct (@thermo_plot_unstable sample_externals sample_plotter_externals
              (ThermoPlotter.make unstable_dos None) 100%float 300%float 3 _
              unstable_dos_all_negative eq_refl) as (Hie & _ & Hcv & _).
  { discriminate. }
  split; [exact Hie|]. split.
  { apply Hcv. apply Exists_cons_hd. reflexivity. }
  destruct (@thermo_plot_unstable sample_externals sample_plotter_externals
              (ThermoPlotter.make unstable_dos None) 0%float 0%float 2 _
              unstable_dos_all_negative eq_refl) as (_ & _ & _ & Hzero).
  { discriminate. }
  destruct Hzero as ((c & Hc & Hy) & _).
  { repeat constructor. }
  exists c. split; [exact Hc | exact Hy].
Defined.
